(** * fast-trips: the passenger assignment loop of [Assignment.py]

    A shallow embedding of the parts of [fasttrips/Assignment.py] that
    load passengers on vehicles, flag missed transfers, bump passengers
    off over-capacity boardings and drive the outer iterations.

    Conventions of the embedding:
    - a pandas data frame is a [list] of rows, in row order; a row is a
      record that holds the columns the embedded function reads or writes;
    - a NaN / NaT / missing cell is [None];
    - [datetime64] and [timedelta64] values are integers ([Z]) counted in
      seconds;
    - Python floats are exact rationals ([Q]): rounding is not modelled;
    - a Python exception is the [Raise] case of [result];
    - which of several rows with equal keys comes first is not modelled:
      pandas lists the groups of a [groupby] by sorted key and leaves the
      ties of a single-key [sort_values] to an unstable sort, the embedding
      lists groups by first appearance and sorts stably.  The statements
      below hold whichever of the tied rows comes first. *)

From Stdlib Require Import String ZArith QArith Qminmax Bool Lia.
From Stdlib Require Import List Permutation Sorted.
Import ListNotations.

Local Open Scope Z_scope.

(** ** Python outcomes *)

Module Py.

Inductive exn : Type :=
| ZeroDivisionError
| AttributeError
| AssertionError
| KeyboardInterrupt
| SystemExit (code : Z).

Inductive result (A : Type) : Type :=
| Ok (a : A)
| Raise (e : exn).

Arguments Ok {A} a.
Arguments Raise {A} e.

Definition bind {A B} (r : result A) (k : A -> result B) : result B :=
  match r with
  | Ok a => k a
  | Raise e => Raise e
  end.

(** [a / b] on floats: raises [ZeroDivisionError] when [b] is zero. *)
Definition truediv (a b : Q) : result Q :=
  if Qeq_bool b 0 then Raise ZeroDivisionError else Ok (a / b)%Q.

(** [sys.exit(code)] *)
Definition sys_exit {A} (code : Z) : result A := Raise (SystemExit code).

End Py.

Notation "x <- c1 ;; c2" := (Py.bind c1 (fun x => c2))
  (at level 61, c1 at next level, right associativity).

(** ** Data-frame operations *)

Module Frame.

Section Merge.
Context {L R : Type}.
Variable on : L -> R -> bool.

  (** [pandas.merge(left, right, how="left")]: every left row, in order, once
      per matching right row, or once with missing right columns. *)
Definition merge_left (left : list L) (right : list R) : list (L * option R) :=
    flat_map (fun l =>
                match filter (on l) right with
                | [] => [(l, None)]
                | ms => map (fun r => (l, Some r)) ms
                end) left.

  (** the left rows whose right columns are null after the merge *)
Definition anti_join (left : list L) (right : list R) : list L :=
    map fst (filter (fun lr => match snd lr with None => true | Some _ => false end)
                    (merge_left left right)).
End Merge.

Section Dedup.
Context {A : Type}.
Variable same : A -> A -> bool.

  (** [drop_duplicates(subset=...)] with the default [keep='first'];
      [seen] holds the rows already kept, latest first. *)
Fixpoint drop_duplicates_from (seen : list A) (l : list A) : list A :=
    match l with
    | [] => []
    | x :: rest =>
        if existsb (same x) seen then drop_duplicates_from seen rest
        else x :: drop_duplicates_from (x :: seen) rest
    end.

Definition drop_duplicates (l : list A) : list A := drop_duplicates_from [] l.
End Dedup.

Section Sort.
Context {A : Type}.
Variable leb : A -> A -> bool.

Fixpoint insert (x : A) (l : list A) : list A :=
    match l with
    | [] => [x]
    | y :: rest => if leb x y then x :: l else y :: insert x rest
    end.

  (** [sort_values]: a stable sort, rows that tie keep their order. *)
Definition sort_values (l : list A) : list A := fold_right insert [] l.
End Sort.

Section Compare.
Context {A : Type}.

(** sorting on several columns: the first comparison that is not [Eq] *)
Definition lex_compare (c1 c2 : A -> A -> comparison) (a b : A) : comparison :=
  match c1 a b with Eq => c2 a b | c => c end.

(** ascending, missing values last *)
Definition compare_nulls_last (a b : option Z) : comparison :=
  match a, b with
  | Some x, Some y => x ?= y
  | Some _, None => Lt
  | None, Some _ => Gt
  | None, None => Eq
  end.

Definition leb_of (cmp : A -> A -> comparison) (a b : A) : bool :=
  match cmp a b with Gt => false | _ => true end.

(** [cmp] compares like a total preorder *)
Definition orders (cmp : A -> A -> comparison) : Prop :=
  (forall a b, cmp b a = CompOpp (cmp a b)) /\
  (forall a b c, cmp a b = Eq -> cmp a c = cmp b c) /\
  (forall a b c, cmp a b = Lt -> cmp b c <> Gt -> cmp a c = Lt).
End Compare.

End Frame.

(** ** The outer driver: [assign_paths] and [generate_pathsets] *)

Module Driver.

(** *** Capacity gap, the last step of each iteration of [assign_paths] *)

Record IterationReport : Type := mkReport {
  total_assigned : Z;     (* num_paths_found *)
  arrived : Z;            (* num_passengers_arrived *)
  missed : Z;             (* num_bumped_passengers *)
  capacity_gap : Q
}.

Definition capacity_gap_of (num_paths_found num_passengers_arrived : Z) : Py.result Q :=
  let num_bumped_passengers := num_paths_found - num_passengers_arrived in
  if 0 <? num_paths_found
  then Py.truediv (100 * inject_Z num_bumped_passengers)%Q (inject_Z num_paths_found)
  else Py.Ok 100%Q.

Definition report_iteration (num_paths_found num_passengers_arrived : Z)
  : Py.result IterationReport :=
  gap <- capacity_gap_of num_paths_found num_passengers_arrived ;;
  Py.Ok (mkReport num_paths_found num_passengers_arrived
                  (num_paths_found - num_passengers_arrived) gap).

(** *** Worker count of [generate_pathsets] *)

Section Workers.
  (** [Assignment.NUMBER_OF_PROCESSES] and [multiprocessing.cpu_count()] *)
Variables (NUMBER_OF_PROCESSES cpu_count : Z).

Definition num_processes_for (est_paths_to_find : Z) : Z :=
    let num_processes :=
      if NUMBER_OF_PROCESSES <? 1 then cpu_count else NUMBER_OF_PROCESSES in
    (* it's not worth it unless each process does 3 *)
    if est_paths_to_find * 3 <? num_processes
    then est_paths_to_find / 3
    else num_processes.

  (** the queues and worker processes are set up when [num_processes > 1] *)
Definition uses_pool (est_paths_to_find : Z) : bool :=
    1 <? num_processes_for est_paths_to_find.
End Workers.

(** *** Which requests are pathfound: [filter_trip_list_to_not_arrived],
        the start of [generate_pathsets], and [merge_pathsets] *)

(** a row of [trip_list_df]; [goes_somewhere] is the answer of the request's
    [PathSet.goes_somewhere()] *)
Record TripListRow : Type := mkTrip {
  person_id : string;
  trip_list_id_num : Z;
  goes_somewhere : bool
}.

(** a row of [pathset_paths_df] *)
Record PathRow : Type := mkPath {
  path_trip_list_id_num : Z;
  pathnum : Z;
  pf_cost : Q;
  pf_probability : Q;
  chosen : Q;
  missed_xfer : Z
}.

(** a row of [pathset_links_df], as far as the merge looks at it *)
Record LinkRow : Type := mkLinkRow {
  link_trip_list_id_num : Z;
  link_pathnum : Z;
  linknum : Z
}.

Definition CHOSEN_NOT_CHOSEN_YET : Q := -1.
Definition CHOSEN_REJECTED : Q := -2.

Definition is_chosen (p : PathRow) : bool := Qle_bool 0 (chosen p).

Definition filter_trip_list_to_not_arrived
  (trip_list_df : list TripListRow) (pathset_paths_df : list PathRow) : list TripListRow :=
  (* filter to only the chosen paths *)
  let chosen_paths_df := filter is_chosen pathset_paths_df in
  (* add chosen index, use it to filter to null chosen *)
  Frame.anti_join (fun t p => trip_list_id_num t =? path_trip_list_id_num p)
                  trip_list_df chosen_paths_df.

(** the class attributes that the driver reads and writes *)
Record Globals : Type := mkGlobals {
  PATHFINDING_EVERYONE : bool;
  DEBUG_TRACE_ONLY : bool;
  TRACE_PERSON_IDS : list string
}.

(** [generate_pathsets] up to the choice of [pathfind_trip_list_df].  On odd
    iterations the source assigns a local variable named
    [PATHFINDING_EVERYONE], which leaves the class attribute as it was. *)
Definition choose_pathfind_trip_list (iteration : Z) (g : Globals)
  (trip_list_df : list TripListRow) (pathset_paths_df : list PathRow)
  : Globals * list TripListRow :=
  if iteration mod 2 =? 0
  then (mkGlobals false (DEBUG_TRACE_ONLY g) (TRACE_PERSON_IDS g),
        filter_trip_list_to_not_arrived trip_list_df pathset_paths_df)
  else (g, trip_list_df).

(** the rows of [pathfind_trip_list_df] that the loop of [generate_pathsets]
    hands to [find_trip_based_pathset] or to the work queue *)
Definition requests_searched (g : Globals) (pathfind_trip_list_df : list TripListRow)
  : list TripListRow :=
  filter (fun t =>
            let trace_person := existsb (String.eqb (person_id t)) (TRACE_PERSON_IDS g) in
            negb (DEBUG_TRACE_ONLY g && negb trace_person) && goes_somewhere t)
         pathfind_trip_list_df.

Definition reset_new_path (p : PathRow) : PathRow :=
  mkPath (path_trip_list_id_num p) (pathnum p) (pf_cost p) (pf_probability p)
         CHOSEN_NOT_CHOSEN_YET 0.

Definition merge_pathsets (pathfind_trip_list_df : list TripListRow)
  (pathset_paths_df : list PathRow) (pathset_links_df : list LinkRow)
  (new_pathset_paths_df : list PathRow) (new_pathset_links_df : list LinkRow)
  : list PathRow * list LinkRow :=
  (* filter out the new pathset person trips, then append *)
  let kept_paths :=
    Frame.anti_join (fun p t => path_trip_list_id_num p =? trip_list_id_num t)
                    pathset_paths_df pathfind_trip_list_df in
  let kept_links :=
    Frame.anti_join (fun l t => link_trip_list_id_num l =? trip_list_id_num t)
                    pathset_links_df pathfind_trip_list_df in
  (kept_paths ++ map reset_new_path new_pathset_paths_df,
   kept_links ++ new_pathset_links_df).

(** [pathset_paths_df[trip_list_id_num].nunique()] *)
Definition number_of_pathsets (pathset_paths_df : list PathRow) : Z :=
  Z.of_nat (length (nodup Z.eq_dec (map path_trip_list_id_num pathset_paths_df))).

(** [assign_paths] between pathfinding and simulation: [generated] is what
    [generate_pathsets] returned *)
Definition update_pathsets (g : Globals) (generated : Z)
  (pathfind_trip_list_df : list TripListRow)
  (pathset_paths_df : list PathRow) (pathset_links_df : list LinkRow)
  (new_pathset_paths_df : list PathRow) (new_pathset_links_df : list LinkRow)
  : Z * (list PathRow * list LinkRow) :=
  if PATHFINDING_EVERYONE g
  then (generated, (new_pathset_paths_df, new_pathset_links_df))
  else
    let merged := merge_pathsets pathfind_trip_list_df pathset_paths_df pathset_links_df
                                 new_pathset_paths_df new_pathset_links_df in
    (number_of_pathsets (fst merged), merged).

Definition paths_of (trip_list_id : Z) (paths : list PathRow) : list PathRow :=
  filter (fun p => path_trip_list_id_num p =? trip_list_id) paths.

Definition links_of (trip_list_id : Z) (links : list LinkRow) : list LinkRow :=
  filter (fun l => link_trip_list_id_num l =? trip_list_id) links.

(** *** Cancellation: the [except (KeyboardInterrupt, SystemExit)] handler of
        [generate_pathsets] *)

(** the Python values the handler meets *)
Inductive pyval : Type :=
| PyInt (n : Z)
| PyProcess (pid : nat).

(** a value of [process_dict]: {"process":..., "alive":..., "done":...} *)
Record WorkerEntry : Type := mkWorker {
  process : nat;
  alive : bool;
  done : bool
}.

(** workernum -> entry, in key order *)
Definition ProcessDict : Type := list (Z * WorkerEntry).

(** the worker processes that are running *)
Definition Running : Type := list nat.

(** [v.terminate()]: an int has no such attribute *)
Definition call_terminate (v : pyval) (running : Running) : Running * Py.result unit :=
  match v with
  | PyProcess pid => (remove Nat.eq_dec pid running, Py.Ok tt)
  | PyInt _ => (running, Py.Raise Py.AttributeError)
  end.

(** [for proc in ...: proc.terminate()] *)
Fixpoint terminate_each (procs : list pyval) (running : Running)
  : Running * Py.result unit :=
  match procs with
  | [] => (running, Py.Ok tt)
  | proc :: rest =>
      match call_terminate proc running with
      | (running', Py.Ok _) => terminate_each rest running'
      | (running', Py.Raise e) => (running', Py.Raise e)
      end
  end.

(** iterating a dict yields its keys *)
Definition iter_dict (process_dict : ProcessDict) : list pyval :=
  map (fun kv => PyInt (fst kv)) process_dict.

(** The handler: which processes still run afterwards, and the exception that
    leaves [generate_pathsets]. *)
Definition on_keyboard_interrupt (process_dict : ProcessDict) (running : Running)
  : Running * Py.exn :=
  match terminate_each (iter_dict process_dict) running with
  | (running', Py.Ok _) => (running', Py.SystemExit 2)
  | (running', Py.Raise e) => (running', e)
  end.

(** Where the interrupt arrives.  While the driver waits in
    [done_queue.get(True, 30)] it is inside the inner [try], whose bare
    [except:] logs the exception and goes on with the loop. *)
Inductive InterruptPoint : Type :=
| WaitingForResult
| Elsewhere.

(** [None]: nothing leaves [generate_pathsets], the result loop goes on. *)
Definition interrupt_outcome (at_ : InterruptPoint) (process_dict : ProcessDict)
  (running : Running) : Running * option Py.exn :=
  match at_ with
  | WaitingForResult => (running, None)
  | Elsewhere =>
      let '(running', e) := on_keyboard_interrupt process_dict running in
      (running', Some e)
  end.

(** the processes of [process_dict] *)
Definition workers_of (process_dict : ProcessDict) : list nat :=
  map (fun kv => process (snd kv)) process_dict.

End Driver.

(** ** Group-wise running aggregates *)

Module Group.

Section Running.
Context {K V : Type}.
Variable same : K -> K -> bool.
Variable add : V -> V -> V.

  (** [groupby(...).cumsum()]: [acc] holds the running total of every group *)
Fixpoint cumsum_from (acc : K -> V) (rows : list (K * V)) : list V :=
    match rows with
    | [] => []
    | (k, x) :: rest =>
        let s := add (acc k) x in
        s :: cumsum_from (fun k' => if same k' k then s else acc k') rest
    end.
End Running.

Section Counting.
Context {K : Type}.
Variable same : K -> K -> bool.

  (** [groupby(...).cumcount()]: the rows of each group numbered from 0 *)
Fixpoint cumcount_from (acc : K -> Z) (keys : list K) : list Z :=
    match keys with
    | [] => []
    | k :: rest =>
        acc k :: cumcount_from (fun k' => if same k' k then acc k + 1 else acc k') rest
    end.

Definition cumcount (keys : list K) : list Z := cumcount_from (fun _ => 0) keys.

  (** the first row of every group, groups in order of first appearance *)
Definition first_of_groups {A : Type} (key : A -> K) (rows : list A) : list A :=
    Frame.drop_duplicates (fun a b => same (key a) (key b)) rows.
End Counting.

End Group.

(** ** Simulation: loading vehicles and enforcing capacity *)

Module Sim.

(** a row of [pathset_links_df] *)
Record PaxLink : Type := mkLink {
  person_id : string;
  trip_list_id_num : Z;
  pathnum : Z;
  linknum : Z;
  trip_id_num : option Z;        (* null on access, egress and transfer links *)
  A_id_num : Z;
  A_seq : Z;
  B_id_num : Z;
  B_seq : Z;
  pf_A_time : Z;
  new_A_time : option Z;
  chosen : Q;
  bump_iter : Z;
  bumpstop_boarded : option Z;
  overcap : option Z             (* set by find_passenger_vehicle_times *)
}.

(** a row of [veh_trips_df] / [veh_loaded_df] *)
Record VehRow : Type := mkVeh {
  veh_trip_id_num : Z;
  veh_stop_sequence : Z;
  veh_stop_id_num : Z;
  veh_arrival_time : Z;
  veh_capacity : Z;
  veh_boards : Z;
  veh_alights : Z;
  veh_onboard : Z;
  veh_overcap : Z;
  veh_msa_boards : Q;
  veh_msa_alights : Q;
  veh_msa_onboard : Q;
  veh_msa_overcap : Q
}.

(** a row of [Assignment.bump_wait_df] *)
Record BumpWaitRow : Type := mkBumpWait {
  bw_trip_id_num : Z;
  bw_stop_sequence : Z;
  bw_stop_id_num : Z;
  bw_pf_A_time : Z
}.

Definition set_boards_alights (v : VehRow) (b a : Z) : VehRow :=
  mkVeh (veh_trip_id_num v) (veh_stop_sequence v) (veh_stop_id_num v) (veh_arrival_time v)
        (veh_capacity v) b a (veh_onboard v) (veh_overcap v)
        (veh_msa_boards v) (veh_msa_alights v) (veh_msa_onboard v) (veh_msa_overcap v).

Definition set_msa_boards_alights (v : VehRow) (b a : Q) : VehRow :=
  mkVeh (veh_trip_id_num v) (veh_stop_sequence v) (veh_stop_id_num v) (veh_arrival_time v)
        (veh_capacity v) (veh_boards v) (veh_alights v) (veh_onboard v) (veh_overcap v)
        b a (veh_msa_onboard v) (veh_msa_overcap v).

Definition set_onboard (v : VehRow) (o : Z) (msa_o : Q) : VehRow :=
  mkVeh (veh_trip_id_num v) (veh_stop_sequence v) (veh_stop_id_num v) (veh_arrival_time v)
        (veh_capacity v) (veh_boards v) (veh_alights v) o (veh_overcap v)
        (veh_msa_boards v) (veh_msa_alights v) msa_o (veh_msa_overcap v).

Definition set_veh_overcap (v : VehRow) (oc : Z) : VehRow :=
  mkVeh (veh_trip_id_num v) (veh_stop_sequence v) (veh_stop_id_num v) (veh_arrival_time v)
        (veh_capacity v) (veh_boards v) (veh_alights v) (veh_onboard v) oc
        (veh_msa_boards v) (veh_msa_alights v) (veh_msa_onboard v) (veh_msa_overcap v).

Definition set_msa_overcap (v : VehRow) (oc : Q) : VehRow :=
  mkVeh (veh_trip_id_num v) (veh_stop_sequence v) (veh_stop_id_num v) (veh_arrival_time v)
        (veh_capacity v) (veh_boards v) (veh_alights v) (veh_onboard v) (veh_overcap v)
        (veh_msa_boards v) (veh_msa_alights v) (veh_msa_onboard v) oc.

Definition set_overcap (l : PaxLink) (oc : option Z) : PaxLink :=
  mkLink (person_id l) (trip_list_id_num l) (pathnum l) (linknum l) (trip_id_num l)
         (A_id_num l) (A_seq l) (B_id_num l) (B_seq l) (pf_A_time l) (new_A_time l)
         (chosen l) (bump_iter l) (bumpstop_boarded l) oc.

Definition set_bump_iter (l : PaxLink) (bi : Z) : PaxLink :=
  mkLink (person_id l) (trip_list_id_num l) (pathnum l) (linknum l) (trip_id_num l)
         (A_id_num l) (A_seq l) (B_id_num l) (B_seq l) (pf_A_time l) (new_A_time l)
         (chosen l) bi (bumpstop_boarded l) (overcap l).

Definition set_bumpstop_boarded (l : PaxLink) (b : option Z) : PaxLink :=
  mkLink (person_id l) (trip_list_id_num l) (pathnum l) (linknum l) (trip_id_num l)
         (A_id_num l) (A_seq l) (B_id_num l) (B_seq l) (pf_A_time l) (new_A_time l)
         (chosen l) (bump_iter l) b (overcap l).

(** *** [put_passengers_on_vehicles] *)

(** Modelled from the spec: [Passenger.get_chosen_links] is not part of
    [Assignment.py]; the loader works on "the set of currently chosen
    path-links", the links whose [chosen] status is at least 0. *)
Definition get_chosen_links (pathset_links_df : list PaxLink) : list PaxLink :=
  filter (fun l => Qle_bool 0 (chosen l)) pathset_links_df.

(** the link boards the vehicle at this (trip, stop, sequence) *)
Definition boards_here (v : VehRow) (l : PaxLink) : bool :=
  match trip_id_num l with
  | Some t => (t =? veh_trip_id_num v) && (A_id_num l =? veh_stop_id_num v)
              && (A_seq l =? veh_stop_sequence v)
  | None => false
  end.

Definition alights_here (v : VehRow) (l : PaxLink) : bool :=
  match trip_id_num l with
  | Some t => (t =? veh_trip_id_num v) && (B_id_num l =? veh_stop_id_num v)
              && (B_seq l =? veh_stop_sequence v)
  | None => false
  end.

Definition count_rows {A : Type} (f : A -> bool) (l : list A) : Z :=
  Z.of_nat (List.length (filter f l)).

(** the index set by [set_index([trip_id_num, stop_sequence])] *)
Definition veh_index (v : VehRow) : Z * Z := (veh_trip_id_num v, veh_stop_sequence v).

Definition same_index (i j : Z * Z) : bool := (fst i =? fst j) && (snd i =? snd j).

Definition msa (msa_lambda raw prev : Q) : Q :=
  (msa_lambda * raw + (1 - msa_lambda) * prev)%Q.

(** boards - alights of a row, and the same on the MSA columns *)
Definition net_boards (u : VehRow) : Z := veh_boards u - veh_alights u.
Definition net_msa_boards (u : VehRow) : Q := (veh_msa_boards u - veh_msa_alights u)%Q.

Definition count_boards_alights (unbumped : list PaxLink) (veh_trips_df : list VehRow)
  : list VehRow :=
  map (fun v => set_boards_alights v (count_rows (boards_here v) unbumped)
                                     (count_rows (alights_here v) unbumped))
      veh_trips_df.

Definition msa_boards_alights (msa_lambda : Q) (veh_loaded_df : list VehRow) : list VehRow :=
  map (fun v => set_msa_boards_alights v
                  (msa msa_lambda (inject_Z (veh_boards v)) (veh_msa_boards v))
                  (msa msa_lambda (inject_Z (veh_alights v)) (veh_msa_alights v)))
      veh_loaded_df.

(** [groupby(level=[0]).cumsum()] of boards - alights and of their MSA
    versions, under the index (trip_id_num, stop_sequence) *)
Definition trips_cumsum (veh_loaded_df : list VehRow) : list ((Z * Z) * (Z * Q)) :=
  let onboard :=
    Group.cumsum_from Z.eqb Z.add (fun _ => 0)
      (map (fun v => (veh_trip_id_num v, net_boards v)) veh_loaded_df) in
  let msa_onboard :=
    Group.cumsum_from Z.eqb Qplus (fun _ => 0%Q)
      (map (fun v => (veh_trip_id_num v, net_msa_boards v)) veh_loaded_df) in
  combine (map veh_index veh_loaded_df) (combine onboard msa_onboard).

(** the cumulative sums joined back on the index *)
Definition join_onboard (veh_loaded_df : list VehRow) : list VehRow :=
  map (fun vc => match snd vc with
                 | Some c => set_onboard (fst vc) (fst (snd c)) (snd (snd c))
                 | None => fst vc   (* every row finds at least its own index *)
                 end)
      (Frame.merge_left (fun v c => same_index (veh_index v) (fst c))
                        veh_loaded_df (trips_cumsum veh_loaded_df)).

Definition put_passengers_on_vehicles (iteration bump_iter_now : Z)
  (pathset_links_df : list PaxLink) (veh_trips_df : list VehRow)
  : Py.result (list VehRow) :=
  let passengers_df := get_chosen_links pathset_links_df in
  let unbumped := filter (fun l => bump_iter l =? -1) passengers_df in
  (* boards and alights: group, count, join, fill the gaps with 0 *)
  let veh_loaded_df := count_boards_alights unbumped veh_trips_df in
  (* MSA the boards and alights *)
  veh_loaded_df <-
    (if bump_iter_now =? 0
     then msa_lambda <- Py.truediv 1 (inject_Z iteration) ;;
          Py.Ok (msa_boards_alights msa_lambda veh_loaded_df)
     else Py.Ok veh_loaded_df) ;;
  (* on board is the cumulative sum of boards - alights *)
  let veh_loaded_df := join_onboard veh_loaded_df in
  if (List.length veh_loaded_df =? List.length veh_trips_df)%nat
  then Py.Ok veh_loaded_df
  else Py.Raise Py.AssertionError.

(** the table that [put_passengers_on_vehicles] hands to the cumulative sum,
    when [iteration] is not 0 *)
Definition loaded_before_onboard (iteration bump_iter_now : Z)
  (pathset_links_df : list PaxLink) (veh_trips_df : list VehRow) : list VehRow :=
  let unbumped := filter (fun l => bump_iter l =? -1) (get_chosen_links pathset_links_df) in
  let veh_loaded_df := count_boards_alights unbumped veh_trips_df in
  if bump_iter_now =? 0
  then msa_boards_alights (1 / inject_Z iteration) veh_loaded_df
  else veh_loaded_df.

(** the rows of a trip listed by strictly increasing sequence *)
Fixpoint in_sequence_order (veh : list VehRow) : bool :=
  match veh with
  | [] => true
  | v :: rest =>
      forallb (fun u => negb (veh_trip_id_num u =? veh_trip_id_num v)
                        || (veh_stop_sequence v <? veh_stop_sequence u)) rest
      && in_sequence_order rest
  end.

Definition sum_Z (l : list Z) : Z := fold_right Z.add 0 l.
Definition sum_Q (l : list Q) : Q := fold_right Qplus 0%Q l.

(** the rows of the table at (trip, sequence, stop) *)
Definition veh_at (trip seq_ stop : Z) (veh : list VehRow) : list VehRow :=
  filter (fun u => (veh_trip_id_num u =? trip) && (veh_stop_id_num u =? stop)
                   && (veh_stop_sequence u =? seq_)) veh.

(** the rows of trip [t] up to sequence [k] *)
Definition upto (t k : Z) (veh : list VehRow) : list VehRow :=
  filter (fun u => (veh_trip_id_num u =? t) && (veh_stop_sequence u <=? k)) veh.

(** [msa_onboard] is the running sum of [msa_boards - msa_alights] along each
    trip, as the loader leaves it *)
Definition msa_onboard_consistent (veh : list VehRow) : bool :=
  forallb (fun v =>
             Qeq_bool (veh_msa_onboard v)
                      (sum_Q (map net_msa_boards
                                  (upto (veh_trip_id_num v) (veh_stop_sequence v) veh))))
          veh.

End Sim.

(** ** Capacity enforcement: [find_passenger_vehicle_times] and
       [flag_bump_overcap_passengers] *)

Module Bump.
Import Sim.

(** the class attributes read by the capacity step *)
Record Settings : Type := mkSettings {
  CAPACITY_CONSTRAINT : bool;
  BUMP_ONE_AT_A_TIME : bool
}.

Definition is_some {A : Type} (o : option A) : bool :=
  match o with Some _ => true | None => false end.

(** [find_passenger_vehicle_times], as far as the overcap column goes: the
    links joined to the vehicle rows at the A stop, then at the B stop *)
Definition find_passenger_vehicle_times (pathset_links_df : list PaxLink)
  (veh_trips_df : list VehRow) : list PaxLink :=
  let at_A :=
    map (fun lv => set_overcap (fst lv) (option_map veh_overcap (snd lv)))
        (Frame.merge_left (fun l v => boards_here v l) pathset_links_df veh_trips_df) in
  map fst (Frame.merge_left (fun l v => alights_here v l) at_A veh_trips_df).

(** step 1: overcap = onboard - capacity, negatives kept; the MSA overcap is
    set once, in the very first pass, with negatives set to zero *)
Definition compute_overcap (iteration simulation_iteration bump_iter_now : Z)
  (veh_loaded_df : list VehRow) : list VehRow :=
  let veh_loaded_df :=
    map (fun v => set_veh_overcap v (veh_onboard v - veh_capacity v)) veh_loaded_df in
  if (iteration =? 1) && (simulation_iteration =? 0) && (bump_iter_now =? 0)
  then map (fun v =>
              let oc := (veh_msa_onboard v - inject_Z (veh_capacity v))%Q in
              set_msa_overcap v (if Qle_bool 0 oc then oc else 0%Q))
           veh_loaded_df
  else veh_loaded_df.

(** the link boards trip and sequence of the vehicle row *)
Definition at_stop (v : VehRow) (l : PaxLink) : bool :=
  match trip_id_num l with
  | Some t => (t =? veh_trip_id_num v) && (A_seq l =? veh_stop_sequence v)
  | None => false
  end.

(** chosen links that board where the vehicle is exactly at capacity boarded *)
Definition mark_atcap_boarded (pathset_links_df : list PaxLink) (atcap_df : list VehRow)
  : list PaxLink :=
  map (fun lv =>
         if is_some (snd lv) && Qle_bool 0 (chosen (fst lv))
         then set_bumpstop_boarded (fst lv) (Some 1)
         else fst lv)
      (Frame.merge_left (fun l v => at_stop v l) pathset_links_df atcap_df).

(** step 2: for every trip the first row that is over capacity.  The source
    groups on the trip id and so lists the trips by sorted trip id; here they
    are listed by first appearance in the table. *)
Definition first_overcap_stops (overcap_df : list VehRow) : list VehRow :=
  Group.first_of_groups Z.eqb veh_trip_id_num overcap_df.

(** step 3.  With bump_one_at_a_time the source sorts on the arrival time
    alone and keeps the first row; between stops that are reached at the same
    time its choice is left to the sort, here it is the one listed first. *)
Definition select_bump_stops (s : Settings) (bump_stops_df : list VehRow) : list VehRow :=
  if CAPACITY_CONSTRAINT s && BUMP_ONE_AT_A_TIME s
  then firstn 1 (Frame.sort_values
                   (fun a b => veh_arrival_time a <=? veh_arrival_time b) bump_stops_df)
  else bump_stops_df.

(** bump candidates: boarding at bump stops, chosen paths, unbumped *)
Definition bump_candidates (joined : list (PaxLink * option VehRow)) : list PaxLink :=
  map fst (filter (fun lv => is_some (snd lv)
                             && Qle_bool 0 (chosen (fst lv))
                             && (bump_iter (fst lv) <? 0)) joined).

(** unchosen bump candidates *)
Definition unchosen_atcap (joined : list (PaxLink * option VehRow)) : list PaxLink :=
  map fst (filter (fun lv => is_some (snd lv)
                             && negb (Qle_bool 0 (chosen (fst lv)))
                             && (bump_iter (fst lv) <? 0)) joined).

(** *** The bump order *)

(** by=[new_A_time, trip_id_num, A_seq, pf_A_time, trip_list_id_num],
    ascending=[True, True, True, False, False] *)
Definition link_compare : PaxLink -> PaxLink -> comparison :=
  Frame.lex_compare (fun a b => Frame.compare_nulls_last (new_A_time a) (new_A_time b))
 (Frame.lex_compare (fun a b => Frame.compare_nulls_last (trip_id_num a) (trip_id_num b))
 (Frame.lex_compare (fun a b => A_seq a ?= A_seq b)
 (Frame.lex_compare (fun a b => pf_A_time b ?= pf_A_time a)
                    (fun a b => trip_list_id_num b ?= trip_list_id_num a)))).

Definition link_leb : PaxLink -> PaxLink -> bool := Frame.leb_of link_compare.

(** the group of the bump index: (trip_id_num, A_seq, A_id_num); every
    candidate carries a trip id *)
Definition board_group (l : PaxLink) : option Z * Z * Z :=
  (trip_id_num l, A_seq l, A_id_num l).

Definition same_opt (a b : option Z) : bool :=
  match a, b with
  | Some x, Some y => x =? y
  | None, None => true
  | _, _ => false
  end.

Definition same_group (g h : option Z * Z * Z) : bool :=
  same_opt (fst (fst g)) (fst (fst h)) && (snd (fst g) =? snd (fst h)) && (snd g =? snd h).

(** a row of [bumpstop_boards] *)
Record BoardRow : Type := mkBoard {
  board_link : PaxLink;
  bump_index : Z;
  new_bumpstop_boarded : Z        (* 1 means boarded, 0 means we got bumped *)
}.

Definition flag_board (l : PaxLink) (index : Z) : BoardRow :=
  mkBoard l index
          (if match overcap l with Some oc => index <? oc | None => false end
           then 0 else 1).

(** the candidates sorted, counted off within their group and flagged *)
Definition bumpstop_boards (candidates : list PaxLink) : list BoardRow :=
  let sorted := Frame.sort_values link_leb candidates in
  map (fun li => flag_board (fst li) (snd li))
      (combine sorted (Group.cumcount same_group (map board_group sorted))).

(** *** Recording the bumps *)

Definition path_key (l : PaxLink) : string * Z * Z :=
  (person_id l, trip_list_id_num l, pathnum l).

Definition same_path (a b : string * Z * Z) : bool :=
  String.eqb (fst (fst a)) (fst (fst b)) && (snd (fst a) =? snd (fst b)) && (snd a =? snd b).

(** unique passengers/paths who got bumped *)
Definition bumped_paths (boards : list BoardRow) : list (string * Z * Z) :=
  Frame.drop_duplicates same_path
    (map (fun b => path_key (board_link b))
         (filter (fun b => new_bumpstop_boarded b =? 0) boards)).

Definition unchosen_paths (unchosen : list PaxLink) : list (string * Z * Z) :=
  Frame.drop_duplicates same_path (map path_key unchosen).

(** kick out the bumped passengers: bump_iter on all links of their paths *)
Definition kick_out (bump_iter_now : Z) (pathset_links_df : list PaxLink)
  (bump_paths : list (string * Z * Z)) : list PaxLink :=
  map (fun lk => if is_some (snd lk) then set_bump_iter (fst lk) bump_iter_now else fst lk)
      (Frame.merge_left (fun l k => same_path (path_key l) k) pathset_links_df bump_paths).

(** keep record of if they boarded at a bumpstop *)
Definition record_boarded (pathset_links_df : list PaxLink) (boards : list BoardRow)
  : list PaxLink :=
  map (fun lb => match snd lb with
                 | Some b => set_bumpstop_boarded (fst lb) (Some (new_bumpstop_boarded b))
                 | None => fst lb
                 end)
      (Frame.merge_left
         (fun l b => same_path (path_key l) (path_key (board_link b))
                     && same_opt (trip_id_num l) (trip_id_num (board_link b))
                     && (A_seq l =? A_seq (board_link b)))
         pathset_links_df boards).

(** *** The bump-wait registry *)

Definition bump_wait_of (b : BoardRow) : BumpWaitRow :=
  let l := board_link b in
  mkBumpWait (match trip_id_num l with Some t => t | None => 0 end)
             (A_seq l) (A_id_num l) (pf_A_time l).

Definition bump_wait_compare : BumpWaitRow -> BumpWaitRow -> comparison :=
  Frame.lex_compare (fun a b => bw_trip_id_num a ?= bw_trip_id_num b)
 (Frame.lex_compare (fun a b => bw_stop_sequence a ?= bw_stop_sequence b)
                    (fun a b => bw_stop_id_num a ?= bw_stop_id_num b)).

(** [groupby([trip_id_num, stop_sequence, A_id_num]).first()]: the first row
    of every group, the groups by ascending key *)
Definition new_bump_wait (boards : list BoardRow) : list BumpWaitRow :=
  Frame.sort_values (Frame.leb_of bump_wait_compare)
    (map bump_wait_of
         (Group.first_of_groups same_group (fun b => board_group (board_link b)) boards)).

(** incorporate it into the bump wait df *)
Definition update_bump_wait (bump_wait_df : option (list BumpWaitRow))
  (new_rows : list BumpWaitRow) : list BumpWaitRow :=
  match bump_wait_df with
  | None => new_rows
  | Some old =>
      Frame.drop_duplicates
        (fun a b => (bw_trip_id_num a =? bw_trip_id_num b)
                    && (bw_stop_sequence a =? bw_stop_sequence b))
        (old ++ new_rows)
  end.

(** the value the registry holds for a key *)
Definition stored (bump_wait_df : list BumpWaitRow) (trip seq stop : Z) : option Z :=
  option_map bw_pf_A_time
    (find (fun r => (bw_trip_id_num r =? trip) && (bw_stop_sequence r =? seq)
                    && (bw_stop_id_num r =? stop)) bump_wait_df).

(** *** [flag_bump_overcap_passengers] *)

Record Flagged : Type := mkFlagged {
  chosen_paths_bumped : Z;
  flagged_links : list PaxLink;
  flagged_veh : list VehRow;
  flagged_bump_wait : option (list BumpWaitRow)
}.

(** the bump stops of a loaded table *)
Definition bump_stops_of (s : Settings) (veh_loaded_df : list VehRow) : list VehRow :=
  select_bump_stops s
    (first_overcap_stops (filter (fun v => 0 <? veh_overcap v) veh_loaded_df)).

(** the links with the vehicle columns, joined to the bump stops *)
Definition joined_to_bump_stops (s : Settings) (pathset_links_df : list PaxLink)
  (veh_loaded_df : list VehRow) : list (PaxLink * option VehRow) :=
  Frame.merge_left (fun l v => at_stop v l)
                   (find_passenger_vehicle_times pathset_links_df veh_loaded_df)
                   (bump_stops_of s veh_loaded_df).

(** the flagged candidates of a pass *)
Definition boards_of_pass (s : Settings) (pathset_links_df : list PaxLink)
  (veh_loaded_df : list VehRow) : list BoardRow :=
  bumpstop_boards (bump_candidates (joined_to_bump_stops s pathset_links_df veh_loaded_df)).

Definition flag_bump_overcap_passengers (s : Settings)
  (bump_wait_df : option (list BumpWaitRow))
  (iteration simulation_iteration bump_iter_now : Z)
  (pathset_links_df : list PaxLink) (veh_loaded_df : list VehRow) : Flagged :=
  (* 1) which vehicle links are over capacity *)
  let veh_loaded_df :=
    compute_overcap iteration simulation_iteration bump_iter_now veh_loaded_df in
  let atcap_df := filter (fun v => veh_overcap v =? 0) veh_loaded_df in
  let pathset_links_df := mark_atcap_boarded pathset_links_df atcap_df in
  let overcap_df := filter (fun v => 0 <? veh_overcap v) veh_loaded_df in
  match overcap_df with
  | [] => mkFlagged 0 pathset_links_df veh_loaded_df bump_wait_df
  | _ =>
      (* 2), 3), 4), 5) *)
      if negb (CAPACITY_CONSTRAINT s)
      then mkFlagged 0 (find_passenger_vehicle_times pathset_links_df veh_loaded_df)
                     veh_loaded_df bump_wait_df
      else
        let joined := joined_to_bump_stops s pathset_links_df veh_loaded_df in
        (* 6) who is bumped *)
        let boards := boards_of_pass s pathset_links_df veh_loaded_df in
        let bump_paths := bumped_paths boards in
        let bumped := Z.of_nat (List.length bump_paths) in
        let bump_paths :=
          match unchosen_atcap joined with
          | [] => bump_paths
          | unchosen => bump_paths ++ unchosen_paths unchosen
          end in
        let pathset_links_df := kick_out bump_iter_now (map fst joined) bump_paths in
        let pathset_links_df := record_boarded pathset_links_df boards in
        mkFlagged bumped pathset_links_df veh_loaded_df
                  (Some (update_bump_wait bump_wait_df (new_bump_wait boards)))
  end.

(** *** The bump rule in the words of the specification *)

(** "The first (boards - capacity) candidates keep their boarding; the
    remainder are bumped": the flags of [n] candidates in bump order *)
Definition keep_first (keep : Z) (n : nat) : list Z :=
  map (fun i => if Z.of_nat i <? keep then 1 else 0) (seq 0 n).

(** the candidates of one (trip, sequence, stop) *)
Definition boards_at (trip seq_ stop : Z) (boards : list BoardRow) : list BoardRow :=
  filter (fun b => same_group (board_group (board_link b)) (Some trip, seq_, stop)) boards.

Definition bumped_at (trip seq_ stop : Z) (boards : list BoardRow) : list BoardRow :=
  filter (fun b => new_bumpstop_boarded b =? 0) (boards_at trip seq_ stop boards).

End Bump.

(** ** Missed transfers: [flag_missed_transfers] *)

Module Xfer.

(** [PathSet.STATE_MODE_ACCESS], [..._EGRESS], [..._TRANSFER], [..._TRIP] *)
Inductive LinkMode : Type :=
| Access
| Egress
| Transfer
| Trip.

Definition is_trip (m : LinkMode) : bool :=
  match m with Trip => true | _ => false end.

Definition is_access (m : LinkMode) : bool :=
  match m with Access => true | _ => false end.

(** a row of [pathset_links_df]: the columns the function reads, then the
    columns it writes *)
Record XLink : Type := mkX {
  trip_list_id_num : Z;
  pathnum : Z;
  linknum : Z;
  linkmode : LinkMode;
  trip_id_num : option Z;          (* null unless the link rides a vehicle *)
  pf_A_time : Z;
  pf_B_time : Z;
  pf_linktime : Z;
  board_time : option Z;
  alight_time : option Z;
  alight_delay_min : option Q;
  new_A_time : option Z;
  new_B_time : option Z;
  new_linktime : option Z;
  new_waittime : option Z;
  missed_xfer : Z
}.

(** a row of [pathset_paths_df] *)
Record XPath : Type := mkXPath {
  path_trip_list_id_num : Z;
  path_pathnum : Z;
  path_missed_xfer : option Z
}.

(** the row with its written columns replaced *)
Definition with_columns (l : XLink) (board alight : option Z) (delay : option Q)
  (a b lt w : option Z) (m : Z) : XLink :=
  mkX (trip_list_id_num l) (pathnum l) (linknum l) (linkmode l) (trip_id_num l)
      (pf_A_time l) (pf_B_time l) (pf_linktime l) board alight delay a b lt w m.

Definition minute : Z := 60.
Definition hour : Z := 3600.

Definition osub (a b : option Z) : option Z :=
  match a, b with Some x, Some y => Some (x - y) | _, _ => None end.

Definition oadd (a : option Z) (b : Z) : option Z := option_map (fun x => x + b) a.

(** a comparison with a missing value is false *)
Definition olt (a : option Z) (b : Z) : bool :=
  match a with Some x => x <? b | None => false end.

Definition ogt (a : option Z) (b : Z) : bool :=
  match a with Some x => b <? x | None => false end.

(** [timedelta / numpy.timedelta64(1, 'm')] *)
Definition minutes_of (d : option Z) : option Q :=
  option_map (fun x => (inject_Z x / inject_Z minute)%Q) d.

Definition has_trip (l : XLink) : bool :=
  match trip_id_num l with Some _ => true | None => false end.

(** drop the written columns; set the alight delay: 0, and on the links that
    ride a vehicle the minutes between alight time and pathfinding B time *)
Definition set_alight_delay (l : XLink) : XLink :=
  with_columns l (board_time l) (alight_time l)
    (if has_trip l then minutes_of (osub (alight_time l) (Some (pf_B_time l)))
     else Some 0%Q)
    None None None None 0.

Definition delay_over_22h (l : XLink) : bool :=
  match alight_delay_min l with
  | Some d => negb (Qle_bool d (inject_Z (22 * 60)))
  | None => false
  end.

(** trips after midnight: back the vehicle times up by a day *)
Definition back_up_a_day (l : XLink) : XLink :=
  if delay_over_22h l
  then let board := oadd (board_time l) (- (24 * hour)) in
       let alight := oadd (alight_time l) (- (24 * hour)) in
       with_columns l board alight (minutes_of (osub alight (Some (pf_B_time l))))
                    (new_A_time l) (new_B_time l) (new_linktime l) (new_waittime l)
                    (missed_xfer l)
  else l.

(** the row [m] is the leg before [l] on the same path *)
Definition leg_before (l m : XLink) : bool :=
  (trip_list_id_num m =? trip_list_id_num l) && (pathnum m =? pathnum l)
  && (linknum m + 1 =? linknum l).

(** A time of the links after trip links: the alight time of the leg before *)
Definition join_alight_of_previous (links : list XLink) : list XLink :=
  map (fun lm =>
         let l := fst lm in
         with_columns l (board_time l) (alight_time l) (alight_delay_min l)
           (match snd lm with Some m => alight_time m | None => None end)
           (new_B_time l) (new_linktime l) (new_waittime l) (missed_xfer l))
      (Frame.merge_left leg_before links links).

(** the new B time; access links keep their pathfinding times *)
Definition set_new_B_time (l : XLink) : XLink :=
  let b := oadd (new_A_time l) (pf_linktime l) in
  let b := if is_trip (linkmode l) then alight_time l else b in
  let a := if is_access (linkmode l) then Some (pf_A_time l) else new_A_time l in
  let b := if is_access (linkmode l) then Some (pf_B_time l) else b in
  with_columns l (board_time l) (alight_time l) (alight_delay_min l)
               a b (new_linktime l) (new_waittime l) (missed_xfer l).

(** the trip link's A time from the previous link's new B time *)
Definition join_B_of_previous (links : list XLink) : list XLink :=
  map (fun lm =>
         let l := fst lm in
         let new_trip_A_time := match snd lm with Some m => new_B_time m | None => None end in
         with_columns l (board_time l) (alight_time l) (alight_delay_min l)
           (if is_trip (linkmode l) then new_trip_A_time else new_A_time l)
           (new_B_time l) (new_linktime l) (new_waittime l) (missed_xfer l))
      (Frame.merge_left leg_before links links).

(** the new link time; over 22 hours the B time is backed up by a day *)
Definition set_new_linktime (l : XLink) : XLink :=
  let lt := osub (new_B_time l) (new_A_time l) in
  let b := if ogt lt (22 * hour) then oadd (new_B_time l) (- (24 * hour)) else new_B_time l in
  let lt := if ogt lt (22 * hour) then osub b (new_A_time l) else lt in
  with_columns l (board_time l) (alight_time l) (alight_delay_min l)
               (new_A_time l) b lt (new_waittime l) (missed_xfer l).

(** the new wait time, on the links that ride a vehicle; invalid trips have
    negative wait time *)
Definition set_wait_and_flag (l : XLink) : XLink :=
  let w := if has_trip l then osub (board_time l) (new_A_time l) else None in
  with_columns l (board_time l) (alight_time l) (alight_delay_min l)
               (new_A_time l) (new_B_time l) (new_linktime l) w
               (if olt w 0 then 1 else 0).

Definition flag_links (pathset_links_df : list XLink) : list XLink :=
  let links := map back_up_a_day (map set_alight_delay pathset_links_df) in
  let links := map set_new_B_time (join_alight_of_previous links) in
  let links := map set_new_linktime (join_B_of_previous links) in
  map set_wait_and_flag links.

Definition path_of (l : XLink) : Z * Z := (trip_list_id_num l, pathnum l).

Definition same_path (a b : Z * Z) : bool := (fst a =? fst b) && (snd a =? snd b).

Definition path_eq_dec (a b : Z * Z) : {a = b} + {a <> b}.
Proof. decide equality; apply Z.eq_dec. Defined.

(** [groupby([trip_list_id_num, pathnum]).aggregate({missed_xfer: "sum"})],
    sums over 0 set to 1; the order of the groups plays no part in the join
    that follows *)
Definition grouped_missed_xfer (links : list XLink) : list ((Z * Z) * Z) :=
  map (fun k =>
         let total :=
           fold_right Z.add 0
             (map missed_xfer (filter (fun l => same_path (path_of l) k) links)) in
         (k, if 0 <? total then 1 else total))
      (nodup path_eq_dec (map path_of links)).

Definition flag_missed_transfers (pathset_paths_df : list XPath)
  (pathset_links_df : list XLink) : list XPath * list XLink :=
  let links := flag_links pathset_links_df in
  let grouped := grouped_missed_xfer links in
  let paths :=
    map (fun pg => mkXPath (path_trip_list_id_num (fst pg)) (path_pathnum (fst pg))
                           (option_map snd (snd pg)))
        (Frame.merge_left
           (fun p g => same_path (path_trip_list_id_num p, path_pathnum p) (fst g))
           pathset_paths_df grouped) in
  (paths, links).

End Xfer.

(** ** More on the simulation: who is loaded, sane itineraries, the capacity
       loop *)

Module Load.
Import Sim.

(** the links [put_passengers_on_vehicles] counts: chosen, and not bumped *)
Definition is_loaded (l : PaxLink) : bool :=
  Qle_bool 0 (chosen l) && (bump_iter l =? -1).

(** every counted link that alights on a row of the table boards on an
    earlier row of the table *)
Definition boards_before_alighting (links : list PaxLink) (veh : list VehRow) : bool :=
  forallb (fun l =>
             negb (is_loaded l)
             || forallb (fun uB =>
                           negb (alights_here uB l)
                           || existsb (fun uA => boards_here uA l
                                                 && (veh_stop_sequence uA <? veh_stop_sequence uB))
                                      veh)
                        veh)
          links.

(** the columns of a vehicle row that no step of the simulation writes *)
Definition same_stop_time (v r : VehRow) : Prop :=
  veh_trip_id_num r = veh_trip_id_num v /\
  veh_stop_sequence r = veh_stop_sequence v /\
  veh_stop_id_num r = veh_stop_id_num v /\
  veh_arrival_time r = veh_arrival_time v /\
  veh_capacity r = veh_capacity v.

End Load.

(** ** More on capacity enforcement *)

Module Enforce.
Import Sim Bump.

(** the subset of the registry's [drop_duplicates] *)
Definition bump_wait_key (r : BumpWaitRow) : Z * Z := (bw_trip_id_num r, bw_stop_sequence r).

(** the row the registry holds for (trip, sequence), the key of its
    [drop_duplicates] *)
Definition held (bump_wait_df : list BumpWaitRow) (trip seq_ : Z) : option BumpWaitRow :=
  find (fun r => (bw_trip_id_num r =? trip) && (bw_stop_sequence r =? seq_)) bump_wait_df.

(** the links as the capacity step sees them: marked at at-capacity stops,
    then joined to the vehicle columns *)
Definition links_of_pass (iteration simulation_iteration bump_iter_now : Z)
  (pathset_links_df : list PaxLink) (veh_loaded_df : list VehRow) : list PaxLink :=
  let veh := compute_overcap iteration simulation_iteration bump_iter_now veh_loaded_df in
  mark_atcap_boarded pathset_links_df (filter (fun v => veh_overcap v =? 0) veh).

(** the (person, request, path) keys the pass kicks out *)
Definition bump_paths_of_pass (s : Settings)
  (iteration simulation_iteration bump_iter_now : Z)
  (pathset_links_df : list PaxLink) (veh_loaded_df : list VehRow)
  : list (string * Z * Z) :=
  let veh := compute_overcap iteration simulation_iteration bump_iter_now veh_loaded_df in
  let links := links_of_pass iteration simulation_iteration bump_iter_now
                             pathset_links_df veh_loaded_df in
  let joined := joined_to_bump_stops s links veh in
  bumped_paths (boards_of_pass s links veh) ++ unchosen_paths (unchosen_atcap joined).

(** the same link of the same path: every column but the ones the capacity
    step writes (bump_iter, bumpstop_boarded, overcap) *)
Definition same_ride (l l' : PaxLink) : Prop :=
  person_id l' = person_id l /\ trip_list_id_num l' = trip_list_id_num l /\
  pathnum l' = pathnum l /\ linknum l' = linknum l /\
  trip_id_num l' = trip_id_num l /\
  A_id_num l' = A_id_num l /\ A_seq l' = A_seq l /\
  B_id_num l' = B_id_num l /\ B_seq l' = B_seq l /\
  pf_A_time l' = pf_A_time l /\ new_A_time l' = new_A_time l /\
  chosen l' = chosen l.

(** some row of the table is over capacity *)
Definition some_overcap (veh_loaded_df : list VehRow) : bool :=
  existsb (fun v => veh_capacity v <? veh_onboard v) veh_loaded_df.

End Enforce.

(** ** The capacity loop of [simulate] *)

Module CapacityLoop.
Import Sim Bump.

(** what the loop leaves behind: the links, the loaded vehicle table, the
    bump-wait registry and the last value of [bump_iter] *)
Record Outcome : Type := mkOutcome {
  out_links : list PaxLink;
  out_veh : list VehRow;
  out_bump_wait : option (list BumpWaitRow);
  out_bump_iter : Z
}.

(** [while True: # loop for capacity constraint].  [has_capacity_configured]
    is the answer of [FT.trips.has_capacity_configured()]; [None] when [fuel]
    passes were not enough. *)
Fixpoint capacity_loop (fuel : nat) (s : Settings) (has_capacity_configured : bool)
  (bump_wait_df : option (list BumpWaitRow))
  (iteration simulation_iteration bump_iter_now : Z)
  (pathset_links_df : list PaxLink) (veh_trips_df : list VehRow)
  : option (Py.result Outcome) :=
  match fuel with
  | O => None
  | S fuel' =>
      (* put passengers on vehicles, updating the vehicle's boards, alights, onboard *)
      match put_passengers_on_vehicles iteration bump_iter_now pathset_links_df veh_trips_df with
      | Py.Raise e => Some (Py.Raise e)
      | Py.Ok veh_trips_df =>
          if negb has_capacity_configured
          then (* we can't do anything about capacity *)
               Some (Py.Ok (mkOutcome pathset_links_df veh_trips_df bump_wait_df bump_iter_now))
          else
            let pass := flag_bump_overcap_passengers s bump_wait_df iteration
                          simulation_iteration bump_iter_now pathset_links_df veh_trips_df in
            if chosen_paths_bumped pass =? 0
            then (* do one final update of overcap to passengers *)
                 Some (Py.Ok (mkOutcome
                                (find_passenger_vehicle_times (flagged_links pass)
                                                              (flagged_veh pass))
                                (flagged_veh pass) (flagged_bump_wait pass) bump_iter_now))
            else capacity_loop fuel' s has_capacity_configured (flagged_bump_wait pass)
                               iteration simulation_iteration (bump_iter_now + 1)
                               (flagged_links pass) (flagged_veh pass)
      end
  end.

End CapacityLoop.

(** ** More on missed transfers *)

Module Legs.
Import Xfer.

(** the key of the two joins of [flag_missed_transfers] *)
Definition leg_key (l : XLink) : Z * Z * Z := (trip_list_id_num l, pathnum l, linknum l).

(** the columns of a link that [flag_missed_transfers] reads and never writes *)
Definition read_columns (l : XLink)
  : Z * Z * Z * LinkMode * option Z * Z * Z * Z :=
  (trip_list_id_num l, pathnum l, linknum l, linkmode l, trip_id_num l,
   pf_A_time l, pf_B_time l, pf_linktime l).

Definition path_key (p : XPath) : Z * Z := (path_trip_list_id_num p, path_pathnum p).

(** the B time of a returned link before the day correction: the pathfinding
    B time of an access link, the alight time of a trip link, and the new A
    time plus the pathfinding link time of any other link *)
Definition first_B_time (l : XLink) : option Z :=
  if is_access (linkmode l) then Some (pf_B_time l)
  else if is_trip (linkmode l) then alight_time l
  else oadd (new_A_time l) (pf_linktime l).

(** the link time came out over 22 hours and the B time was backed up by a
    day *)
Definition backed_up (l : XLink) : bool :=
  ogt (osub (first_B_time l) (new_A_time l)) (22 * hour).

(** the steps of [flag_links], one link at a time *)
Definition first_step (l : XLink) : XLink := back_up_a_day (set_alight_delay l).

Definition after_first_join (ls1 : list XLink) (l : XLink) : XLink :=
  set_new_B_time
    (with_columns l (board_time l) (alight_time l) (alight_delay_min l)
       (match find (leg_before l) ls1 with Some m => alight_time m | None => None end)
       (new_B_time l) (new_linktime l) (new_waittime l) (missed_xfer l)).

Definition after_second_join (ls2 : list XLink) (l : XLink) : XLink :=
  set_wait_and_flag
    (set_new_linktime
       (with_columns l (board_time l) (alight_time l) (alight_delay_min l)
          (if is_trip (linkmode l)
           then match find (leg_before l) ls2 with Some m => new_B_time m | None => None end
           else new_A_time l)
          (new_B_time l) (new_linktime l) (new_waittime l) (missed_xfer l))).

End Legs.

(** ** Pathfinding: the trip list of iteration 1, the path dictionary, the
       workers and the result loop *)

Module Prepare.
Import Driver.

(** two more class attributes, read once by [generate_pathsets] *)
Record DebugSettings : Type := mkDebug {
  DEBUG_NUM_TRIPS : Z;
  SKIP_PERSON_IDS : option (list string)     (* None, or a list *)
}.

(** [trip_list_df[person_id].isin(ids)] *)
Definition isin (ids : list string) (t : TripListRow) : bool :=
  existsb (String.eqb (person_id t)) ids.

(** [if iteration == 1:] of [generate_pathsets]: the trip list that
    [FT.passengers.trip_list_df] holds afterwards *)
Definition prepare_trip_list (iteration : Z) (g : Globals) (d : DebugSettings)
  (trip_list_df : list TripListRow) : list TripListRow :=
  if iteration =? 1
  then
    let trip_list_df :=
      if DEBUG_TRACE_ONLY g
      then filter (isin (TRACE_PERSON_IDS g)) trip_list_df
      else if (0 <? DEBUG_NUM_TRIPS d)
              && (DEBUG_NUM_TRIPS d <? Z.of_nat (List.length trip_list_df))
           then firstn (Z.to_nat (DEBUG_NUM_TRIPS d)) trip_list_df
           else trip_list_df in
    (* skip someone? *)
    match SKIP_PERSON_IDS d with
    | Some ((_ :: _) as skip) => filter (fun t => negb (isin skip t)) trip_list_df
    | _ => trip_list_df
    end
  else trip_list_df.

End Prepare.

Module PathDict.

(** the mode of a state: one of the named modes of [PathSet] and
    [Passenger], or the number the extension returned *)
Inductive Mode : Type :=
| STATE_MODE_ACCESS
| STATE_MODE_EGRESS
| STATE_MODE_TRANSFER
| MODE_GENERIC_TRANSIT_NUM
| ModeNum (n : Z).

Definition decode_mode (mode : Z) : Mode :=
  if mode =? -100 then STATE_MODE_ACCESS
  else if mode =? -101 then STATE_MODE_EGRESS
  else if mode =? -102 then STATE_MODE_TRANSFER
  else if mode =? -103 then MODE_GENERIC_TRANSIT_NUM
  else ModeNum mode.

(** row [row_num] of [ret_ints] and of [ret_doubles] *)
Record RetRow : Type := mkRet {
  ret_path_num : Z;          (* ret_ints[row_num, 0] *)
  ret_stop_id : Z;
  ret_mode : Z;
  ret_trip_id : Z;
  ret_succpred : Z;
  ret_seq : Z;
  ret_seq_succpred : Z;      (* ret_ints[row_num, 6] *)
  ret_label : Q;             (* ret_doubles[row_num, 0] *)
  ret_deparr_min : Q;
  ret_link_min : Q;
  ret_cost : Q;
  ret_arrdep_min : Q         (* ret_doubles[row_num, 4] *)
}.

(** a float, or a [datetime.timedelta] in seconds *)
Inductive Amount : Type :=
| Float (x : Q)
| Timedelta (seconds : Q).

(** [datetime.timedelta(minutes=x)], in seconds *)
Definition minutes (x : Q) : Q := (60 * x)%Q.

(** (stop_id, [label, time, mode, trip id, ..., cost, time]); the two times
    in seconds after [Util.SIMULATION_DAY_START] *)
Record State : Type := mkState {
  state_stop_id : Z;
  state_label : Amount;
  state_deparr_time : Q;
  state_mode : Mode;
  state_trip_id : Z;
  state_succpred : Z;
  state_seq : Z;
  state_seq_succpred : Z;
  state_link_time : Q;
  state_cost : Amount;
  state_arrdep_time : Q
}.

Definition state_of (hyperpath : bool) (r : RetRow) : State :=
  mkState (ret_stop_id r)
          (if hyperpath then Float (ret_label r) else Timedelta (minutes (ret_label r)))
          (minutes (ret_deparr_min r))
          (decode_mode (ret_mode r))
          (ret_trip_id r) (ret_succpred r) (ret_seq r) (ret_seq_succpred r)
          (minutes (ret_link_min r))
          (if hyperpath then Float (ret_cost r) else Timedelta (minutes (ret_cost r)))
          (minutes (ret_arrdep_min r)).

(** pathdict[path_num] *)
Record PathEntry : Type := mkEntry {
  PATH_KEY_COST : Q;
  PATH_KEY_PROBABILITY : Q;
  PATH_KEY_STATES : list State
}.

(** [while (row_num < ret_ints.shape[0]) and (ret_ints[row_num, 0] == path_num)]:
    the states appended, and the rows from the last [row_num] on *)
Fixpoint take_states (hyperpath : bool) (path_num : Z) (rows : list RetRow)
  : list State * list RetRow :=
  match rows with
  | [] => ([], [])
  | r :: rest =>
      if ret_path_num r =? path_num
      then let '(states, unread) := take_states hyperpath path_num rest in
           (state_of hyperpath r :: states, unread)
      else ([], rows)
  end.

(** [for path_num in range(path_costs.shape[0])], from [path_num] on; the
    dictionary in insertion order, and the rows never reached *)
Fixpoint fill_pathdict (hyperpath : bool) (path_num : Z) (path_costs : list (Q * Q))
  (rows : list RetRow) : list (Z * PathEntry) * list RetRow :=
  match path_costs with
  | [] => ([], rows)
  | (cost, probability) :: more =>
      let '(states, later) := take_states hyperpath path_num rows in
      let '(pathdict, unread) := fill_pathdict hyperpath (path_num + 1) more later in
      ((path_num, mkEntry cost probability states) :: pathdict, unread)
  end.

(** the pathdict that [find_trip_based_pathset] returns for what the
    extension returned *)
Definition pathdict_of (hyperpath : bool) (path_costs : list (Q * Q))
  (rows : list RetRow) : list (Z * PathEntry) :=
  fst (fill_pathdict hyperpath 0 path_costs rows).

(** the rows that no path takes *)
Definition unread_rows (hyperpath : bool) (path_costs : list (Q * Q))
  (rows : list RetRow) : list RetRow :=
  snd (fill_pathdict hyperpath 0 path_costs rows).

(** path numbers that never go down, from [lo] on and below [hi] *)
Fixpoint in_path_order (lo hi : Z) (nums : list Z) : bool :=
  match nums with
  | [] => true
  | x :: rest => (lo <=? x) && (x <? hi) && in_path_order x hi rest
  end.

End PathDict.

Module Workers.

(** what travels on [todo_queue] *)
Inductive Todo : Type :=
| TodoDone                                                   (* 'DONE' *)
| TodoPathset (person_id : string) (trip_list_id_num : Z).   (* a PathSet *)

(** what travels on [done_queue]; of the pathdict of a COMPLETED message
    the model keeps the answer of [path_found()] *)
Inductive Message : Type :=
| Done (worker_num : Z)
| Starting (worker_num : Z) (person_id : string) (trip_list_id_num : Z)
| Completed (worker_num : Z) (trip_list_id_num : Z) (path_found : bool)
| Exception (worker_num : Z).

Definition sender (m : Message) : Z :=
  match m with
  | Done w | Starting w _ _ | Completed w _ _ | Exception w => w
  end.

(** how the worker function ends: it returns, or it waits in
    [todo_pathset_queue.get()] *)
Inductive WorkerEnd : Type :=
| Returned
| Waiting.

Section Worker.
(** [Assignment.find_trip_based_pathset] on a request: [None] when it
    raises, otherwise whether a path is found *)
Variable find_trip_based_pathset : Z -> option bool.

(** the [while True] loop of [find_trip_based_paths_process_worker]: what
    the worker puts on [done_queue] for what it gets from the todo queue *)
Fixpoint find_trip_based_paths_process_worker (worker_num : Z) (todo : list Todo)
  : list Message * WorkerEnd :=
  match todo with
  | [] => ([], Waiting)
  | TodoDone :: _ => ([Done worker_num], Returned)
  | TodoPathset person_id trip_list_id_num :: rest =>
      (* communicate it to the parent, then do the work *)
      match find_trip_based_pathset trip_list_id_num with
      | Some found =>
          let '(messages, end_) := find_trip_based_paths_process_worker worker_num rest in
          (Starting worker_num person_id trip_list_id_num
             :: Completed worker_num trip_list_id_num found :: messages, end_)
      | None =>
          (* call it a day *)
          ([Starting worker_num person_id trip_list_id_num; Exception worker_num], Returned)
      end
  end.
End Worker.

(** a value of [process_dict], with the key "working_on" when it is there *)
Record Entry : Type := mkEntry {
  process : nat;
  alive : bool;
  done : bool;
  working_on : option (string * Z)
}.

(** workernum -> entry, in insertion order *)
Definition Table : Type := list (Z * Entry).

Fixpoint lookup (worker_num : Z) (process_dict : Table) : option Entry :=
  match process_dict with
  | [] => None
  | (k, e) :: rest => if k =? worker_num then Some e else lookup worker_num rest
  end.

(** [process_dict[worker_num] = e], for a key that is there *)
Fixpoint store (worker_num : Z) (e : Entry) (process_dict : Table) : Table :=
  match process_dict with
  | [] => []
  | (k, e0) :: rest =>
      if k =? worker_num then (k, e) :: rest else (k, e0) :: store worker_num e rest
  end.

(** the driver while it collects results *)
Record Collecting : Type := mkCollecting {
  process_dict : Table;
  num_paths_found_now : Z;
  done_procs : Z
}.

Definition with_table (st : Collecting) (t : Table) : Collecting :=
  mkCollecting t (num_paths_found_now st) (done_procs st).

(** the body of the inner [try] for one result.  A [KeyError] ends it where
    it is raised; the bare [except:] logs it and goes on, so what was done
    before stays done.  The calls into [FT.passengers] and [FT.performance]
    are taken to return. *)
Definition handle_result (result : Message) (st : Collecting) : Collecting :=
  match result with
  | Done worker_num =>
      match lookup worker_num (process_dict st) with
      | Some e => with_table st (store worker_num
                                   (mkEntry (process e) (alive e) true (working_on e))
                                   (process_dict st))
      | None => st
      end
  | Starting worker_num person_id trip_list_id_num =>
      match lookup worker_num (process_dict st) with
      | Some e => with_table st (store worker_num
                                   (mkEntry (process e) (alive e) (done e)
                                            (Some (person_id, trip_list_id_num)))
                                   (process_dict st))
      | None => st
      end
  | Completed worker_num trip_list_id_num found =>
      let st := mkCollecting (process_dict st)
                             (if found then num_paths_found_now st + 1
                              else num_paths_found_now st)
                             (done_procs st) in
      (* del process_dict[worker_num]["working_on"] *)
      match lookup worker_num (process_dict st) with
      | Some e =>
          match working_on e with
          | Some _ => with_table st (store worker_num
                                       (mkEntry (process e) (alive e) (done e) None)
                                       (process_dict st))
          | None => st
          end
      | None => st
      end
  | Exception _ => st     (* "Unexpected done queue contents" *)
  end.

(** check if any processes are not alive; [running] are the processes for
    which [is_alive()] answers True *)
Fixpoint check_alive (running : list nat) (process_dict : Table) : Table * Z :=
  match process_dict with
  | [] => ([], 0)
  | (k, e) :: rest =>
      let '(rest', n) := check_alive running rest in
      if alive e && negb (existsb (Nat.eqb (process e)) running)
      then ((k, mkEntry (process e) false (done e) (working_on e)) :: rest', n + 1)
      else ((k, e) :: rest', n)
  end.

(** one turn of the [while] loop: what [done_queue.get(True, 30)] gives
    ([None] for [Queue.Empty]) and which processes are alive after it *)
Definition Tick : Type := option Message * list nat.

Definition turn (tick : Tick) (st : Collecting) : Collecting :=
  let st := match fst tick with
            | Some result => handle_result result st
            | None => st
            end in
  let '(table, newly_dead) := check_alive (snd tick) (process_dict st) in
  mkCollecting table (num_paths_found_now st) (done_procs st + newly_dead).

(** [while done_procs < len(process_dict)]: the state when the loop ends and
    the turns it did not take, or [None] when it is still waiting after
    the turns given *)
Fixpoint get_results (ticks : list Tick) (st : Collecting)
  : option (Collecting * list Tick) :=
  if done_procs st <? Z.of_nat (List.length (process_dict st))
  then match ticks with
       | [] => None
       | tick :: rest => get_results rest (turn tick st)
       end
  else Some (st, ticks).

(** check if any processes crashed: the workers reported, each with what it
    was working on when that is known *)
Definition crashed (process_dict : Table) : list (Z * option (string * Z)) :=
  map (fun ke => (fst ke, working_on (snd ke)))
      (filter (fun ke => negb (done (snd ke))) process_dict).

(** the table as [generate_pathsets] sets it up *)
Definition started (processes : list (Z * nat)) : Table :=
  map (fun kp => (fst kp, mkEntry (snd kp) true false None)) processes.

(** the results handled one after the other *)
Definition collect (results : list Message) (st : Collecting) : Collecting :=
  fold_left (fun st result => handle_result result st) results st.

(** the turns taken one after the other *)
Definition turns (ticks : list Tick) (st : Collecting) : Collecting :=
  fold_left (fun st tick => turn tick st) ticks st.

(** the COMPLETED results with a path found *)
Definition found_in (results : list Message) : Z :=
  Z.of_nat (List.length (filter (fun m => match m with
                                          | Completed _ _ found => found
                                          | _ => false
                                          end) results)).

(** what a result does to the entry of its sender *)
Definition entry_after (e : Entry) (result : Message) : Entry :=
  match result with
  | Done _ => mkEntry (process e) (alive e) true (working_on e)
  | Starting _ person_id trip_list_id_num =>
      mkEntry (process e) (alive e) (done e) (Some (person_id, trip_list_id_num))
  | Completed _ _ _ => mkEntry (process e) (alive e) (done e) None
  | Exception _ => e
  end.

(** how the run of a worker ends *)
Inductive Fate : Type :=
| Finished                                               (* it got 'DONE' *)
| Failed (person_id : string) (trip_list_id_num : Z)     (* pathfinding raised *)
| StillWaiting.

Fixpoint fate_of (find_trip_based_pathset : Z -> option bool) (todo : list Todo) : Fate :=
  match todo with
  | [] => StillWaiting
  | TodoDone :: _ => Finished
  | TodoPathset person_id trip_list_id_num :: rest =>
      match find_trip_based_pathset trip_list_id_num with
      | Some _ => fate_of find_trip_based_pathset rest
      | None => Failed person_id trip_list_id_num
      end
  end.

(** the entries marked not alive *)
Definition not_alive (process_dict : Table) : list (Z * Entry) :=
  filter (fun ke => negb (alive (snd ke))) process_dict.

(** the results that the turns read *)
Definition results_of (ticks : list Tick) : list Message :=
  flat_map (fun tick => match fst tick with Some result => [result] | None => [] end) ticks.

(** [done_procs] counts the entries marked not alive *)
Definition counted (st : Collecting) : Prop :=
  done_procs st = Z.of_nat (List.length (not_alive (process_dict st))).

End Workers.

(** ** Concrete runs *)

Module Examples.
Import Sim.

Local Open Scope string_scope.

(** one trip, two stops: stop 10 at sequence 1 (08:00), stop 20 at sequence 2
    (08:10); [cap] seats; empty MSA columns *)
Definition two_stop_trip (cap : Z) : list VehRow :=
  [ mkVeh 1 1 10 28800 cap 0 0 0 0 0 0 0 0;
    mkVeh 1 2 20 29400 cap 0 0 0 0 0 0 0 0 ].

(** the trip link of a chosen, unbumped passenger who rides trip 1 from stop 10
    to stop 20; [a] is the arrival at stop 10, realized and pathfinding alike *)
Definition rider (person : string) (id a : Z) : PaxLink :=
  mkLink person id 0 1 (Some 1) 10 1 20 2 a (Some a) 1 (-1) None None.

(** the access link in front of it *)
Definition walker (person : string) (id a : Z) : PaxLink :=
  mkLink person id 0 0 None 1 (-1) 10 (-1) (a - 300) (Some (a - 300)) 1 (-1) None None.

(** four passengers reach stop 10 one minute apart, from 08:00 on *)
Definition four_riders : list PaxLink :=
  [ walker "ann" 1 28800; rider "ann" 1 28800;
    walker "bob" 2 28860; rider "bob" 2 28860;
    walker "cat" 3 28920; rider "cat" 3 28920;
    walker "dan" 4 28980; rider "dan" 4 28980 ].

Definition capacity_on : Bump.Settings := Bump.mkSettings true false.

(** the vehicle table after loading the four riders on three seats *)
Definition four_on_three : list VehRow :=
  match put_passengers_on_vehicles 1 0 four_riders (two_stop_trip 3) with
  | Py.Ok veh => veh
  | Py.Raise _ => []
  end.

(** the loaded row of stop 10 *)
Definition stop_10_of (veh : list VehRow) : VehRow :=
  hd (mkVeh 0 0 0 0 0 0 0 0 0 0 0 0 0) veh.

(** a later pass: four other passengers reach stop 10 from 07:55 on *)
Definition early_riders : list PaxLink :=
  [ walker "eve" 5 28500; rider "eve" 5 28500;
    walker "fay" 6 28560; rider "fay" 6 28560;
    walker "gus" 7 28620; rider "gus" 7 28620;
    walker "hal" 8 28680; rider "hal" 8 28680 ].

Definition early_on_three : list VehRow :=
  match put_passengers_on_vehicles 3 0 early_riders (two_stop_trip 3) with
  | Py.Ok veh => veh
  | Py.Raise _ => []
  end.

(** the registry after the pass that bumped one of the four riders *)
Definition registry_after_first_pass : option (list BumpWaitRow) :=
  Bump.flagged_bump_wait
    (Bump.flag_bump_overcap_passengers capacity_on None 1 0 0 four_riders four_on_three).

(** one passenger on three seats, first pass of iteration 1 *)
Definition one_rider : list PaxLink :=
  [ walker "ann" 1 28800; rider "ann" 1 28800 ].

Definition one_on_three : list VehRow :=
  match put_passengers_on_vehicles 1 0 one_rider (two_stop_trip 3) with
  | Py.Ok veh => veh
  | Py.Raise _ => []
  end.

(** iteration 2 starts from the table that iteration 1 left for four riders;
    two of them ride again *)
Definition after_iteration_1 : list VehRow :=
  Bump.flagged_veh
    (Bump.flag_bump_overcap_passengers capacity_on None 1 0 0 four_riders four_on_three).

Definition two_riders : list PaxLink :=
  [ walker "bob" 2 28860; rider "bob" 2 28860;
    walker "cat" 3 28920; rider "cat" 3 28920 ].


(** *** A missed transfer *)

(** walk to stop X, ride trip A which reaches X2 at 08:10, ride trip B which
    leaves X2 at 08:09, walk home; the vehicle times are already joined in *)
Definition missed_connection : list Xfer.XLink :=
  [ Xfer.mkX 1 0 0 Xfer.Access None 28200 28500 300 None None None None None None None 0;
    Xfer.mkX 1 0 1 Xfer.Trip (Some 7) 28500 29400 900 (Some 28800) (Some 29400)
             None None None None None 0;
    Xfer.mkX 1 0 2 Xfer.Trip (Some 8) 29400 30000 660 (Some 29340) (Some 30000)
             None None None None None 0;
    Xfer.mkX 1 0 3 Xfer.Egress None 30000 30300 300 None None None None None None None 0 ].

Definition missed_connection_paths : list Xfer.XPath :=
  [ Xfer.mkXPath 1 0 None; Xfer.mkXPath 2 0 None ].

(** *** The driver *)

(** three requests; after iteration 1 ann arrived on path 0, bob was bumped
    (his path is rejected) and cat's only path was never chosen *)
Definition trip_list : list Driver.TripListRow :=
  [ Driver.mkTrip "ann" 1 true; Driver.mkTrip "bob" 2 true; Driver.mkTrip "cat" 3 true ].

Definition paths_after_iteration_1 : list Driver.PathRow :=
  [ Driver.mkPath 1 0 10 1 1 0;
    Driver.mkPath 2 0 12 1 Driver.CHOSEN_REJECTED 0;
    Driver.mkPath 3 0 15 1 Driver.CHOSEN_NOT_CHOSEN_YET 1 ].

Definition links_after_iteration_1 : list Driver.LinkRow :=
  [ Driver.mkLinkRow 1 0 0; Driver.mkLinkRow 1 0 1;
    Driver.mkLinkRow 2 0 0; Driver.mkLinkRow 2 0 1;
    Driver.mkLinkRow 3 0 0; Driver.mkLinkRow 3 0 1 ].

(** what pathfinding returns for bob and cat in iteration 2 *)
Definition new_paths_iteration_2 : list Driver.PathRow :=
  [ Driver.mkPath 2 0 13 (1 # 2) 0 0; Driver.mkPath 2 1 14 (1 # 2) 0 0;
    Driver.mkPath 3 0 15 1 0 0 ].

Definition new_links_iteration_2 : list Driver.LinkRow :=
  [ Driver.mkLinkRow 2 0 0; Driver.mkLinkRow 2 1 0; Driver.mkLinkRow 3 0 0 ].

Definition globals_at_start : Driver.Globals := Driver.mkGlobals true false [].

(** two worker processes, both running *)
Definition two_workers : Driver.ProcessDict :=
  [ (1, Driver.mkWorker 101 true false); (2, Driver.mkWorker 102 true false) ].

End Examples.

(** ** More concrete runs *)

Module MoreExamples.
Import Sim.

Local Open Scope string_scope.

(** a table that lists (trip 1, sequence 1) twice *)
Definition doubled_stop : list VehRow :=
  [ mkVeh 1 1 10 28800 3 0 0 0 0 0 0 0 0;
    mkVeh 1 1 10 28800 3 0 0 0 0 0 0 0 0;
    mkVeh 1 2 20 29400 3 0 0 0 0 0 0 0 0 ].

(** two trips: trip 1 calls at stops 10, 20, 30, trip 2 at stops 10, 30 *)
Definition two_trips : list VehRow :=
  [ mkVeh 1 1 10 28800 3 0 0 0 0 0 0 0 0;
    mkVeh 1 2 20 29400 3 0 0 0 0 0 0 0 0;
    mkVeh 1 3 30 30000 3 0 0 0 0 0 0 0 0;
    mkVeh 2 1 10 29000 3 0 0 0 0 0 0 0 0;
    mkVeh 2 2 30 30200 3 0 0 0 0 0 0 0 0 ].

(** a trip link from (stop, sequence) to (stop, sequence) *)
Definition ride (person : string) (id trip a_stop a_seq b_stop b_seq : Z)
  (chosen_status : Q) (bump : Z) : PaxLink :=
  mkLink person id 0 1 (Some trip) a_stop a_seq b_stop b_seq 28800 (Some 28800)
         chosen_status bump None None.

(** ann rides trip 1 from 10 to 30, bob from 10 to 20, cat from 20 to 30, dan
    rides trip 2; eve was bumped and fay's path is not chosen *)
Definition mixed_riders : list PaxLink :=
  [ ride "ann" 1 1 10 1 30 3 1 (-1);
    ride "bob" 2 1 10 1 20 2 1 (-1);
    ride "cat" 3 1 20 2 30 3 1 (-1);
    ride "dan" 4 2 10 1 30 2 1 (-1);
    ride "eve" 5 1 10 1 30 3 1 0;
    ride "fay" 6 1 10 1 20 2 (-1) (-1) ].

(** an access link listed twice, and the trip link that follows it *)
Definition first_leg : Xfer.XLink :=
  Xfer.mkX 1 0 0 Xfer.Access None 28200 28500 300 None None None None None None None 0.

Definition second_leg : Xfer.XLink :=
  Xfer.mkX 1 0 1 Xfer.Trip (Some 7) 28500 29400 900 (Some 28800) (Some 29400)
           None None None None None 0.

Definition doubled_leg : list Xfer.XLink := [ first_leg; first_leg; second_leg ].

(** the capacity loop on the four riders and three seats, first simulation
    iteration of iteration 1 *)
Definition loop_of_four : option (Py.result CapacityLoop.Outcome) :=
  CapacityLoop.capacity_loop 2 Examples.capacity_on true None 1 0 0
                             Examples.four_riders (Examples.two_stop_trip 3).

Definition outcome_of_four : CapacityLoop.Outcome :=
  match loop_of_four with
  | Some (Py.Ok out) => out
  | _ => CapacityLoop.mkOutcome [] [] None 0
  end.

(** what the extension returns for two paths: two rows of path 0, one of
    path 1 *)
Definition two_path_costs : list (Q * Q) := [ (10 # 1, 3 # 4); (12 # 1, 1 # 4) ].

Definition three_rows : list PathDict.RetRow :=
  [ PathDict.mkRet 0 10 (-100) 0 1 (-1) (-1) (25 # 1) (480 # 1) (5 # 1) (2 # 1) (485 # 1);
    PathDict.mkRet 0 20 7 7 10 1 2 (20 # 1) (485 # 1) (10 # 1) (8 # 1) (495 # 1);
    PathDict.mkRet 1 10 (-100) 0 1 (-1) (-1) (30 # 1) (480 # 1) (8 # 1) (3 # 1) (488 # 1) ].

(** two workers; pathfinding raises on request 3 *)
Definition finds (trip_list_id_num : Z) : option bool :=
  if Z.eqb trip_list_id_num 3 then None else Some true.

Definition todo_of_worker_1 : list Workers.Todo :=
  [ Workers.TodoPathset "ann" 1; Workers.TodoPathset "cat" 3; Workers.TodoDone ].

Definition todo_of_worker_2 : list Workers.Todo :=
  [ Workers.TodoPathset "bob" 2; Workers.TodoDone ].

(** the done queue, the results of the two workers interleaved *)
Definition done_queue : list Workers.Message :=
  [ Workers.Starting 1 "ann" 1; Workers.Starting 2 "bob" 2;
    Workers.Completed 2 2 true; Workers.Completed 1 1 true;
    Workers.Starting 1 "cat" 3; Workers.Done 2; Workers.Exception 1 ].

Definition two_started : Workers.Collecting :=
  Workers.mkCollecting (Workers.started [ (1, 101%nat); (2, 102%nat) ]) 0 0.

(** the workers are quick: both have exited when the parent has read the
    second result *)
Definition quick_workers : list Workers.Tick :=
  [ (Some (Workers.Starting 1 "ann" 1), [101%nat; 102%nat]);
    (Some (Workers.Starting 2 "bob" 2), []);
    (Some (Workers.Completed 2 2 true), []);
    (Some (Workers.Completed 1 1 true), []);
    (Some (Workers.Starting 1 "cat" 3), []);
    (Some (Workers.Done 2), []);
    (Some (Workers.Exception 1), []) ].

End MoreExamples.

(** * Properties *)

(** ** Data-frame operations *)

Section FrameFacts.
Context {L R : Type}.
Variable on : L -> R -> bool.

Lemma merge_left_cons (l : L) (left : list L) (right : list R) :
    Frame.merge_left on (l :: left) right =
    match filter (on l) right with
    | [] => [(l, None)]
    | ms => map (fun r => (l, Some r)) ms
    end ++ Frame.merge_left on left right.
  Proof. reflexivity. Qed.

  (** When every left row matches exactly one right row, the left merge pairs
      the rows up. *)
Lemma merge_left_one_match (left : list L) (right : list R) (picked : list R) :
    Forall2 (fun l r => filter (on l) right = [r]) left picked ->
    Frame.merge_left on left right = combine left (map Some picked).
  Proof.
    induction 1 as [|l r left' picked' Hone _ IH]; [reflexivity|].
    rewrite merge_left_cons, Hone, IH. reflexivity.
  Qed.

  (** The anti-join keeps, in order, the left rows that match no right row. *)
Lemma anti_join_filter (left : list L) (right : list R) :
    Frame.anti_join on left right = filter (fun l => negb (existsb (on l) right)) left.
  Proof.
    unfold Frame.anti_join.
    induction left as [|l left IH]; [reflexivity|].
    rewrite merge_left_cons, filter_app, map_app, IH. simpl.
    assert (Hex : existsb (on l) right = negb (match filter (on l) right with
                                                | [] => true | _ => false end)).
    { clear. induction right as [|r right IH]; [reflexivity|].
      simpl. destruct (on l r); simpl; [reflexivity|exact IH]. }
    rewrite Hex, negb_involutive.
    destruct (filter (on l) right) as [|m ms] eqn:Hf; simpl; [reflexivity|].
    replace (filter _ (map (fun r : R => (l, Some r)) ms)) with (@nil (L * option R)).
    - reflexivity.
    - clear. induction ms as [|x ms IH]; [reflexivity|exact IH].
  Qed.
End FrameFacts.

Lemma nth_error_combine {A B : Type} (la : list A) (lb : list B) (i : nat) :
  nth_error (combine la lb) i =
  match nth_error la i, nth_error lb i with
  | Some a, Some b => Some (a, b)
  | _, _ => None
  end.
Proof.
  revert lb i. induction la as [|a la IH]; intros [|b lb] [|i]; simpl; try reflexivity.
  - destruct (nth_error la i); reflexivity.
  - apply IH.
Qed.

Lemma Forall2_of_nth_error {A B : Type} (R : A -> B -> Prop) (la : list A) (lb : list B) :
  List.length la = List.length lb ->
  (forall i a b, nth_error la i = Some a -> nth_error lb i = Some b -> R a b) ->
  Forall2 R la lb.
Proof.
  revert lb. induction la as [|a la IH]; intros [|b lb] Hlen H; simpl in Hlen;
    try discriminate; constructor.
  - apply (H 0%nat); reflexivity.
  - apply IH; [congruence|]. intros i x y Hx Hy. apply (H (S i)); assumption.
Qed.

Lemma merge_left_In {L R : Type} (on : L -> R -> bool) (left : list L) (right : list R)
  (l : L) (m : option R) :
  In (l, m) (Frame.merge_left on left right) ->
  In l left /\
  match m with
  | None => filter (on l) right = []
  | Some r => In r (filter (on l) right)
  end.
Proof.
  unfold Frame.merge_left. rewrite in_flat_map.
  intros (l0 & Hl0 & Hin).
  destruct (filter (on l0) right) as [|r0 rs] eqn:Hf.
  - destruct Hin as [[= <- <-]|[]]. now split.
  - apply in_map_iff in Hin as (r & [= <- <-] & Hr).
    split; [assumption|]. now rewrite Hf.
Qed.

(** *** Sorting *)

Section SortFacts.
Context {A : Type}.
Variable leb : A -> A -> bool.
Hypothesis leb_total : forall a b, leb a b = true \/ leb b a = true.
Hypothesis leb_trans : forall a b c, leb a b = true -> leb b c = true -> leb a c = true.

Lemma insert_perm (x : A) (l : list A) : Permutation (x :: l) (Frame.insert leb x l).
Proof.
  induction l as [|y l IH]; simpl; [reflexivity|].
  destruct (leb x y); [reflexivity|].
  rewrite perm_swap. now constructor.
Qed.

Lemma sort_values_perm (l : list A) : Permutation l (Frame.sort_values leb l).
Proof.
  induction l as [|x l IH]; simpl; [constructor|].
  rewrite <- insert_perm. now constructor.
Qed.

Lemma insert_sorted (x : A) (l : list A) :
  StronglySorted (fun a b => leb a b = true) l ->
  StronglySorted (fun a b => leb a b = true) (Frame.insert leb x l).
Proof.
  induction 1 as [|y l Hs IH Hy]; simpl.
  - repeat constructor.
  - destruct (leb x y) eqn:Hxy.
    + constructor; [now constructor|].
      constructor; [assumption|].
      eapply Forall_impl; [|exact Hy]. intros z Hz. now apply (leb_trans x y z).
    + constructor; [assumption|].
      assert (Hyx : leb y x = true) by (destruct (leb_total x y); congruence).
      eapply Permutation_Forall; [apply insert_perm|]. now constructor.
Qed.

Lemma sort_values_sorted (l : list A) :
  StronglySorted (fun a b => leb a b = true) (Frame.sort_values leb l).
Proof.
  induction l as [|x l IH]; simpl; [constructor|]. now apply insert_sorted.
Qed.
End SortFacts.

(** *** Comparisons on several columns *)

Section CompareFacts.
Context {A : Type}.

Lemma orders_lex (c1 c2 : A -> A -> comparison) :
  Frame.orders c1 -> Frame.orders c2 -> Frame.orders (Frame.lex_compare c1 c2).
Proof.
  intros (S1 & E1 & L1) (S2 & E2 & L2). unfold Frame.lex_compare.
  split; [|split].
  - intros a b. rewrite S1, S2. now destruct (c1 a b).
  - intros a b c H.
    destruct (c1 a b) eqn:H1; try discriminate.
    now rewrite (E1 a b c H1), (E2 a b c H).
  - intros a b c H Hbc.
    destruct (c1 a b) eqn:H1; try discriminate.
    + rewrite (E1 a b c H1).
      destruct (c1 b c) eqn:H1'; try reflexivity; [|congruence].
      now apply (L2 a b c).
    + rewrite (L1 a b c H1); [reflexivity|].
      destruct (c1 b c); congruence.
Qed.

Lemma orders_leb_total (cmp : A -> A -> comparison) :
  Frame.orders cmp ->
  forall a b, Frame.leb_of cmp a b = true \/ Frame.leb_of cmp b a = true.
Proof.
  intros (S & _ & _) a b. unfold Frame.leb_of. rewrite (S a b).
  destruct (cmp a b); simpl; auto.
Qed.

Lemma orders_leb_trans (cmp : A -> A -> comparison) :
  Frame.orders cmp ->
  forall a b c, Frame.leb_of cmp a b = true -> Frame.leb_of cmp b c = true ->
                Frame.leb_of cmp a c = true.
Proof.
  intros (_ & E & L) a b c. unfold Frame.leb_of.
  destruct (cmp a b) eqn:Hab; try discriminate; intros _ Hbc.
  - now rewrite (E a b c Hab).
  - rewrite (L a b c Hab); [reflexivity|]. destruct (cmp b c); congruence.
Qed.

Lemma orders_ascending (f : A -> Z) : Frame.orders (fun a b => f a ?= f b).
Proof.
  split; [|split].
  - intros a b. apply Z.compare_antisym.
  - intros a b c H. apply Z.compare_eq in H. now rewrite H.
  - intros a b c H Hbc. cbv beta in *. rewrite Z.compare_lt_iff in *.
    destruct (Z.compare_spec (f b) (f c)); try congruence; lia.
Qed.

Lemma orders_descending (f : A -> Z) : Frame.orders (fun a b => f b ?= f a).
Proof.
  split; [|split].
  - intros a b. apply Z.compare_antisym.
  - intros a b c H. apply Z.compare_eq in H. now rewrite H.
  - intros a b c H Hbc. cbv beta in *. rewrite Z.compare_lt_iff in *.
    destruct (Z.compare_spec (f c) (f b)); try congruence; lia.
Qed.

Lemma orders_nulls_last (f : A -> option Z) :
  Frame.orders (fun a b => Frame.compare_nulls_last (f a) (f b)).
Proof.
  split; [|split].
  - intros a b. destruct (f a), (f b); simpl; auto using Z.compare_antisym.
  - intros a b c. destruct (f a), (f b), (f c); simpl; intros H; try discriminate;
      try reflexivity.
    apply Z.compare_eq in H. now subst.
  - intros a b c. destruct (f a) as [x|], (f b) as [y|], (f c) as [z|]; simpl;
      intros H Hbc; try discriminate; try reflexivity; try congruence.
    rewrite Z.compare_lt_iff in *.
    destruct (Z.compare_spec y z); try congruence; lia.
Qed.
End CompareFacts.

(** ** Running aggregates *)

Section GroupFacts.
Context {K V : Type}.
Variable same : K -> K -> bool.
Hypothesis same_spec : forall a b, same a b = true <-> a = b.
Variable add : V -> V -> V.

Lemma cumsum_from_length (rows : list (K * V)) (acc : K -> V) :
    List.length (Group.cumsum_from same add acc rows) = List.length rows.
  Proof.
    revert acc. induction rows as [|[k x] rows IH]; intros acc; simpl;
      [reflexivity | now rewrite IH].
  Qed.

  (** The running total at row [i] adds up, in order, the values of the rows
      of the same group up to and including row [i]. *)
Lemma cumsum_from_nth (rows : list (K * V)) (acc : K -> V) (i : nat) (k : K) (x : V) :
    nth_error rows i = Some (k, x) ->
    nth_error (Group.cumsum_from same add acc rows) i =
    Some (fold_left add
            (map snd (filter (fun r => same (fst r) k) (firstn (S i) rows)))
            (acc k)).
  Proof.
    revert acc i. induction rows as [|[k0 x0] rows IH]; intros acc i Hi.
    - destruct i; discriminate.
    - destruct i as [|i]; simpl in Hi.
      + injection Hi as -> ->. simpl.
        replace (same k k) with true by (symmetry; now apply same_spec).
        reflexivity.
      + cbn [Group.cumsum_from nth_error].
        rewrite (IH _ i Hi).
        change (firstn (S (S i)) ((k0, x0) :: rows))
          with ((k0, x0) :: firstn (S i) rows).
        cbn [filter fst].
        destruct (same k0 k) eqn:E0.
        * apply same_spec in E0. subst k0.
          replace (same k k) with true by (symmetry; now apply same_spec).
          reflexivity.
        * destruct (same k k0) eqn:E1.
          { apply same_spec in E1. subst k0.
            assert (same k k = true) by now apply same_spec. congruence. }
          reflexivity.
  Qed.
End GroupFacts.

Section CountFacts.
Context {K A : Type}.
Variable same : K -> K -> bool.
Hypothesis same_spec : forall a b, same a b = true <-> a = b.
Variable key : A -> K.

Lemma cumcount_from_length (keys : list K) (acc : K -> Z) :
  List.length (Group.cumcount_from same acc keys) = List.length keys.
Proof.
  revert acc. induction keys as [|k keys IH]; intros acc; simpl;
    [reflexivity | now rewrite IH].
Qed.

(** The rows of a group, with their running count, are the rows of the group
    numbered consecutively from the count the group starts with. *)
Lemma cumcount_from_group (rows : list A) (acc : K -> Z) (g : K) :
  let members := filter (fun r => same (key r) g) rows in
  filter (fun ri => same (key (fst ri)) g)
         (combine rows (Group.cumcount_from same acc (map key rows))) =
  combine members
          (map (fun i => acc g + Z.of_nat i) (seq 0 (List.length members))).
Proof.
  revert acc. induction rows as [|r rows IH]; intros acc; [reflexivity|].
  cbn [map Group.cumcount_from combine filter fst].
  destruct (same (key r) g) eqn:E.
  - apply same_spec in E. cbn [List.length seq map combine].
    f_equal; [f_equal; rewrite E; simpl; lia|].
    cbv zeta in IH. rewrite IH. f_equal.
    rewrite <- seq_shift, map_map. apply map_ext. intros i.
    replace (same g (key r)) with true by (symmetry; apply same_spec; auto).
    rewrite E. lia.
  - cbv zeta in IH. rewrite IH. f_equal. apply map_ext. intros i.
    destruct (same g (key r)) eqn:E'; [|reflexivity].
    apply same_spec in E'. symmetry in E'. apply same_spec in E'. congruence.
Qed.
End CountFacts.

Lemma count_below (oc : Z) (n s : nat) :
  List.length (filter (fun z => z =? 0)
                 (map (fun i => if Z.of_nat i <? oc then 0 else 1) (seq s n))) =
  (Nat.min (s + n) (Z.to_nat oc) - Nat.min s (Z.to_nat oc))%nat.
Proof.
  revert s. induction n as [|n IH]; intros s; simpl; [lia|].
  destruct (Z.ltb_spec (Z.of_nat s) oc); simpl; rewrite IH; lia.
Qed.

Lemma filter_length_map {A : Type} (f : A -> Z) (p : Z -> bool) (l : list A) :
  List.length (filter (fun a => p (f a)) l) = List.length (filter p (map f l)).
Proof. now rewrite filter_map_swap, length_map. Qed.

Lemma fold_left_Zadd (l : list Z) (a : Z) : fold_left Z.add l a = a + Sim.sum_Z l.
Proof.
  revert a. induction l as [|x l IH]; intros a; simpl; [lia|]. rewrite IH. lia.
Qed.

Lemma fold_left_Qplus (l : list Q) (a : Q) : (fold_left Qplus l a == a + Sim.sum_Q l)%Q.
Proof.
  revert a. induction l as [|x l IH]; intros a; simpl; [ring|]. rewrite IH. ring.
Qed.

Lemma find_hd_filter {A : Type} (p : A -> bool) (l : list A) :
  find p l = hd_error (filter p l).
Proof.
  induction l as [|x l IH]; [reflexivity|]. simpl. now destruct (p x).
Qed.

(** a left join whose left rows match at most one right row is a lookup *)
Lemma merge_left_lookup {L R : Type} (on : L -> R -> bool) (left : list L)
  (right : list R) :
  (forall l, In l left -> (List.length (filter (on l) right) <= 1)%nat) ->
  Frame.merge_left on left right = map (fun l => (l, find (on l) right)) left.
Proof.
  induction left as [|l left IH]; intros H; [reflexivity|].
  rewrite merge_left_cons, IH by (intros x Hx; apply H; now right).
  simpl. rewrite find_hd_filter.
  specialize (H l (or_introl eq_refl)).
  destruct (filter (on l) right) as [|r [|r' rs]]; simpl in *; try reflexivity; lia.
Qed.

(** ** Loading passengers on vehicles *)

Section LoaderFacts.
Import Sim.

Lemma filter_unique_at {A : Type} (p : A -> bool) (l : list A) (i : nat) (c : A) :
  nth_error l i = Some c -> p c = true ->
  (forall j c', nth_error l j = Some c' -> p c' = true -> j = i) ->
  filter p l = [c].
Proof.
  revert i. induction l as [|x l IH]; intros i Hi Hp Huniq.
  - destruct i; discriminate.
  - destruct i as [|i]; simpl in Hi.
    + injection Hi as ->. simpl. rewrite Hp. f_equal.
      clear IH. induction l as [|y l IHl]; [reflexivity|].
      simpl. destruct (p y) eqn:Hy.
      * specialize (Huniq 1%nat y eq_refl Hy). discriminate.
      * apply IHl. intros j c' Hj Hc'.
        destruct j as [|j]; [reflexivity|].
        specialize (Huniq (S (S j)) c' Hj Hc'). discriminate.
    + simpl. destruct (p x) eqn:Hx.
      * specialize (Huniq 0%nat x eq_refl Hx). discriminate.
      * apply (IH i Hi Hp). intros j c' Hj Hc'.
        specialize (Huniq (S j) c' Hj Hc'). congruence.
Qed.

Lemma filter_none {A : Type} (p : A -> bool) (l : list A) :
  (forall x, In x l -> p x = false) -> filter p l = [].
Proof.
  induction l as [|x l IH]; intros H; [reflexivity|].
  simpl. rewrite (H x (or_introl eq_refl)). apply IH. intros y Hy. apply H. now right.
Qed.

(** In a table in sequence order, a later row of the same trip has a larger
    sequence number. *)
Lemma in_sequence_order_lt (veh : list VehRow) (i j : nat) (a b : VehRow) :
  in_sequence_order veh = true ->
  nth_error veh i = Some a -> nth_error veh j = Some b -> (i < j)%nat ->
  veh_trip_id_num a = veh_trip_id_num b ->
  veh_stop_sequence a < veh_stop_sequence b.
Proof.
  revert i j. induction veh as [|v veh IH]; intros i j Hord Hi Hj Hlt Htrip.
  - destruct i; discriminate.
  - simpl in Hord. apply andb_true_iff in Hord as [Hhd Htl].
    destruct j as [|j]; [lia|]. simpl in Hj.
    destruct i as [|i]; simpl in Hi.
    + injection Hi as ->.
      rewrite forallb_forall in Hhd.
      specialize (Hhd b (nth_error_In _ _ Hj)).
      apply orb_true_iff in Hhd as [Hne|Hseq]; [|lia].
      apply negb_true_iff, Z.eqb_neq in Hne. congruence.
    + apply (IH i j); auto. lia.
Qed.

Lemma in_sequence_order_map (h : VehRow -> VehRow) (veh : list VehRow) :
  (forall v, veh_trip_id_num (h v) = veh_trip_id_num v) ->
  (forall v, veh_stop_sequence (h v) = veh_stop_sequence v) ->
  in_sequence_order (map h veh) = in_sequence_order veh.
Proof.
  intros Ht Hs. induction veh as [|v veh IH]; [reflexivity|].
  simpl. rewrite IH. f_equal.
  clear IH. induction veh as [|u veh IH]; [reflexivity|].
  simpl. now rewrite IH, !Ht, !Hs.
Qed.

(** Up to row [i], the rows of the trip of row [i] are the rows of that trip
    whose sequence is at most that of row [i]. *)
Lemma in_sequence_order_prefix (veh : list VehRow) (i : nat) (v : VehRow) :
  in_sequence_order veh = true -> nth_error veh i = Some v ->
  filter (fun u => veh_trip_id_num u =? veh_trip_id_num v) (firstn (S i) veh) =
  upto (veh_trip_id_num v) (veh_stop_sequence v) veh.
Proof.
  unfold upto.
  revert i. induction veh as [|v0 veh IH]; intros i Hord Hi.
  - destruct i; discriminate.
  - pose proof Hord as Hord0.
    simpl in Hord. apply andb_true_iff in Hord as [Hhd Htl].
    destruct i as [|i]; simpl in Hi.
    + injection Hi as ->. cbn [firstn filter].
      rewrite Z.eqb_refl, Z.leb_refl. simpl. f_equal.
      symmetry. apply filter_none. intros u Hu.
      rewrite forallb_forall in Hhd. specialize (Hhd u Hu).
      apply andb_false_iff.
      apply orb_true_iff in Hhd as [Hne|Hseq].
      * left. now apply negb_true_iff.
      * right. apply Z.leb_gt. lia.
    + change (firstn (S (S i)) (v0 :: veh)) with (v0 :: firstn (S i) veh).
      cbn [filter]. rewrite (IH i Htl Hi).
      destruct (veh_trip_id_num v0 =? veh_trip_id_num v) eqn:E; simpl; [|reflexivity].
      apply Z.eqb_eq in E.
      assert (veh_stop_sequence v0 < veh_stop_sequence v).
      { apply (in_sequence_order_lt (v0 :: veh) 0 (S i)); auto. lia. }
      replace (veh_stop_sequence v0 <=? veh_stop_sequence v) with true
        by (symmetry; apply Z.leb_le; lia).
      reflexivity.
Qed.

Lemma trips_cumsum_length (l : list VehRow) :
  List.length (trips_cumsum l) = List.length l.
Proof.
  unfold trips_cumsum.
  rewrite !length_combine, !length_map.
  rewrite (cumsum_from_length Z.eqb Z.add), (cumsum_from_length Z.eqb Qplus).
  rewrite !length_map. lia.
Qed.

Lemma trips_cumsum_index (l : list VehRow) (j : nat) (c : (Z * Z) * (Z * Q)) :
  nth_error (trips_cumsum l) j = Some c ->
  exists b, nth_error l j = Some b /\ fst c = veh_index b.
Proof.
  unfold trips_cumsum. rewrite nth_error_combine, nth_error_map.
  destruct (nth_error l j) as [b|]; simpl; [|discriminate].
  destruct (nth_error (combine _ _) j); [|discriminate].
  intros [= <-]. now exists b.
Qed.

Lemma trips_cumsum_nth (l : list VehRow) (i : nat) (v : VehRow) :
  in_sequence_order l = true -> nth_error l i = Some v ->
  nth_error (trips_cumsum l) i =
  Some (veh_index v,
        (fold_left Z.add
           (map net_boards (upto (veh_trip_id_num v) (veh_stop_sequence v) l)) 0,
         fold_left Qplus
           (map net_msa_boards (upto (veh_trip_id_num v) (veh_stop_sequence v) l)) 0%Q)).
Proof.
  intros Hord Hi. unfold trips_cumsum.
  rewrite !nth_error_combine, nth_error_map, Hi. simpl.
  rewrite (cumsum_from_nth Z.eqb Z.eqb_eq Z.add _ _ i (veh_trip_id_num v) (net_boards v))
    by (rewrite nth_error_map, Hi; reflexivity).
  rewrite (cumsum_from_nth Z.eqb Z.eqb_eq Qplus _ _ i (veh_trip_id_num v) (net_msa_boards v))
    by (rewrite nth_error_map, Hi; reflexivity).
  rewrite !firstn_map, !filter_map_swap, !map_map. cbn [fst snd].
  rewrite (in_sequence_order_prefix l i v Hord Hi).
  reflexivity.
Qed.

Lemma same_index_eq (a b : Z * Z) : same_index a b = true <-> a = b.
Proof.
  unfold same_index. destruct a, b. simpl.
  rewrite andb_true_iff, !Z.eqb_eq. split; [intros []; congruence|intros [= -> ->]; auto].
Qed.

(** In sequence order, every row finds its own running totals and nothing
    else. *)
Lemma join_onboard_pairs (l : list VehRow) :
  in_sequence_order l = true ->
  Frame.merge_left (fun v c => same_index (veh_index v) (fst c)) l (trips_cumsum l) =
  combine l (map Some (trips_cumsum l)).
Proof.
  intros Hord. apply merge_left_one_match.
  apply Forall2_of_nth_error; [now rewrite trips_cumsum_length|].
  intros k a c Ha Hc.
  apply (filter_unique_at _ _ k); [exact Hc| |].
  - destruct (trips_cumsum_index l k c Hc) as (b & Hb & ->).
    apply same_index_eq. congruence.
  - intros j c' Hj Hsame.
    destruct (trips_cumsum_index l j c' Hj) as (b & Hb & Hfst).
    rewrite Hfst in Hsame. apply same_index_eq in Hsame.
    injection Hsame as Ht Hs.
    destruct (Nat.lt_trichotomy j k) as [Hlt|[Heq|Hgt]]; [|exact Heq|].
    + pose proof (in_sequence_order_lt l j k b a Hord Hb Ha Hlt (eq_sym Ht)). lia.
    + pose proof (in_sequence_order_lt l k j a b Hord Ha Hb Hgt Ht). lia.
Qed.

Lemma join_onboard_nth (l : list VehRow) (i : nat) (v : VehRow) :
  in_sequence_order l = true -> nth_error l i = Some v ->
  nth_error (join_onboard l) i =
  Some (set_onboard v
          (fold_left Z.add
             (map net_boards (upto (veh_trip_id_num v) (veh_stop_sequence v) l)) 0)
          (fold_left Qplus
             (map net_msa_boards (upto (veh_trip_id_num v) (veh_stop_sequence v) l)) 0%Q)).
Proof.
  intros Hord Hi. unfold join_onboard.
  rewrite (join_onboard_pairs l Hord).
  rewrite nth_error_map, nth_error_combine, nth_error_map, Hi.
  rewrite (trips_cumsum_nth l i v Hord Hi). reflexivity.
Qed.

Lemma join_onboard_length (l : list VehRow) :
  in_sequence_order l = true -> List.length (join_onboard l) = List.length l.
Proof.
  intros Hord. unfold join_onboard.
  rewrite (join_onboard_pairs l Hord).
  rewrite length_map, length_combine, length_map, trips_cumsum_length. lia.
Qed.

Lemma upto_related {X : Type} (f : VehRow -> X) (t k : Z) (l l' : list VehRow) :
  Forall2 (fun v r => veh_trip_id_num r = veh_trip_id_num v /\
                      veh_stop_sequence r = veh_stop_sequence v /\ f r = f v) l l' ->
  map f (upto t k l') = map f (upto t k l).
Proof.
  unfold upto. induction 1 as [|v r l l' (Ht & Hs & Hf) _ IH]; [reflexivity|].
  simpl. rewrite Ht, Hs.
  destruct ((veh_trip_id_num v =? t) && (veh_stop_sequence v <=? k)); simpl;
    now rewrite IH, ?Hf.
Qed.


Lemma join_onboard_related (l : list VehRow) :
  in_sequence_order l = true ->
  Forall2 (fun v r => veh_trip_id_num r = veh_trip_id_num v /\
                      veh_stop_sequence r = veh_stop_sequence v /\
                      net_boards r = net_boards v) l (join_onboard l).
Proof.
  intros Hord. apply Forall2_of_nth_error; [now rewrite join_onboard_length|].
  intros i v r Hv Hr. rewrite (join_onboard_nth l i v Hord Hv) in Hr.
  injection Hr as <-. repeat split.
Qed.

Lemma loaded_before_onboard_order (iteration b : Z) (links : list PaxLink)
  (veh : list VehRow) :
  in_sequence_order (loaded_before_onboard iteration b links veh) = in_sequence_order veh.
Proof.
  unfold loaded_before_onboard, msa_boards_alights, count_boards_alights.
  destruct (b =? 0); rewrite ?map_map; now rewrite in_sequence_order_map.
Qed.

Lemma loaded_before_onboard_length (iteration b : Z) (links : list PaxLink)
  (veh : list VehRow) :
  List.length (loaded_before_onboard iteration b links veh) = List.length veh.
Proof.
  unfold loaded_before_onboard, msa_boards_alights, count_boards_alights.
  destruct (b =? 0); now rewrite ?length_map.
Qed.

(** With the table in sequence order the loader returns, and its result is
    the cumulative sum joined on the table it built. *)
Lemma put_passengers_on_vehicles_ok (iteration b : Z) (links : list PaxLink)
  (veh : list VehRow) :
  1 <= iteration -> in_sequence_order veh = true ->
  put_passengers_on_vehicles iteration b links veh =
  Py.Ok (join_onboard (loaded_before_onboard iteration b links veh)).
Proof.
  intros Hit Hord.
  pose proof (loaded_before_onboard_order iteration b links veh) as Hord'.
  rewrite Hord in Hord'.
  pose proof (join_onboard_length _ Hord') as Hlen.
  rewrite loaded_before_onboard_length in Hlen.
  unfold put_passengers_on_vehicles, loaded_before_onboard in *.
  destruct (b =? 0).
  - unfold Py.truediv.
    replace (Qeq_bool (inject_Z iteration) 0) with false.
    + cbn [Py.bind]. rewrite Hlen, Nat.eqb_refl. reflexivity.
    + symmetry. apply not_true_iff_false. intros H. apply Qeq_bool_eq in H.
      unfold Qeq in H. simpl in H. lia.
  - cbn [Py.bind]. rewrite Hlen, Nat.eqb_refl. reflexivity.
Qed.

End LoaderFacts.

(** the loader, row by row *)
Section LoaderMore.
Import Sim Load.

Lemma filter_filter {A : Type} (p q : A -> bool) (l : list A) :
  filter p (filter q l) = filter (fun x => q x && p x) l.
Proof.
  induction l as [|x l IH]; [reflexivity|].
  simpl. destruct (q x); simpl; [destruct (p x)|]; now rewrite IH.
Qed.

Lemma count_rows_loaded (f : PaxLink -> bool) (links : list PaxLink) :
  count_rows f (filter (fun l => bump_iter l =? -1) (get_chosen_links links)) =
  count_rows (fun l => is_loaded l && f l) links.
Proof.
  unfold count_rows, get_chosen_links, is_loaded. rewrite !filter_filter.
  do 2 f_equal. apply filter_ext. intros l.
  now destruct (Qle_bool 0 (chosen l)), (bump_iter l =? -1), (f l).
Qed.

(** a row of the table the cumulative sum starts from *)
Lemma loaded_before_onboard_nth (iteration b : Z) (links : list PaxLink)
  (veh : list VehRow) (i : nat) (v : VehRow) :
  nth_error veh i = Some v ->
  exists w, nth_error (loaded_before_onboard iteration b links veh) i = Some w /\
    same_stop_time v w /\
    veh_overcap w = veh_overcap v /\ veh_msa_overcap w = veh_msa_overcap v /\
    veh_boards w = count_rows (fun l => is_loaded l && boards_here v l) links /\
    veh_alights w = count_rows (fun l => is_loaded l && alights_here v l) links /\
    (b <> 0 -> veh_msa_boards w = veh_msa_boards v /\
               veh_msa_alights w = veh_msa_alights v).
Proof.
  intros Hv. unfold loaded_before_onboard, msa_boards_alights, count_boards_alights.
  destruct (Z.eqb_spec b 0) as [Hb|Hb]; rewrite ?map_map, nth_error_map, Hv;
    cbn [option_map]; (eexists; split; [reflexivity|]); unfold same_stop_time;
    cbn [set_msa_boards_alights set_boards_alights veh_trip_id_num veh_stop_sequence
         veh_stop_id_num veh_arrival_time veh_capacity veh_boards veh_alights
         veh_overcap veh_msa_overcap veh_msa_boards veh_msa_alights];
    rewrite !count_rows_loaded.
  all: repeat split; intros; try reflexivity; contradiction.
Qed.

Lemma join_onboard_nth_inv (l : list VehRow) (i : nat) (r : VehRow) :
  in_sequence_order l = true -> nth_error (join_onboard l) i = Some r ->
  exists w, nth_error l i = Some w /\
    r = set_onboard w
          (fold_left Z.add
             (map net_boards (upto (veh_trip_id_num w) (veh_stop_sequence w) l)) 0)
          (fold_left Qplus
             (map net_msa_boards (upto (veh_trip_id_num w) (veh_stop_sequence w) l)) 0%Q).
Proof.
  intros Hord Hr.
  destruct (nth_error l i) as [w|] eqn:Hw.
  - rewrite (join_onboard_nth l i w Hord Hw) in Hr. injection Hr as <-. eauto.
  - apply nth_error_None in Hw.
    assert (nth_error (join_onboard l) i <> None) by congruence.
    apply nth_error_Some in H. rewrite join_onboard_length in H by assumption. lia.
Qed.

Lemma put_passengers_on_vehicles_length (iteration b : Z) (links : list PaxLink)
  (veh : list VehRow) :
  in_sequence_order veh = true ->
  List.length (join_onboard (loaded_before_onboard iteration b links veh)) = List.length veh.
Proof.
  intros Hord. rewrite join_onboard_length, loaded_before_onboard_length; [reflexivity|].
  now rewrite loaded_before_onboard_order.
Qed.

Lemma upto_related2 {X : Type} (f g : VehRow -> X) (t k : Z) (l l' : list VehRow) :
  Forall2 (fun v r => veh_trip_id_num r = veh_trip_id_num v /\
                      veh_stop_sequence r = veh_stop_sequence v /\ f r = g v) l l' ->
  map f (upto t k l') = map g (upto t k l).
Proof.
  unfold upto. induction 1 as [|v r l l' (Ht & Hs & Hf) _ IH]; [reflexivity|].
  simpl. rewrite Ht, Hs.
  destruct ((veh_trip_id_num v =? t) && (veh_stop_sequence v <=? k)); simpl;
    now rewrite IH, ?Hf.
Qed.

End LoaderMore.

(** C3: after [put_passengers_on_vehicles], on a vehicle table that lists the
    stops of every trip by increasing sequence, the table comes back row for
    row; boards and alights of a row count the chosen, unbumped links that
    board, respectively alight, at the row; and the onboard count of every
    row is the sum of boards - alights over the rows of the same trip whose
    sequence is at most the row's own: onboard is the cumulative sum along
    the trip of boards minus alights. *)
Theorem onboard_is_cumulative_sum (iteration bump_iter_now : Z)
  (pathset_links_df : list Sim.PaxLink) (veh_trips_df : list Sim.VehRow) :
  1 <= iteration ->
  Sim.in_sequence_order veh_trips_df = true ->
  exists veh_loaded_df,
    Sim.put_passengers_on_vehicles iteration bump_iter_now pathset_links_df veh_trips_df
    = Py.Ok veh_loaded_df /\
    List.length veh_loaded_df = List.length veh_trips_df /\
    (forall i v r,
       nth_error veh_trips_df i = Some v -> nth_error veh_loaded_df i = Some r ->
       Load.same_stop_time v r /\
       Sim.veh_boards r =
       Sim.count_rows (fun l => Load.is_loaded l && Sim.boards_here v l) pathset_links_df /\
       Sim.veh_alights r =
       Sim.count_rows (fun l => Load.is_loaded l && Sim.alights_here v l) pathset_links_df /\
       Sim.veh_onboard r =
       Sim.sum_Z
         (map (fun u =>
                 Sim.count_rows (fun l => Load.is_loaded l && Sim.boards_here u l)
                                pathset_links_df
                 - Sim.count_rows (fun l => Load.is_loaded l && Sim.alights_here u l)
                                  pathset_links_df)
              (Sim.upto (Sim.veh_trip_id_num v) (Sim.veh_stop_sequence v) veh_trips_df))) /\
    forall r, In r veh_loaded_df ->
      Sim.veh_onboard r =
      Sim.sum_Z (map (fun u => Sim.veh_boards u - Sim.veh_alights u)
                     (Sim.upto (Sim.veh_trip_id_num r) (Sim.veh_stop_sequence r)
                               veh_loaded_df)).
Proof.
  intros Hit Hord.
  eexists. split; [apply put_passengers_on_vehicles_ok; assumption|].
  set (l := Sim.loaded_before_onboard iteration bump_iter_now pathset_links_df veh_trips_df).
  assert (Hord' : Sim.in_sequence_order l = true)
    by (unfold l; now rewrite loaded_before_onboard_order).
  split; [now apply put_passengers_on_vehicles_length|]. split.
  - intros i v r Hv Hr.
    destruct (loaded_before_onboard_nth iteration bump_iter_now pathset_links_df
                veh_trips_df i v Hv) as (w & Hw & Hsame & _ & _ & Hb & Ha & _).
    fold l in Hw.
    apply join_onboard_nth_inv in Hr as (w' & Hw' & ->); [|assumption].
    rewrite Hw in Hw'. injection Hw' as <-.
    cbn [Sim.set_onboard Sim.veh_boards Sim.veh_alights Sim.veh_onboard].
    split; [unfold Load.same_stop_time in *; cbn; tauto|].
    split; [assumption|]. split; [assumption|].
    rewrite fold_left_Zadd, Z.add_0_l. f_equal.
    destruct Hsame as (Ht & Hs & _). rewrite Ht, Hs.
    apply upto_related2.
    apply Forall2_of_nth_error; [unfold l; now rewrite loaded_before_onboard_length|].
    intros j u u' Hu Hu'.
    destruct (loaded_before_onboard_nth iteration bump_iter_now pathset_links_df
                veh_trips_df j u Hu) as (u'' & Hu'' & (Ht' & Hs' & _) & _ & _ & Hb' & Ha' & _).
    fold l in Hu''. rewrite Hu' in Hu''. injection Hu'' as <-.
    split; [assumption|]. split; [assumption|].
    unfold Sim.net_boards. now rewrite Hb', Ha'.
  - intros r Hr.
    apply In_nth_error in Hr as [i Hi].
    apply join_onboard_nth_inv in Hi as (w & Hw & ->); [|assumption].
    cbn [Sim.veh_onboard Sim.set_onboard Sim.veh_trip_id_num Sim.veh_stop_sequence].
    rewrite fold_left_Zadd, Z.add_0_l.
    f_equal. symmetry.
    apply (upto_related Sim.net_boards). now apply join_onboard_related.
Qed.

(** *** MSA columns *)




Section MsaFacts.
Import Sim.

Variables (iteration : Z) (links : list PaxLink) (veh : list VehRow).
Hypothesis iteration_pos : 1 <= iteration.
Hypothesis veh_order : in_sequence_order veh = true.

Let msa_lambda : Q := 1 / inject_Z iteration.



End MsaFacts.

(** C3 witness: six links on two trips.  Two board trip 1 at stop 10 and one
    at stop 20, one alights at stop 20 and two at stop 30, one rides trip 2;
    the bumped and the unchosen link are not counted. *)
Lemma onboard_is_cumulative_sum_witness :
  1 <= 1 /\
  Sim.in_sequence_order MoreExamples.two_trips = true /\
  (exists veh_loaded_df,
    Sim.put_passengers_on_vehicles 1 0 MoreExamples.mixed_riders MoreExamples.two_trips
    = Py.Ok veh_loaded_df /\
    List.length veh_loaded_df = List.length MoreExamples.two_trips /\
    (forall i v r,
       nth_error MoreExamples.two_trips i = Some v -> nth_error veh_loaded_df i = Some r ->
       Load.same_stop_time v r /\
       Sim.veh_boards r =
       Sim.count_rows (fun l => Load.is_loaded l && Sim.boards_here v l)
                      MoreExamples.mixed_riders /\
       Sim.veh_alights r =
       Sim.count_rows (fun l => Load.is_loaded l && Sim.alights_here v l)
                      MoreExamples.mixed_riders /\
       Sim.veh_onboard r =
       Sim.sum_Z
         (map (fun u =>
                 Sim.count_rows (fun l => Load.is_loaded l && Sim.boards_here u l)
                                MoreExamples.mixed_riders
                 - Sim.count_rows (fun l => Load.is_loaded l && Sim.alights_here u l)
                                  MoreExamples.mixed_riders)
              (Sim.upto (Sim.veh_trip_id_num v) (Sim.veh_stop_sequence v)
                        MoreExamples.two_trips))) /\
    forall r, In r veh_loaded_df ->
      Sim.veh_onboard r =
      Sim.sum_Z (map (fun u => Sim.veh_boards u - Sim.veh_alights u)
                     (Sim.upto (Sim.veh_trip_id_num r) (Sim.veh_stop_sequence r)
                               veh_loaded_df))) /\
  match Sim.put_passengers_on_vehicles 1 0 MoreExamples.mixed_riders
                                       MoreExamples.two_trips with
  | Py.Ok veh_loaded_df =>
      map Sim.veh_boards veh_loaded_df = [2; 1; 0; 1; 0] /\
      map Sim.veh_alights veh_loaded_df = [0; 1; 2; 0; 1] /\
      map Sim.veh_onboard veh_loaded_df = [2; 2; 0; 1; 0]
  | Py.Raise _ => False
  end.
Proof.
  split; [lia|]. split; [reflexivity|]. split.
  - apply (onboard_is_cumulative_sum 1 0 MoreExamples.mixed_riders MoreExamples.two_trips);
      [lia | reflexivity].
  - vm_compute. repeat split.
Defined.

(** ** Capacity enforcement *)

Section BumpFacts.
Import Sim Bump.

Lemma link_compare_orders : Frame.orders link_compare.
Proof.
  unfold link_compare.
  repeat apply orders_lex;
    first [apply orders_nulls_last | apply orders_ascending | apply orders_descending].
Qed.

Lemma same_opt_eq (a b : option Z) : same_opt a b = true <-> a = b.
Proof.
  destruct a as [x|], b as [y|]; simpl; try (split; [discriminate|discriminate]).
  - rewrite Z.eqb_eq. split; congruence.
  - tauto.
Qed.

Lemma same_group_eq (g h : option Z * Z * Z) : same_group g h = true <-> g = h.
Proof.
  destruct g as [[a b] c], h as [[a' b'] c']. unfold same_group. simpl.
  rewrite !andb_true_iff, same_opt_eq, !Z.eqb_eq.
  split; [intros [[-> ->] ->]; reflexivity | intros [= -> -> ->]; auto].
Qed.

(** The rows of [bumpstop_boards] are the candidates in bump order. *)
Lemma bumpstop_boards_links (candidates : list PaxLink) :
  map board_link (bumpstop_boards candidates) = Frame.sort_values link_leb candidates.
Proof.
  unfold bumpstop_boards, Group.cumcount.
  set (sorted := Frame.sort_values link_leb candidates).
  rewrite map_map. cbn [board_link flag_board].
  assert (Hlen : List.length (Group.cumcount_from same_group (fun _ => 0)
                                (map board_group sorted)) = List.length sorted)
    by now rewrite cumcount_from_length, length_map.
  revert Hlen. generalize (Group.cumcount_from same_group (fun _ => 0)
                             (map board_group sorted)).
  induction sorted as [|x l IH]; intros [|i idx] Hlen; simpl in *;
    try discriminate; [reflexivity|].
  f_equal. apply IH. congruence.
Qed.

(** The candidates of one (trip, sequence, stop), in bump order, carry the
    bump indices 0, 1, 2, ... *)
Lemma boards_at_indexed (candidates : list PaxLink) (trip seq_ stop : Z) :
  let members :=
    filter (fun l => same_group (board_group l) (Some trip, seq_, stop))
           (Frame.sort_values link_leb candidates) in
  boards_at trip seq_ stop (bumpstop_boards candidates) =
  map (fun li => flag_board (fst li) (snd li))
      (combine members (map Z.of_nat (seq 0 (List.length members)))).
Proof.
  unfold boards_at, bumpstop_boards, Group.cumcount.
  rewrite filter_map_swap. cbn [board_link flag_board].
  rewrite (cumcount_from_group same_group same_group_eq board_group).
  reflexivity.
Qed.

Lemma flags_of_members (members : list PaxLink) (oc : Z) (s : nat) :
  (forall l, In l members -> overcap l = Some oc) ->
  map (fun li => new_bumpstop_boarded (flag_board (fst li) (snd li)))
      (combine members (map Z.of_nat (seq s (List.length members)))) =
  map (fun i => if Z.of_nat i <? oc then 0 else 1) (seq s (List.length members)).
Proof.
  revert s. induction members as [|l members IH]; intros s Hm; [reflexivity|].
  cbn [List.length seq map combine fst snd new_bumpstop_boarded flag_board].
  rewrite (Hm l (or_introl eq_refl)). f_equal.
  apply IH. intros l' Hl'. apply Hm. now right.
Qed.

(** The bump index decides: in every group the rows whose index is below the
    overcap of the stop are flagged 0, the others 1. *)
Lemma boards_at_flags (candidates : list PaxLink) (trip seq_ stop oc : Z) :
  (forall l, In l candidates -> board_group l = (Some trip, seq_, stop) ->
             overcap l = Some oc) ->
  map new_bumpstop_boarded (boards_at trip seq_ stop (bumpstop_boards candidates)) =
  map (fun i => if Z.of_nat i <? oc then 0 else 1)
      (seq 0 (List.length (boards_at trip seq_ stop (bumpstop_boards candidates)))).
Proof.
  intros Hoc. rewrite boards_at_indexed. cbv zeta.
  set (members := filter _ (Frame.sort_values link_leb candidates)).
  assert (Hm : forall l, In l members -> overcap l = Some oc).
  { intros l Hl. unfold members in Hl. apply filter_In in Hl as [Hl Hg].
    apply same_group_eq in Hg.
    apply Hoc; [|exact Hg].
    eapply Permutation_in; [symmetry; apply sort_values_perm|exact Hl]. }
  rewrite length_map, length_combine, length_map, length_seq, Nat.min_id.
  rewrite map_map. now apply flags_of_members.
Qed.

(** In every group exactly min(size, overcap) rows are flagged 0. *)
Lemma bumped_at_count (candidates : list PaxLink) (trip seq_ stop oc : Z) :
  (forall l, In l candidates -> board_group l = (Some trip, seq_, stop) ->
             overcap l = Some oc) ->
  List.length (bumped_at trip seq_ stop (bumpstop_boards candidates)) =
  Nat.min (List.length (boards_at trip seq_ stop (bumpstop_boards candidates)))
          (Z.to_nat oc).
Proof.
  intros Hoc. unfold bumped_at.
  rewrite (filter_length_map new_bumpstop_boarded (fun z => z =? 0)).
  rewrite (boards_at_flags candidates trip seq_ stop oc Hoc).
  rewrite count_below. lia.
Qed.

(** [find_passenger_vehicle_times] gives a link that boards at (trip,
    sequence, stop) the overcap of the one vehicle row there. *)
Lemma find_passenger_vehicle_times_overcap (links : list PaxLink) (veh : list VehRow)
  (trip seq_ stop : Z) (v : VehRow) (l : PaxLink) :
  veh_at trip seq_ stop veh = [v] ->
  In l (find_passenger_vehicle_times links veh) ->
  board_group l = (Some trip, seq_, stop) ->
  overcap l = Some (veh_overcap v).
Proof.
  intros Hv Hl Hg. unfold find_passenger_vehicle_times in Hl.
  apply in_map_iff in Hl as ([l' m] & Hfst & Hl). simpl in Hfst. subst l'.
  apply merge_left_In in Hl as [Hl _].
  apply in_map_iff in Hl as ([l0 mv] & Hset & Hl). simpl in Hset.
  apply merge_left_In in Hl as [_ Hmv].
  subst l. unfold board_group in Hg. simpl in Hg. injection Hg as Ht Hs Hst.
  assert (Hf : filter (fun u => boards_here u l0) veh = [v]).
  { rewrite <- Hv. unfold veh_at. apply filter_ext. intros u.
    unfold boards_here. rewrite Ht, Hs, Hst.
    rewrite (Z.eqb_sym trip), (Z.eqb_sym stop), (Z.eqb_sym seq_). reflexivity. }
  rewrite Hf in Hmv. destruct mv as [r|]; [|discriminate].
  destruct Hmv as [<-|[]]. reflexivity.
Qed.

Lemma compute_overcap_at (iteration simulation_iteration bump_iter_now : Z)
  (veh : list VehRow) (trip seq_ stop : Z) (v : VehRow) :
  veh_at trip seq_ stop veh = [v] ->
  exists v', veh_at trip seq_ stop
               (compute_overcap iteration simulation_iteration bump_iter_now veh) = [v']
             /\ veh_overcap v' = veh_onboard v - veh_capacity v.
Proof.
  intros Hv. unfold compute_overcap.
  destruct ((iteration =? 1) && (simulation_iteration =? 0) && (bump_iter_now =? 0));
    rewrite ?map_map; unfold veh_at in *; rewrite filter_map_swap;
    cbn [veh_trip_id_num veh_stop_id_num veh_stop_sequence set_veh_overcap set_msa_overcap];
    rewrite Hv; eexists; split; reflexivity.
Qed.

Lemma bump_candidates_In (s : Settings) (links : list PaxLink) (veh : list VehRow)
  (l : PaxLink) :
  In l (bump_candidates (joined_to_bump_stops s links veh)) ->
  In l (find_passenger_vehicle_times links veh).
Proof.
  unfold bump_candidates, joined_to_bump_stops. intros Hl.
  apply in_map_iff in Hl as ([l' m] & Hfst & Hl). simpl in Hfst. subst l'.
  apply filter_In in Hl as [Hl _].
  now apply merge_left_In in Hl as [Hl _].
Qed.

End BumpFacts.

(** C1, as the code has it: during capacity enforcement the bump candidates
    are sorted by realized A-time ascending, trip id ascending, boarding
    sequence ascending, then pathfinding A-time and request id descending;
    counted off in that order within their (trip, sequence, stop), exactly
    min(n, onboard - capacity) of the n candidates of a stop are marked
    bumped and the others keep their boarding. *)
Theorem bump_order_and_count (s : Bump.Settings)
  (iteration simulation_iteration bump_iter_now : Z)
  (pathset_links_df : list Sim.PaxLink) (veh_loaded_df : list Sim.VehRow)
  (trip seq_ stop : Z) (v : Sim.VehRow) :
  Sim.veh_at trip seq_ stop veh_loaded_df = [v] ->
  let veh := Bump.compute_overcap iteration simulation_iteration bump_iter_now
                                  veh_loaded_df in
  let candidates := Bump.bump_candidates (Bump.joined_to_bump_stops s pathset_links_df veh) in
  let boards := Bump.boards_of_pass s pathset_links_df veh in
  Permutation candidates (map Bump.board_link boards) /\
  StronglySorted (fun a b => Bump.link_leb a b = true) (map Bump.board_link boards) /\
  List.length (Bump.bumped_at trip seq_ stop boards) =
  Nat.min (List.length (Bump.boards_at trip seq_ stop boards))
          (Z.to_nat (Sim.veh_onboard v - Sim.veh_capacity v)) /\
  (forall b, In b (Bump.boards_at trip seq_ stop boards) ->
             Bump.new_bumpstop_boarded b = 0 \/ Bump.new_bumpstop_boarded b = 1).
Proof.
  intros Hv veh candidates boards.
  unfold boards, Bump.boards_of_pass. fold candidates.
  rewrite bumpstop_boards_links.
  split; [|split; [|split]].
  - apply sort_values_perm.
  - apply sort_values_sorted.
    + apply orders_leb_total, link_compare_orders.
    + apply orders_leb_trans, link_compare_orders.
  - destruct (compute_overcap_at iteration simulation_iteration bump_iter_now
                veh_loaded_df trip seq_ stop v Hv) as (v' & Hv' & Hoc).
    rewrite <- Hoc. apply bumped_at_count.
    intros l Hl Hg.
    apply (find_passenger_vehicle_times_overcap pathset_links_df veh trip seq_ stop v');
      [exact Hv'| |exact Hg].
    now apply (bump_candidates_In s).
  - intros b Hb. unfold Bump.boards_at, Bump.bumpstop_boards in Hb.
    apply filter_In in Hb as [Hb _].
    apply in_map_iff in Hb as (li & <- & _).
    unfold Bump.flag_board. cbn [Bump.new_bumpstop_boarded].
    destruct (match Sim.overcap (fst li) with Some oc => snd li <? oc | None => false end);
      auto.
Qed.

(** C1 witness: four riders on three seats. *)
Lemma bump_order_and_count_witness :
  Sim.veh_at 1 1 10 Examples.four_on_three = [Examples.stop_10_of Examples.four_on_three] /\
  let veh := Bump.compute_overcap 1 0 0 Examples.four_on_three in
  let candidates :=
    Bump.bump_candidates
      (Bump.joined_to_bump_stops Examples.capacity_on Examples.four_riders veh) in
  let boards := Bump.boards_of_pass Examples.capacity_on Examples.four_riders veh in
  Permutation candidates (map Bump.board_link boards) /\
  StronglySorted (fun a b => Bump.link_leb a b = true) (map Bump.board_link boards) /\
  List.length (Bump.bumped_at 1 1 10 boards) =
  Nat.min (List.length (Bump.boards_at 1 1 10 boards))
          (Z.to_nat (Sim.veh_onboard (Examples.stop_10_of Examples.four_on_three)
                     - Sim.veh_capacity (Examples.stop_10_of Examples.four_on_three))) /\
  (forall b, In b (Bump.boards_at 1 1 10 boards) ->
             Bump.new_bumpstop_boarded b = 0 \/ Bump.new_bumpstop_boarded b = 1).
Proof.
  split; [reflexivity|].
  apply (bump_order_and_count Examples.capacity_on 1 0 0 Examples.four_riders
                              Examples.four_on_three 1 1 10
                              (Examples.stop_10_of Examples.four_on_three)).
  reflexivity.
Defined.

(** C1 fails as stated.  Four riders board trip 1 at stop 10 (sequence 1), the
    only bump stop, on three seats: boards - capacity = 1.  In bump order
    (ann, bob, cat, dan) the code flags one rider bumped, the first, and the
    other three boarded; "the first (boards - capacity) keep their boarding,
    the remainder are bumped" would flag three riders bumped. *)
Lemma keep_first_counterexample :
  let veh := Bump.compute_overcap 1 0 0 Examples.four_on_three in
  let boards := Bump.boards_of_pass Examples.capacity_on Examples.four_riders veh in
  let v := Examples.stop_10_of Examples.four_on_three in
  map Sim.veh_index (Bump.bump_stops_of Examples.capacity_on veh) = [(1, 1)] /\
  Sim.veh_boards v = 4 /\ Sim.veh_capacity v = 3 /\
  map (fun b => Sim.person_id (Bump.board_link b)) (Bump.boards_at 1 1 10 boards)
  = ["ann"; "bob"; "cat"; "dan"]%string /\
  map Bump.new_bumpstop_boarded (Bump.boards_at 1 1 10 boards) = [0; 1; 1; 1] /\
  Bump.keep_first (Sim.veh_boards v - Sim.veh_capacity v) 4 = [1; 0; 0; 0] /\
  map Bump.new_bumpstop_boarded (Bump.boards_at 1 1 10 boards) <>
  Bump.keep_first (Sim.veh_boards v - Sim.veh_capacity v)
                  (List.length (Bump.boards_at 1 1 10 boards)).
Proof.
  vm_compute. repeat split; discriminate.
Qed.

(** *** The bump-wait registry *)

Section RegistryFacts.
Import Sim Bump.

Lemma drop_duplicates_from_app {A : Type} (same : A -> A -> bool)
  (seen l1 l2 : list A) :
  exists seen',
    Frame.drop_duplicates_from same seen (l1 ++ l2) =
    Frame.drop_duplicates_from same seen l1 ++ Frame.drop_duplicates_from same seen' l2.
Proof.
  revert seen. induction l1 as [|x l1 IH]; intros seen; simpl.
  - now exists seen.
  - destruct (existsb (same x) seen).
    + apply IH.
    + destruct (IH (x :: seen)) as [seen' H]. exists seen'. now rewrite H.
Qed.

(** Merging never touches what the registry already holds: the old rows that
    survive are the same whatever the new rows are, and they come first. *)
Lemma update_bump_wait_keeps_old (old new_rows : list BumpWaitRow) :
  exists rest,
    update_bump_wait (Some old) new_rows = update_bump_wait (Some old) [] ++ rest.
Proof.
  unfold update_bump_wait, Frame.drop_duplicates. rewrite app_nil_r.
  destruct (drop_duplicates_from_app
              (fun a b => (bw_trip_id_num a =? bw_trip_id_num b)
                          && (bw_stop_sequence a =? bw_stop_sequence b))
              [] old new_rows) as [seen' H].
  rewrite H. eauto.
Qed.

End RegistryFacts.

(** C2 fails on the code.  The first pass bumps a rider who reached stop 10 at
    08:00 and records 08:00 for (trip 1, sequence 1, stop 10).  A later pass
    bumps, at the same stop, a rider who reached it at 07:55: the new earliest
    A-time is 07:55, the minimum of the two is 07:55, and the registry still
    holds 08:00. *)
Theorem bump_wait_keeps_first_value :
  Examples.registry_after_first_pass = Some [Sim.mkBumpWait 1 1 10 28800] /\
  let veh := Bump.compute_overcap 3 0 0 Examples.early_on_three in
  let boards := Bump.boards_of_pass Examples.capacity_on Examples.early_riders veh in
  let pass := Bump.flag_bump_overcap_passengers
                Examples.capacity_on Examples.registry_after_first_pass 3 0 0
                Examples.early_riders Examples.early_on_three in
  map (fun b => (Sim.person_id (Bump.board_link b), Sim.pf_A_time (Bump.board_link b)))
      (Bump.bumped_at 1 1 10 boards) = [("eve"%string, 28500)] /\
  Bump.new_bump_wait boards = [Sim.mkBumpWait 1 1 10 28500] /\
  Bump.flagged_bump_wait pass = Some [Sim.mkBumpWait 1 1 10 28800] /\
  option_map (fun reg => Bump.stored reg 1 1 10) (Bump.flagged_bump_wait pass)
  = Some (Some 28800) /\
  Z.min 28800 28500 = 28500.
Proof.
  vm_compute. repeat split; reflexivity.
Qed.

(** ** MSA smoothing across the loader and the capacity step *)






(** ** The outer driver *)

Section DriverFacts.
Import Driver.

Lemma truediv_ok (a : Q) (n : Z) :
  n <> 0 -> Py.truediv a (inject_Z n) = Py.Ok (a / inject_Z n)%Q.
Proof.
  intros Hn. unfold Py.truediv.
  destruct (Qeq_bool (inject_Z n) 0) eqn:E; [|reflexivity].
  apply Qeq_bool_eq in E. unfold Qeq in E. simpl in E. lia.
Qed.

Lemma existsb_filter {A : Type} (f g : A -> bool) (l : list A) :
  existsb f (filter g l) = existsb (fun x => g x && f x) l.
Proof.
  induction l as [|x l IH]; [reflexivity|].
  simpl. destruct (g x); simpl; now rewrite IH.
Qed.

Lemma filter_filter_none {A : Type} (p q : A -> bool) (l : list A) :
  (forall x, In x l -> p x = true -> q x = false) -> filter p (filter q l) = [].
Proof.
  intros H. induction l as [|x l IH]; [reflexivity|].
  simpl. destruct (q x) eqn:Hq.
  - simpl. destruct (p x) eqn:Hp.
    + rewrite (H x (or_introl eq_refl) Hp) in Hq. discriminate.
    + apply IH. intros y Hy. apply H. now right.
  - apply IH. intros y Hy. apply H. now right.
Qed.

Lemma filter_filter_all {A : Type} (p q : A -> bool) (l : list A) :
  (forall x, In x l -> p x = true -> q x = true) -> filter p (filter q l) = filter p l.
Proof.
  intros H. induction l as [|x l IH]; [reflexivity|].
  simpl. destruct (q x) eqn:Hq; simpl.
  - destruct (p x); [f_equal|]; apply IH; intros y Hy; apply H; now right.
  - destruct (p x) eqn:Hp.
    + rewrite (H x (or_introl eq_refl) Hp) in Hq. discriminate.
    + apply IH. intros y Hy. apply H. now right.
Qed.

(** the not-arrived requests: those without a path whose chosen status is at
    least 0 *)
Lemma filter_trip_list_to_not_arrived_spec (trip_list_df : list TripListRow)
  (pathset_paths_df : list PathRow) :
  filter_trip_list_to_not_arrived trip_list_df pathset_paths_df =
  filter (fun t => negb (existsb (fun p => is_chosen p
                                           && (trip_list_id_num t =? path_trip_list_id_num p))
                                 pathset_paths_df))
         trip_list_df.
Proof.
  unfold filter_trip_list_to_not_arrived. rewrite anti_join_filter.
  apply filter_ext. intros t. now rewrite existsb_filter.
Qed.

Lemma in_ids_existsb (id : Z) (pathfind : list TripListRow) :
  existsb (fun t => id =? trip_list_id_num t) pathfind = true <->
  In id (map trip_list_id_num pathfind).
Proof.
  rewrite existsb_exists, in_map_iff. split.
  - intros (t & Ht & E). apply Z.eqb_eq in E. eauto.
  - intros (t & E & Ht). exists t. split; [assumption|]. apply Z.eqb_eq. auto.
Qed.

(** [merge_pathsets], request by request *)
Lemma merge_pathsets_paths (pathfind : list TripListRow) (paths new_paths : list PathRow)
  (links new_links : list LinkRow) (id : Z) :
  paths_of id (fst (merge_pathsets pathfind paths links new_paths new_links)) =
  (if existsb (fun t => id =? trip_list_id_num t) pathfind then [] else paths_of id paths)
  ++ map reset_new_path (paths_of id new_paths).
Proof.
  unfold merge_pathsets, paths_of. cbn [fst].
  rewrite filter_app, anti_join_filter. f_equal.
  - destruct (existsb (fun t => id =? trip_list_id_num t) pathfind) eqn:E.
    + apply filter_filter_none. intros p _ Hp. apply Z.eqb_eq in Hp.
      rewrite Hp, E. reflexivity.
    + apply filter_filter_all. intros p _ Hp. apply Z.eqb_eq in Hp.
      rewrite Hp, E. reflexivity.
  - rewrite filter_map_swap. reflexivity.
Qed.

Lemma merge_pathsets_links (pathfind : list TripListRow) (paths new_paths : list PathRow)
  (links new_links : list LinkRow) (id : Z) :
  links_of id (snd (merge_pathsets pathfind paths links new_paths new_links)) =
  (if existsb (fun t => id =? trip_list_id_num t) pathfind then [] else links_of id links)
  ++ links_of id new_links.
Proof.
  unfold merge_pathsets, links_of. cbn [snd].
  rewrite filter_app, anti_join_filter. f_equal.
  destruct (existsb (fun t => id =? trip_list_id_num t) pathfind) eqn:E.
  - apply filter_filter_none. intros p _ Hp. apply Z.eqb_eq in Hp.
    rewrite Hp, E. reflexivity.
  - apply filter_filter_all. intros p _ Hp. apply Z.eqb_eq in Hp.
    rewrite Hp, E. reflexivity.
Qed.

Lemma on_keyboard_interrupt_workers (k : Z) (w : WorkerEntry) (rest : ProcessDict)
  (running : Running) :
  on_keyboard_interrupt ((k, w) :: rest) running = (running, Py.AttributeError).
Proof. reflexivity. Qed.

Lemma on_keyboard_interrupt_no_workers (running : Running) :
  on_keyboard_interrupt [] running = (running, Py.SystemExit 2).
Proof. reflexivity. Qed.

(** what the worker count of [generate_pathsets] does ensure: no more than
    three workers per request *)
Lemma num_processes_for_bound (NUMBER_OF_PROCESSES cpu_count est : Z) :
  0 < est ->
  num_processes_for NUMBER_OF_PROCESSES cpu_count est <= 3 * est.
Proof.
  intros Hest. unfold num_processes_for.
  destruct (Z.ltb_spec (est * 3)
              (if NUMBER_OF_PROCESSES <? 1 then cpu_count else NUMBER_OF_PROCESSES)).
  - pose proof (Z.div_le_upper_bound est 3 est). lia.
  - lia.
Qed.

End DriverFacts.

(** C5: on an even outer iteration the requests handed to pathfinding are
    among those with no path whose chosen status is at least 0; the class
    attribute [PATHFINDING_EVERYONE] is off, so the driver merges: for a
    pathfound request the new paths and links (chosen status reset to
    not-chosen-yet) replace the old ones, and every other request keeps its
    paths and links as they were. *)
Theorem even_iteration_pathfinding (iteration generated : Z) (g : Driver.Globals)
  (trip_list_df : list Driver.TripListRow)
  (pathset_paths_df new_pathset_paths_df : list Driver.PathRow)
  (pathset_links_df new_pathset_links_df : list Driver.LinkRow) :
  let chosen_list :=
    Driver.choose_pathfind_trip_list iteration g trip_list_df pathset_paths_df in
  let pathfind := snd chosen_list in
  let ids := map Driver.trip_list_id_num pathfind in
  let merged :=
    snd (Driver.update_pathsets (fst chosen_list) generated pathfind
           pathset_paths_df pathset_links_df new_pathset_paths_df new_pathset_links_df) in
  iteration mod 2 = 0 ->
  (forall p, In p new_pathset_paths_df -> In (Driver.path_trip_list_id_num p) ids) ->
  (forall l, In l new_pathset_links_df -> In (Driver.link_trip_list_id_num l) ids) ->
  (forall t, In t (Driver.requests_searched (fst chosen_list) pathfind) ->
     In t trip_list_df /\
     forall p, In p pathset_paths_df ->
       Driver.path_trip_list_id_num p = Driver.trip_list_id_num t ->
       ~ (0 <= Driver.chosen p)%Q) /\
  (forall t, In t trip_list_df ->
     (forall p, In p pathset_paths_df ->
        Driver.path_trip_list_id_num p = Driver.trip_list_id_num t ->
        ~ (0 <= Driver.chosen p)%Q) ->
     In t pathfind) /\
  (forall id, In id ids ->
     Driver.paths_of id (fst merged) =
     map Driver.reset_new_path (Driver.paths_of id new_pathset_paths_df) /\
     Driver.links_of id (snd merged) = Driver.links_of id new_pathset_links_df) /\
  (forall id, ~ In id ids ->
     Driver.paths_of id (fst merged) = Driver.paths_of id pathset_paths_df /\
     Driver.links_of id (snd merged) = Driver.links_of id pathset_links_df).
Proof.
  intros chosen_list pathfind ids merged Heven Hnewp Hnewl.
  assert (Hsel : chosen_list =
                 (Driver.mkGlobals false (Driver.DEBUG_TRACE_ONLY g)
                                   (Driver.TRACE_PERSON_IDS g),
                  Driver.filter_trip_list_to_not_arrived trip_list_df pathset_paths_df)).
  { unfold chosen_list, Driver.choose_pathfind_trip_list.
    now rewrite Heven. }
  assert (Hpf : pathfind =
                Driver.filter_trip_list_to_not_arrived trip_list_df pathset_paths_df)
    by (unfold pathfind; now rewrite Hsel).
  assert (Hin : forall t, In t pathfind <->
                  In t trip_list_df /\
                  forall p, In p pathset_paths_df ->
                    Driver.path_trip_list_id_num p = Driver.trip_list_id_num t ->
                    ~ (0 <= Driver.chosen p)%Q).
  { intros t. rewrite Hpf, filter_trip_list_to_not_arrived_spec, filter_In.
    rewrite negb_true_iff. split.
    - intros [Ht Hex]. split; [assumption|]. intros p Hp Hid Hch.
      apply not_true_iff_false in Hex. apply Hex.
      apply existsb_exists. exists p. split; [assumption|].
      apply andb_true_iff. split.
      + now apply Qle_bool_iff.
      + apply Z.eqb_eq. auto.
    - intros [Ht Hno]. split; [assumption|].
      apply not_true_iff_false. intros Hex.
      apply existsb_exists in Hex as (p & Hp & Hc).
      apply andb_true_iff in Hc as [Hch Hid].
      apply Z.eqb_eq in Hid. apply Qle_bool_iff in Hch.
      now apply (Hno p Hp (eq_sym Hid)). }
  assert (Hmerged : merged =
                    Driver.merge_pathsets pathfind pathset_paths_df pathset_links_df
                                          new_pathset_paths_df new_pathset_links_df).
  { unfold merged, Driver.update_pathsets. now rewrite Hsel. }
  split; [|split; [|split]].
  - intros t Ht. unfold Driver.requests_searched in Ht.
    apply filter_In in Ht as [Ht _]. now apply Hin.
  - intros t Ht Hno. apply Hin. now split.
  - intros id Hid. rewrite Hmerged, merge_pathsets_paths, merge_pathsets_links.
    apply in_ids_existsb in Hid. rewrite Hid. now split.
  - intros id Hid. rewrite Hmerged, merge_pathsets_paths, merge_pathsets_links.
    assert (E : existsb (fun t => id =? Driver.trip_list_id_num t) pathfind = false).
    { apply not_true_iff_false. intros H. now apply in_ids_existsb in H. }
    rewrite E.
    assert (Hp : Driver.paths_of id new_pathset_paths_df = []).
    { apply filter_none. intros p Hp. apply Z.eqb_neq. intros <-. now apply Hid, Hnewp. }
    assert (Hl : Driver.links_of id new_pathset_links_df = []).
    { apply filter_none. intros l Hl. apply Z.eqb_neq. intros <-. now apply Hid, Hnewl. }
    rewrite Hp, Hl, !app_nil_r. now split.
Qed.

(** C5 witness: iteration 2 after ann arrived, bob was rejected and cat was
    never chosen. *)
Lemma even_iteration_pathfinding_witness :
  let chosen_list :=
    Driver.choose_pathfind_trip_list 2 Examples.globals_at_start Examples.trip_list
                                     Examples.paths_after_iteration_1 in
  let pathfind := snd chosen_list in
  let ids := map Driver.trip_list_id_num pathfind in
  let merged :=
    snd (Driver.update_pathsets (fst chosen_list) 2 pathfind
           Examples.paths_after_iteration_1 Examples.links_after_iteration_1
           Examples.new_paths_iteration_2 Examples.new_links_iteration_2) in
  ids = [2; 3] /\
  (forall t, In t (Driver.requests_searched (fst chosen_list) pathfind) ->
     In t Examples.trip_list /\
     forall p, In p Examples.paths_after_iteration_1 ->
       Driver.path_trip_list_id_num p = Driver.trip_list_id_num t ->
       ~ (0 <= Driver.chosen p)%Q) /\
  (forall t, In t Examples.trip_list ->
     (forall p, In p Examples.paths_after_iteration_1 ->
        Driver.path_trip_list_id_num p = Driver.trip_list_id_num t ->
        ~ (0 <= Driver.chosen p)%Q) ->
     In t pathfind) /\
  (forall id, In id ids ->
     Driver.paths_of id (fst merged) =
     map Driver.reset_new_path (Driver.paths_of id Examples.new_paths_iteration_2) /\
     Driver.links_of id (snd merged) = Driver.links_of id Examples.new_links_iteration_2) /\
  (forall id, ~ In id ids ->
     Driver.paths_of id (fst merged) = Driver.paths_of id Examples.paths_after_iteration_1 /\
     Driver.links_of id (snd merged) = Driver.links_of id Examples.links_after_iteration_1).
Proof.
  split; [reflexivity|].
  apply (even_iteration_pathfinding 2 2 Examples.globals_at_start Examples.trip_list
           Examples.paths_after_iteration_1 Examples.new_paths_iteration_2
           Examples.links_after_iteration_1 Examples.new_links_iteration_2).
  - reflexivity.
  - intros p Hp. simpl in Hp. vm_compute.
    repeat (destruct Hp as [<-|Hp]; [simpl; tauto|]). destruct Hp.
  - intros l Hl. simpl in Hl. vm_compute.
    repeat (destruct Hl as [<-|Hl]; [simpl; tauto|]). destruct Hl.
Defined.

(** C6: at the end of an outer iteration with at least one pathset found, the
    driver reports capacity gap = 100 (assigned - arrived) / assigned, with
    assigned the number of pathsets found and arrived the number of
    passengers who arrived. *)
Theorem capacity_gap_formula (num_paths_found num_passengers_arrived : Z) :
  0 < num_paths_found ->
  exists report,
    Driver.report_iteration num_paths_found num_passengers_arrived = Py.Ok report /\
    Driver.total_assigned report = num_paths_found /\
    Driver.arrived report = num_passengers_arrived /\
    Driver.missed report = num_paths_found - num_passengers_arrived /\
    (Driver.capacity_gap report ==
     100 * (inject_Z num_paths_found - inject_Z num_passengers_arrived)
     / inject_Z num_paths_found)%Q.
Proof.
  intros Hpos. unfold Driver.report_iteration, Driver.capacity_gap_of.
  replace (0 <? num_paths_found) with true by (symmetry; now apply Z.ltb_lt).
  rewrite truediv_ok by lia. cbn [Py.bind].
  eexists. split; [reflexivity|]. cbn. repeat split.
  unfold Zminus. rewrite inject_Z_plus, inject_Z_opp. reflexivity.
Qed.

(** C6 witness: two pathsets found, one passenger arrived, gap 50. *)
Lemma capacity_gap_formula_witness :
  0 < 2 /\
  exists report,
    Driver.report_iteration 2 1 = Py.Ok report /\
    Driver.total_assigned report = 2 /\
    Driver.arrived report = 1 /\
    Driver.missed report = 2 - 1 /\
    (Driver.capacity_gap report ==
     100 * (inject_Z 2 - inject_Z 1) / inject_Z 2)%Q.
Proof.
  split; [lia|]. apply (capacity_gap_formula 2 1). lia.
Defined.

(** C10: with no pathset found the driver does not divide: the capacity gap
    is 100, and for no counts at all does the computation raise. *)
Theorem capacity_gap_without_pathsets (num_passengers_arrived : Z) :
  Driver.capacity_gap_of 0 num_passengers_arrived = Py.Ok 100%Q /\
  Driver.report_iteration 0 num_passengers_arrived =
  Py.Ok (Driver.mkReport 0 num_passengers_arrived (0 - num_passengers_arrived) 100%Q) /\
  forall num_paths_found e,
    Driver.capacity_gap_of num_paths_found num_passengers_arrived <> Py.Raise e.
Proof.
  split; [reflexivity|]. split; [reflexivity|].
  intros n e. unfold Driver.capacity_gap_of.
  destruct (Z.ltb_spec 0 n); [|discriminate].
  rewrite truediv_ok by lia. discriminate.
Qed.

(** C7 fails on the code.  With 4 workers configured and 2 requests to
    pathfind the guard compares 4 with 2 * 3, leaves the worker count at 4
    and the pool is used, although 2 requests are fewer than 3 times 4
    workers. *)
Theorem pool_used_for_few_requests (cpu_count : Z) :
  Driver.num_processes_for 4 cpu_count 2 = 4 /\
  Driver.uses_pool 4 cpu_count 2 = true /\
  2 < 3 * Driver.num_processes_for 4 cpu_count 2.
Proof. repeat split. Qed.

(** C9 fails on the code.  With two workers running, the handler calls
    [terminate] on the keys of [process_dict], which are ints: it raises
    [AttributeError] before any process is terminated and before
    [sys.exit(2)]; while the driver waits for a result the interrupt does
    not reach the handler at all. *)
Theorem interrupt_leaves_workers_running :
  Driver.workers_of Examples.two_workers = [101%nat; 102%nat] /\
  Driver.on_keyboard_interrupt Examples.two_workers [101%nat; 102%nat]
  = ([101%nat; 102%nat], Py.AttributeError) /\
  Driver.interrupt_outcome Driver.Elsewhere Examples.two_workers [101%nat; 102%nat]
  = ([101%nat; 102%nat], Some Py.AttributeError) /\
  Driver.interrupt_outcome Driver.WaitingForResult Examples.two_workers
                           [101%nat; 102%nat]
  = ([101%nat; 102%nat], None) /\
  Driver.on_keyboard_interrupt [] [] = ([], Py.SystemExit 2).
Proof. repeat split. Qed.

(** ** Missed transfers *)

Section XferFacts.
Import Xfer.

Lemma same_path_eq (a b : Z * Z) : same_path a b = true <-> a = b.
Proof.
  destruct a, b. unfold same_path. simpl. rewrite andb_true_iff, !Z.eqb_eq.
  split; [intros [-> ->]; reflexivity | intros [= -> ->]; auto].
Qed.

Lemma sum_of_flags_pos {A : Type} (f : A -> Z) (l : list A) :
  (forall x, In x l -> f x = 0 \/ f x = 1) ->
  0 <= fold_right Z.add 0 (map f l) /\
  (0 < fold_right Z.add 0 (map f l) <-> exists x, In x l /\ f x = 1).
Proof.
  induction l as [|x l IH]; intros H; simpl.
  - split; [lia|]. split; [lia|]. intros (x & [] & _).
  - destruct IH as [Hnn Hiff]; [intros y Hy; apply H; now right|].
    destruct (H x (or_introl eq_refl)) as [E|E]; rewrite E.
    + split; [lia|]. split.
      * intros Hpos. destruct Hiff as [Hex _]. destruct Hex as (y & Hy & Ey); [lia|].
        exists y. split; [now right|assumption].
      * intros (y & [<-|Hy] & Ey); [lia|].
        assert (0 < fold_right Z.add 0 (map f l)) by (apply Hiff; eauto). lia.
    + split; [lia|]. split; [|lia]. intros _. exists x. split; [now left|assumption].
Qed.

(** every row of the result went through the last step *)
Lemma flag_links_In (links : list XLink) (l : XLink) :
  In l (flag_links links) -> exists l0, l = set_wait_and_flag l0.
Proof.
  unfold flag_links. intros H. apply in_map_iff in H as (l0 & <- & _). now exists l0.
Qed.

Lemma flag_links_flag (links : list XLink) (l : XLink) :
  In l (flag_links links) ->
  new_waittime l = (if has_trip l then osub (board_time l) (new_A_time l) else None) /\
  (missed_xfer l = 1 <-> exists w, new_waittime l = Some w /\ w < 0) /\
  (missed_xfer l = 0 \/ missed_xfer l = 1).
Proof.
  intros H. apply flag_links_In in H as (l0 & ->).
  unfold set_wait_and_flag, with_columns, has_trip.
  cbn [new_waittime board_time new_A_time trip_id_num missed_xfer].
  split; [reflexivity|].
  destruct (if match trip_id_num l0 with Some _ => true | None => false end
            then osub (board_time l0) (new_A_time l0) else None) as [w|]; simpl.
  - destruct (Z.ltb_spec w 0); split; try tauto.
    + split; [eauto|reflexivity].
    + split; [discriminate|]. intros (w' & [= <-] & Hw). lia.
  - split; [|tauto]. split; [discriminate|]. intros (w & Hw & _). discriminate.
Qed.

Lemma grouped_missed_xfer_In (links : list XLink) (k : Z * Z) (v : Z) :
  (forall l, In l links -> missed_xfer l = 0 \/ missed_xfer l = 1) ->
  In (k, v) (grouped_missed_xfer links) ->
  (v = 0 \/ v = 1) /\
  (v = 1 <-> exists l, In l links /\ path_of l = k /\ missed_xfer l = 1).
Proof.
  intros Hflags H. unfold grouped_missed_xfer in H.
  apply in_map_iff in H as (k' & [= <- <-] & _).
  set (members := filter (fun l => same_path (path_of l) k') links).
  destruct (sum_of_flags_pos missed_xfer members) as [Hnn Hiff].
  { intros l Hl. apply Hflags. unfold members in Hl. now apply filter_In in Hl as [Hl _]. }
  assert (Hex : (exists x, In x members /\ missed_xfer x = 1) <->
                (exists l, In l links /\ path_of l = k' /\ missed_xfer l = 1)).
  { unfold members. split.
    - intros (l & Hl & E). apply filter_In in Hl as [Hl Hk].
      apply same_path_eq in Hk. eauto.
    - intros (l & Hl & Hk & E). exists l. split; [|assumption].
      apply filter_In. split; [assumption|]. now apply same_path_eq. }
  destruct (Z.ltb_spec 0 (fold_right Z.add 0 (map missed_xfer members))).
  - split; [now right|]. split; [intros _|reflexivity]. apply Hex, Hiff. assumption.
  - split; [left; lia|]. split.
    + intros E. apply Hex, Hiff. lia.
    + intros Hl. apply Hex, Hiff in Hl. lia.
Qed.

Lemma grouped_missed_xfer_keys (links : list XLink) (k : Z * Z) :
  (exists v, In (k, v) (grouped_missed_xfer links)) <->
  exists l, In l links /\ path_of l = k.
Proof.
  unfold grouped_missed_xfer. split.
  - intros (v & H). apply in_map_iff in H as (k' & [= <- <-] & Hk).
    apply nodup_In, in_map_iff in Hk as (l & E & Hl). eauto.
  - intros (l & Hl & <-). eexists. apply in_map_iff. exists (path_of l).
    split; [reflexivity|]. apply nodup_In, in_map. assumption.
Qed.

End XferFacts.

Section LegFacts.
Import Xfer Legs.

Lemma filter_map_length {A B : Type} (f : A -> B) (p : B -> bool) (l : list A) :
  List.length (filter p (map f l)) = List.length (filter (fun x => p (f x)) l).
Proof.
  induction l as [|x l IH]; [reflexivity|]. simpl.
  destruct (p (f x)); simpl; now rewrite IH.
Qed.

(** in a list without duplicates at most one element equals a given one *)
Lemma NoDup_filter_le1 {A B : Type} (f : A -> B) (p : A -> bool) (k : B) (l : list A) :
  NoDup (map f l) -> (forall x, p x = true -> f x = k) ->
  (List.length (filter p l) <= 1)%nat.
Proof.
  intros Hnd Hp. induction l as [|x l IH]; simpl; [lia|].
  inversion Hnd as [|? ? Hnotin Hnd']; subst.
  specialize (IH Hnd'). destruct (p x) eqn:Hx; [|assumption].
  simpl. enough (filter p l = []) as -> by (simpl; lia).
  apply filter_none. intros y Hy. destruct (p y) eqn:Hpy; [|reflexivity].
  exfalso. apply Hnotin. rewrite (Hp x Hx), <- (Hp y Hpy). now apply in_map.
Qed.

Lemma NoDup_map_inj {A B : Type} (f : A -> B) (l : list A) (x y : A) :
  NoDup (map f l) -> In x l -> In y l -> f x = f y -> x = y.
Proof.
  induction l as [|z l IH]; intros Hnd Hx Hy E; [destruct Hx|].
  inversion Hnd as [|? ? Hnotin Hnd']; subst.
  destruct Hx as [->|Hx], Hy as [->|Hy]; try reflexivity.
  - exfalso. apply Hnotin. rewrite E. now apply in_map.
  - exfalso. apply Hnotin. rewrite <- E. now apply in_map.
  - now apply IH.
Qed.

Lemma leg_before_key (l m : XLink) :
  leg_before l m = true <->
  leg_key m = (trip_list_id_num l, pathnum l, linknum l - 1).
Proof.
  unfold leg_before, leg_key. rewrite !andb_true_iff, !Z.eqb_eq. split.
  - intros [[-> ->] H]. do 2 f_equal. lia.
  - intros [= -> -> H]. repeat split. lia.
Qed.

Lemma leg_key_read (l m : XLink) : read_columns l = read_columns m -> leg_key l = leg_key m.
Proof. unfold read_columns, leg_key. intros [= -> -> -> _ _ _ _ _]. reflexivity. Qed.

Lemma leg_before_read (l l' m m' : XLink) :
  read_columns l' = read_columns l -> read_columns m' = read_columns m ->
  leg_before l' m' = leg_before l m.
Proof.
  unfold read_columns, leg_before.
  intros [= -> -> -> _ _ _ _ _] [= -> -> -> _ _ _ _ _]. reflexivity.
Qed.

Lemma leg_keys_of_read (ls ls' : list XLink) :
  map read_columns ls' = map read_columns ls -> map leg_key ls' = map leg_key ls.
Proof.
  intros H.
  assert (E : forall xs,
             map leg_key xs =
             map (fun c : Z * Z * Z * LinkMode * option Z * Z * Z * Z =>
                    let '(i, p, n, _, _, _, _, _) := c in (i, p, n))
                 (map read_columns xs))
    by (intros xs; rewrite map_map; reflexivity).
  now rewrite !E, H.
Qed.

Lemma at_most_one_leg_before (ls : list XLink) (l : XLink) :
  NoDup (map leg_key ls) -> (List.length (filter (leg_before l) ls) <= 1)%nat.
Proof.
  intros Hnd.
  apply (NoDup_filter_le1 leg_key _ (trip_list_id_num l, pathnum l, linknum l - 1));
    [assumption|].
  intros m Hm. now apply leg_before_key.
Qed.

(** the leg before, looked up *)
Lemma find_leg_before (ls : list XLink) (l m : XLink) :
  NoDup (map leg_key ls) -> In m ls -> leg_before l m = true ->
  find (leg_before l) ls = Some m.
Proof.
  intros Hnd Hm Hlm. destruct (find (leg_before l) ls) as [x|] eqn:E.
  - apply find_some in E as [Hx Hlx]. f_equal.
    apply (NoDup_map_inj leg_key ls); try assumption.
    apply leg_before_key in Hlm, Hlx. congruence.
  - now rewrite (find_none _ _ E m Hm) in Hlm.
Qed.

Lemma first_step_read (l : XLink) : read_columns (first_step l) = read_columns l.
Proof.
  unfold first_step, back_up_a_day. destruct (delay_over_22h _); reflexivity.
Qed.

Lemma after_first_join_read (ls : list XLink) (l : XLink) :
  read_columns (after_first_join ls l) = read_columns l.
Proof. reflexivity. Qed.

Lemma after_second_join_read (ls : list XLink) (l : XLink) :
  read_columns (after_second_join ls l) = read_columns l.
Proof. reflexivity. Qed.

Lemma map_read_columns (f : XLink -> XLink) (ls : list XLink) :
  (forall l, read_columns (f l) = read_columns l) ->
  map read_columns (map f ls) = map read_columns ls.
Proof. intros H. rewrite map_map. apply map_ext. exact H. Qed.

(** with one link per (request, path, link number) both joins are lookups *)
Lemma flag_links_by_lookup (links : list XLink) :
  NoDup (map leg_key links) ->
  let ls1 := map first_step links in
  let ls2 := map (after_first_join ls1) ls1 in
  flag_links links = map (after_second_join ls2) ls2.
Proof.
  intros Hnd ls1 ls2.
  assert (Hnd1 : NoDup (map leg_key ls1)).
  { unfold ls1. rewrite (leg_keys_of_read links); [assumption|].
    apply map_read_columns, first_step_read. }
  assert (Hnd2 : NoDup (map leg_key ls2)).
  { unfold ls2. rewrite (leg_keys_of_read ls1); [assumption|].
    apply map_read_columns, after_first_join_read. }
  unfold flag_links. rewrite (map_map set_alight_delay back_up_a_day).
  change (map (fun x => back_up_a_day (set_alight_delay x)) links) with ls1.
  assert (E1 : map set_new_B_time (join_alight_of_previous ls1) = ls2).
  { unfold join_alight_of_previous.
    rewrite merge_left_lookup by (intros l _; now apply at_most_one_leg_before).
    rewrite !map_map. reflexivity. }
  rewrite E1. unfold join_B_of_previous.
  rewrite merge_left_lookup by (intros l _; now apply at_most_one_leg_before).
  rewrite !map_map. reflexivity.
Qed.

Lemma merge_left_exists {L R : Type} (on : L -> R -> bool) (left : list L)
  (right : list R) (l : L) :
  In l left -> exists m, In (l, m) (Frame.merge_left on left right).
Proof.
  intros Hl. unfold Frame.merge_left.
  destruct (filter (on l) right) as [|r rs] eqn:E.
  - exists None. apply in_flat_map. exists l. split; [assumption|]. rewrite E. now left.
  - exists (Some r). apply in_flat_map. exists l. split; [assumption|].
    rewrite E. now left.
Qed.

(** whatever the keys, the paths of the links are the same before and after *)
Lemma flag_links_paths (links : list XLink) (k : Z * Z) :
  (exists l, In l (flag_links links) /\ path_of l = k) <->
  (exists l, In l links /\ path_of l = k).
Proof.
  assert (Hj1 : forall ls k,
             (exists l, In l (join_alight_of_previous ls) /\ path_of l = k) <->
             (exists l, In l ls /\ path_of l = k)).
  { intros ls k0. unfold join_alight_of_previous. split.
    - intros (l & Hl & <-). apply in_map_iff in Hl as ([l0 m] & <- & Hl).
      apply merge_left_In in Hl as [Hl _]. exists l0. split; [assumption|reflexivity].
    - intros (l & Hl & <-).
      destruct (merge_left_exists leg_before ls ls l Hl) as [m Hm].
      eexists. split; [apply in_map_iff; exists (l, m); split; [reflexivity|exact Hm]|].
      reflexivity. }
  assert (Hj2 : forall ls k,
             (exists l, In l (join_B_of_previous ls) /\ path_of l = k) <->
             (exists l, In l ls /\ path_of l = k)).
  { intros ls k0. unfold join_B_of_previous. split.
    - intros (l & Hl & <-). apply in_map_iff in Hl as ([l0 m] & <- & Hl).
      apply merge_left_In in Hl as [Hl _]. exists l0. split; [assumption|reflexivity].
    - intros (l & Hl & <-).
      destruct (merge_left_exists leg_before ls ls l Hl) as [m Hm].
      eexists. split; [apply in_map_iff; exists (l, m); split; [reflexivity|exact Hm]|].
      reflexivity. }
  assert (Hmap : forall (f : XLink -> XLink) ls k,
             (forall l, path_of (f l) = path_of l) ->
             (exists l, In l (map f ls) /\ path_of l = k) <->
             (exists l, In l ls /\ path_of l = k)).
  { intros f ls k0 Hf. split.
    - intros (l & Hl & <-). apply in_map_iff in Hl as (l0 & <- & Hl).
      exists l0. split; [assumption|]. symmetry. apply Hf.
    - intros (l & Hl & <-). exists (f l). split; [now apply in_map|apply Hf]. }
  unfold flag_links.
  rewrite Hmap by reflexivity. rewrite Hmap by reflexivity. rewrite Hj2.
  rewrite Hmap by reflexivity. rewrite Hj1.
  rewrite Hmap by (intros l; unfold back_up_a_day; destruct (delay_over_22h l); reflexivity).
  apply Hmap. reflexivity.
Qed.

Lemma grouped_missed_xfer_at_most_one (links : list XLink) (k : Z * Z) :
  (List.length (filter (fun g => same_path k (fst g)) (grouped_missed_xfer links)) <= 1)%nat.
Proof.
  unfold grouped_missed_xfer. rewrite filter_map_length. cbn [fst].
  apply (NoDup_filter_le1 (fun x => x) _ k).
  - rewrite map_id. apply NoDup_nodup.
  - intros x Hx. symmetry. now apply same_path_eq.
Qed.

End LegFacts.

Section ChainFacts.
Import Xfer Legs.

Lemma oadd_back (b : option Z) (d : Z) : b = oadd (oadd b (- d)) d.
Proof. destruct b as [b|]; [|reflexivity]. simpl. f_equal. lia. Qed.

Lemma after_second_join_A (ls2 : list XLink) (y : XLink) :
  new_A_time (after_second_join ls2 y) =
  if is_trip (linkmode y)
  then match find (leg_before y) ls2 with Some m => new_B_time m | None => None end
  else new_A_time y.
Proof. reflexivity. Qed.

Lemma after_second_join_B (ls2 : list XLink) (y : XLink) :
  new_B_time (after_second_join ls2 y) = new_B_time y \/
  new_B_time (after_second_join ls2 y) = oadd (new_B_time y) (- (24 * hour)).
Proof.
  unfold after_second_join, set_wait_and_flag, set_new_linktime, with_columns.
  cbn [new_B_time new_A_time]. destruct (ogt _ _); auto.
Qed.

Lemma after_first_join_A (ls1 : list XLink) (x : XLink) :
  new_A_time (after_first_join ls1 x) =
  if is_access (linkmode x) then Some (pf_A_time x)
  else match find (leg_before x) ls1 with Some m => alight_time m | None => None end.
Proof. reflexivity. Qed.

End ChainFacts.

Section LegTimes.
Import Xfer Legs.

Lemma first_B_time_after (ls1 ls2 : list XLink) (x : XLink) :
  first_B_time (after_second_join ls2 (after_first_join ls1 x))
  = new_B_time (after_first_join ls1 x).
Proof.
  unfold first_B_time, after_second_join, after_first_join, set_wait_and_flag,
    set_new_linktime, set_new_B_time, with_columns.
  cbn [linkmode pf_B_time alight_time new_A_time pf_linktime new_B_time].
  destruct (linkmode x); reflexivity.
Qed.

Lemma after_second_join_times (ls2 : list XLink) (y : XLink) :
  let l := after_second_join ls2 y in
  new_B_time l
  = (if ogt (osub (new_B_time y) (new_A_time l)) (22 * hour)
     then oadd (new_B_time y) (- (24 * hour)) else new_B_time y) /\
  new_linktime l = osub (new_B_time l) (new_A_time l) /\
  new_waittime l = (if has_trip l then osub (board_time l) (new_A_time l) else None) /\
  missed_xfer l = (if olt (new_waittime l) 0 then 1 else 0).
Proof.
  unfold after_second_join, set_wait_and_flag, set_new_linktime, with_columns, has_trip.
  cbn [new_B_time new_A_time new_linktime new_waittime missed_xfer board_time trip_id_num].
  destruct (ogt _ _); repeat split.
Qed.

(** with one link per (request, path, link number), the links one by one *)
Lemma flag_links_nth (links : list XLink) (i : nat) (l : XLink) :
  NoDup (map leg_key links) ->
  nth_error links i = Some l ->
  let ls1 := map first_step links in
  let ls2 := map (after_first_join ls1) ls1 in
  nth_error (flag_links links) i
  = Some (after_second_join ls2 (after_first_join ls1 (first_step l))).
Proof.
  intros Hnd Hl ls1 ls2. rewrite flag_links_by_lookup by assumption.
  fold ls1. fold ls2. unfold ls2 at 2. unfold ls1 at 2.
  rewrite !map_map, nth_error_map, Hl. reflexivity.
Qed.

(** how the legs follow one another *)
Lemma flag_links_legs (links : list XLink) (l : XLink) :
  NoDup (map leg_key links) ->
  In l (flag_links links) ->
  new_B_time l
  = (if backed_up l then oadd (first_B_time l) (- (24 * hour)) else first_B_time l) /\
  new_linktime l = osub (new_B_time l) (new_A_time l) /\
  (linkmode l = Access -> new_A_time l = Some (pf_A_time l)) /\
  (linkmode l <> Access ->
   (forall m, In m (flag_links links) -> leg_before l m = false) ->
   new_A_time l = None) /\
  forall m, In m (flag_links links) -> leg_before l m = true ->
    linkmode l <> Access ->
    new_A_time l = if is_trip (linkmode l) then first_B_time m else alight_time m.
Proof.
  intros Hnd Hl.
  rewrite flag_links_by_lookup in * by assumption.
  set (ls1 := map first_step links) in *.
  set (ls2 := map (after_first_join ls1) ls1) in *.
  assert (Hnd1 : NoDup (map leg_key ls1)).
  { unfold ls1. rewrite (leg_keys_of_read links); [assumption|].
    apply map_read_columns, first_step_read. }
  assert (Hnd2 : NoDup (map leg_key ls2)).
  { unfold ls2. rewrite (leg_keys_of_read ls1); [assumption|].
    apply map_read_columns, after_first_join_read. }
  apply in_map_iff in Hl as (y & <- & Hy).
  pose proof Hy as Hy'. unfold ls2 in Hy'. apply in_map_iff in Hy' as (x & Ey & Hx).
  assert (Hmode : linkmode (after_second_join ls2 y) = linkmode x)
    by (subst y; reflexivity).
  assert (Hmode_y : linkmode y = linkmode x) by (subst y; reflexivity).
  destruct (after_second_join_times ls2 y) as (HB & HL & _ & _). cbv zeta in HB, HL.
  split; [|split; [exact HL|split; [|split]]].
  - unfold backed_up. subst y. rewrite first_B_time_after. exact HB.
  - intros Hacc. rewrite after_second_join_A, Hmode_y. rewrite Hmode in Hacc.
    rewrite Hacc. cbn [is_trip]. subst y. rewrite after_first_join_A, Hacc. reflexivity.
  - intros Hnacc Hnone. rewrite Hmode in Hnacc.
    assert (Hfind2 : find (leg_before y) ls2 = None).
    { destruct (find (leg_before y) ls2) as [m|] eqn:E; [|reflexivity].
      apply find_some in E as [Hm Hlm].
      specialize (Hnone (after_second_join ls2 m) (in_map _ _ _ Hm)).
      rewrite (leg_before_read y _ m _ (after_second_join_read ls2 y)
                 (after_second_join_read ls2 m)) in Hnone. congruence. }
    assert (Hfind1 : find (leg_before x) ls1 = None).
    { destruct (find (leg_before x) ls1) as [m|] eqn:E; [|reflexivity].
      apply find_some in E as [Hm Hlm].
      pose proof (find_none _ _ Hfind2 (after_first_join ls1 m)
                    (in_map _ _ _ Hm)) as Hno.
      subst y.
      rewrite (leg_before_read x _ m _ (after_first_join_read ls1 x)
                 (after_first_join_read ls1 m)) in Hno. congruence. }
    rewrite after_second_join_A, Hfind2, Hmode_y. subst y.
    rewrite after_first_join_A, Hfind1.
    destruct (linkmode x); try reflexivity. congruence.
  - intros m' Hm' Hlm Hnacc. rewrite Hmode in Hnacc.
    apply in_map_iff in Hm' as (ym & <- & Hym).
    pose proof Hym as Hym'. unfold ls2 in Hym'.
    apply in_map_iff in Hym' as (xm & Eym & Hxm).
    rewrite (leg_before_read y _ ym _ (after_second_join_read ls2 y)
               (after_second_join_read ls2 ym)) in Hlm.
    assert (Hlm1 : leg_before x xm = true).
    { rewrite <- Hlm. subst y ym. symmetry.
      apply leg_before_read; apply after_first_join_read. }
    pose proof (find_leg_before ls2 y ym Hnd2 Hym Hlm) as Hfind2.
    pose proof (find_leg_before ls1 x xm Hnd1 Hxm Hlm1) as Hfind1.
    rewrite Hmode, after_second_join_A, Hfind2, Hmode_y.
    destruct (linkmode x) eqn:Hx_mode; cbn [is_trip]; try congruence.
    + subst y. rewrite after_first_join_A, Hx_mode, Hfind1. cbn [is_access].
      subst ym. reflexivity.
    + subst y. rewrite after_first_join_A, Hx_mode, Hfind1. cbn [is_access].
      subst ym. reflexivity.
    + subst ym. now rewrite first_B_time_after.
Qed.

End LegTimes.

(** C8: [flag_missed_transfers], on links that are one per (request, path,
    link number).  The links come back one for one, with the vehicle times of
    the input (a day earlier when the alight delay is over 22 hours).  The
    new arrival time of a link is its pathfinding A time on an access link,
    the B time of the leg before it on a trip link, and the alight time of
    the leg before it on any other link.  A link is marked missed_xfer = 1
    exactly when it rides a vehicle and its recomputed wait time, the
    vehicle's board time minus that arrival time, is negative; and a path is
    marked missed_xfer = 1 exactly when at least one of its links is so
    marked. *)
Theorem missed_transfer_flags (pathset_paths_df : list Xfer.XPath)
  (pathset_links_df : list Xfer.XLink) :
  NoDup (map Legs.leg_key pathset_links_df) ->
  let out := Xfer.flag_missed_transfers pathset_paths_df pathset_links_df in
  List.length (snd out) = List.length pathset_links_df /\
  (forall i l, nth_error pathset_links_df i = Some l ->
     exists l', nth_error (snd out) i = Some l' /\
       Legs.read_columns l' = Legs.read_columns l /\
       Xfer.board_time l'
       = Xfer.board_time (Xfer.back_up_a_day (Xfer.set_alight_delay l)) /\
       Xfer.alight_time l'
       = Xfer.alight_time (Xfer.back_up_a_day (Xfer.set_alight_delay l)) /\
       (Xfer.linkmode l = Xfer.Access -> Xfer.new_A_time l' = Some (Xfer.pf_A_time l)) /\
       (Xfer.linkmode l <> Xfer.Access ->
        (forall m', In m' (snd out) -> Xfer.leg_before l' m' = false) ->
        Xfer.new_A_time l' = None) /\
       (forall m', In m' (snd out) -> Xfer.leg_before l' m' = true ->
          Xfer.linkmode l <> Xfer.Access ->
          Xfer.new_A_time l'
          = if Xfer.is_trip (Xfer.linkmode l)
            then Legs.first_B_time m' else Xfer.alight_time m') /\
       Xfer.new_waittime l' =
       (if Xfer.has_trip l then Xfer.osub (Xfer.board_time l') (Xfer.new_A_time l')
        else None) /\
       (Xfer.missed_xfer l' = 1 <-> exists w, Xfer.new_waittime l' = Some w /\ w < 0) /\
       (Xfer.missed_xfer l' = 1 <->
        Xfer.has_trip l = true /\
        exists b a, Xfer.board_time l' = Some b /\ Xfer.new_A_time l' = Some a /\
                    b - a < 0) /\
       (Xfer.missed_xfer l' = 0 \/ Xfer.missed_xfer l' = 1)) /\
  map Legs.path_key (fst out) = map Legs.path_key pathset_paths_df /\
  (forall p, In p (fst out) ->
     (Xfer.path_missed_xfer p = Some 1 <->
      exists l', In l' (snd out) /\
                 Xfer.path_of l' = (Xfer.path_trip_list_id_num p, Xfer.path_pathnum p) /\
                 Xfer.missed_xfer l' = 1)).
Proof.
  intros Hnd out. unfold out, Xfer.flag_missed_transfers. cbn [fst snd].
  set (links := Xfer.flag_links pathset_links_df).
  assert (Hflags : forall l, In l links ->
                     Xfer.missed_xfer l = 0 \/ Xfer.missed_xfer l = 1)
    by (intros l Hl; now destruct (flag_links_flag _ l Hl) as (_ & _ & H)).
  split; [|split; [|split]].
  - unfold links. rewrite flag_links_by_lookup by assumption. now rewrite !length_map.
  - intros i l Hi.
    pose proof (flag_links_nth pathset_links_df i l Hnd Hi) as Hnth. cbv zeta in Hnth.
    fold links in Hnth. eexists. split; [exact Hnth|].
    set (l' := Legs.after_second_join _ _) in *.
    assert (Hl' : In l' links) by (eapply nth_error_In; exact Hnth).
    assert (Hread : Legs.read_columns l' = Legs.read_columns l)
      by (unfold l'; now rewrite after_second_join_read, after_first_join_read,
                                 first_step_read).
    assert (Hcols : Xfer.linkmode l' = Xfer.linkmode l /\
                    Xfer.trip_id_num l' = Xfer.trip_id_num l /\
                    Xfer.pf_A_time l' = Xfer.pf_A_time l)
      by (pose proof Hread as H; unfold Legs.read_columns in H;
          injection H; intros; auto).
    destruct Hcols as (Hmode & Htid & HpfA).
    assert (Htrip : Xfer.has_trip l' = Xfer.has_trip l)
      by (unfold Xfer.has_trip; now rewrite Htid).
    destruct (flag_links_legs pathset_links_df l' Hnd Hl') as (_ & _ & Hacc & Hnone & Hleg).
    fold links in Hnone, Hleg.
    destruct (flag_links_flag _ l' Hl') as (Hw & Hm & H01).
    rewrite Hmode, ?HpfA in *. rewrite Htrip in Hw.
    split; [exact Hread|]. split; [reflexivity|]. split; [reflexivity|].
    split; [exact Hacc|]. split; [exact Hnone|]. split; [exact Hleg|].
    split; [exact Hw|]. split; [exact Hm|]. split; [|exact H01].
    rewrite Hm, Hw. destruct (Xfer.has_trip l).
    + destruct (Xfer.board_time l') as [b|], (Xfer.new_A_time l') as [a|]; simpl.
      * split.
        -- intros (w & [= <-] & H). split; [reflexivity|]. eauto.
        -- intros (_ & b' & a' & [= <-] & [= <-] & H). eauto.
      * split; [intros (w & H & _); discriminate|].
        intros (_ & b' & a' & _ & H & _). discriminate.
      * split; [intros (w & H & _); discriminate|].
        intros (_ & b' & a' & H & _). discriminate.
      * split; [intros (w & H & _); discriminate|].
        intros (_ & b' & a' & H & _). discriminate.
    + split; [intros (w & H & _); discriminate|]. intros [H _]. discriminate.
  - rewrite merge_left_lookup
      by (intros p _; apply (grouped_missed_xfer_at_most_one links
                               (Xfer.path_trip_list_id_num p, Xfer.path_pathnum p))).
    now rewrite !map_map.
  - intros p Hp.
    apply in_map_iff in Hp as ([p0 m] & <- & Hin). cbn [fst snd Xfer.path_missed_xfer
      Xfer.path_trip_list_id_num Xfer.path_pathnum].
    apply merge_left_In in Hin as [_ Hm].
    destruct m as [[k v]|]; cbn [option_map snd].
    + apply filter_In in Hm as [Hg Hk]. cbn [fst] in Hk.
      apply same_path_eq in Hk. subst k.
      destruct (grouped_missed_xfer_In _ _ _ Hflags Hg) as [_ Hiff].
      rewrite <- Hiff. split; [intros [= ->]; reflexivity | intros ->; reflexivity].
    + split; [discriminate|]. intros (l & Hl & Hk & _). exfalso.
      destruct (proj2 (grouped_missed_xfer_keys links
                         (Xfer.path_trip_list_id_num p0, Xfer.path_pathnum p0)))
        as [v Hv]; [eauto|].
      assert (Hin : In (Xfer.path_trip_list_id_num p0, Xfer.path_pathnum p0, v)
                       (filter (fun g => Xfer.same_path
                                   (Xfer.path_trip_list_id_num p0, Xfer.path_pathnum p0)
                                   (fst g))
                               (Xfer.grouped_missed_xfer links))).
      { apply filter_In. split; [assumption|]. now apply same_path_eq. }
      rewrite Hm in Hin. destruct Hin.
Qed.

(** C8 witness: walk to the stop, ride trip 7 which reaches the transfer stop
    at 08:10, ride trip 8 which leaves it at 08:09, walk home.  The second
    trip link waits -60 seconds and is marked; so is the path.  The other
    path of the table has no link and gets no mark. *)
Lemma missed_transfer_flags_witness :
  NoDup (map Legs.leg_key Examples.missed_connection) /\
  (let out := Xfer.flag_missed_transfers Examples.missed_connection_paths
                                         Examples.missed_connection in
   List.length (snd out) = List.length Examples.missed_connection /\
   (forall i l, nth_error Examples.missed_connection i = Some l ->
      exists l', nth_error (snd out) i = Some l' /\
        Legs.read_columns l' = Legs.read_columns l /\
        Xfer.board_time l'
        = Xfer.board_time (Xfer.back_up_a_day (Xfer.set_alight_delay l)) /\
        Xfer.alight_time l'
        = Xfer.alight_time (Xfer.back_up_a_day (Xfer.set_alight_delay l)) /\
        (Xfer.linkmode l = Xfer.Access -> Xfer.new_A_time l' = Some (Xfer.pf_A_time l)) /\
        (Xfer.linkmode l <> Xfer.Access ->
         (forall m', In m' (snd out) -> Xfer.leg_before l' m' = false) ->
         Xfer.new_A_time l' = None) /\
        (forall m', In m' (snd out) -> Xfer.leg_before l' m' = true ->
           Xfer.linkmode l <> Xfer.Access ->
           Xfer.new_A_time l'
           = if Xfer.is_trip (Xfer.linkmode l)
             then Legs.first_B_time m' else Xfer.alight_time m') /\
        Xfer.new_waittime l' =
        (if Xfer.has_trip l then Xfer.osub (Xfer.board_time l') (Xfer.new_A_time l')
         else None) /\
        (Xfer.missed_xfer l' = 1 <-> exists w, Xfer.new_waittime l' = Some w /\ w < 0) /\
        (Xfer.missed_xfer l' = 1 <->
         Xfer.has_trip l = true /\
         exists b a, Xfer.board_time l' = Some b /\ Xfer.new_A_time l' = Some a /\
                     b - a < 0) /\
        (Xfer.missed_xfer l' = 0 \/ Xfer.missed_xfer l' = 1)) /\
   map Legs.path_key (fst out) = map Legs.path_key Examples.missed_connection_paths /\
   (forall p, In p (fst out) ->
      (Xfer.path_missed_xfer p = Some 1 <->
       exists l', In l' (snd out) /\
                  Xfer.path_of l' = (Xfer.path_trip_list_id_num p, Xfer.path_pathnum p) /\
                  Xfer.missed_xfer l' = 1))) /\
  (let out := Xfer.flag_missed_transfers Examples.missed_connection_paths
                                         Examples.missed_connection in
   map Xfer.new_A_time (snd out) = [Some 28200; Some 28500; Some 29400; Some 30000] /\
   map Xfer.board_time (snd out) = [None; Some 28800; Some 29340; None] /\
   map Xfer.new_waittime (snd out) = [None; Some 300; Some (-60); None] /\
   map Xfer.missed_xfer (snd out) = [0; 0; 1; 0] /\
   map Xfer.path_missed_xfer (fst out) = [Some 1; None]).
Proof.
  assert (Hnd : NoDup (map Legs.leg_key Examples.missed_connection)).
  { cbn. repeat constructor; cbn; intuition discriminate. }
  split; [exact Hnd|]. split.
  - exact (missed_transfer_flags Examples.missed_connection_paths
             Examples.missed_connection Hnd).
  - vm_compute. repeat split.
Defined.

(** * Further properties of the code *)

(** ** The loader *)


(** X1: the loader keeps the vehicle table row for row (same trip, sequence,
    stop, arrival time and capacity, same number of rows) and sets boards and
    alights of a row to the number of links that are chosen (status at least
    0), not bumped (bump_iter = -1) and board, respectively alight, at the
    row's trip, stop and sequence: bumped and unchosen links load nobody. *)
Theorem loader_counts_chosen_unbumped (iteration bump_iter_now : Z)
  (pathset_links_df : list Sim.PaxLink) (veh_trips_df : list Sim.VehRow) :
  1 <= iteration ->
  Sim.in_sequence_order veh_trips_df = true ->
  exists veh_loaded_df,
    Sim.put_passengers_on_vehicles iteration bump_iter_now pathset_links_df veh_trips_df
    = Py.Ok veh_loaded_df /\
    List.length veh_loaded_df = List.length veh_trips_df /\
    forall i v r,
      nth_error veh_trips_df i = Some v -> nth_error veh_loaded_df i = Some r ->
      Load.same_stop_time v r /\
      Sim.veh_boards r =
      Sim.count_rows (fun l => Load.is_loaded l && Sim.boards_here v l) pathset_links_df /\
      Sim.veh_alights r =
      Sim.count_rows (fun l => Load.is_loaded l && Sim.alights_here v l) pathset_links_df.
Proof.
  intros Hit Hord.
  eexists. split; [apply put_passengers_on_vehicles_ok; assumption|].
  split; [now apply put_passengers_on_vehicles_length|].
  intros i v r Hv Hr.
  destruct (loaded_before_onboard_nth iteration bump_iter_now pathset_links_df
              veh_trips_df i v Hv) as (w & Hw & Hsame & _ & _ & Hb & Ha & _).
  apply join_onboard_nth_inv in Hr as (w' & Hw' & ->);
    [|now rewrite loaded_before_onboard_order].
  rewrite Hw in Hw'. injection Hw' as <-.
  unfold Load.same_stop_time in *. cbn. tauto.
Qed.

Lemma loader_counts_chosen_unbumped_witness :
  1 <= 1 /\ Sim.in_sequence_order (Examples.two_stop_trip 3) = true /\
  exists veh_loaded_df,
    Sim.put_passengers_on_vehicles 1 0 Examples.four_riders (Examples.two_stop_trip 3)
    = Py.Ok veh_loaded_df /\
    List.length veh_loaded_df = List.length (Examples.two_stop_trip 3) /\
    forall i v r,
      nth_error (Examples.two_stop_trip 3) i = Some v ->
      nth_error veh_loaded_df i = Some r ->
      Load.same_stop_time v r /\
      Sim.veh_boards r =
      Sim.count_rows (fun l => Load.is_loaded l && Sim.boards_here v l)
                     Examples.four_riders /\
      Sim.veh_alights r =
      Sim.count_rows (fun l => Load.is_loaded l && Sim.alights_here v l)
                     Examples.four_riders.
Proof.
  split; [lia|]. split; [reflexivity|].
  apply (loader_counts_chosen_unbumped 1 0 Examples.four_riders (Examples.two_stop_trip 3));
    [lia | reflexivity].
Defined.

Section DoubledIndex.
Import Sim.

Lemma merge_left_length_ge {L R : Type} (on : L -> R -> bool) (l : list L) (r : list R) :
  (List.length l <= List.length (Frame.merge_left on l r))%nat.
Proof.
  induction l as [|x l IH]; [simpl; lia|].
  rewrite merge_left_cons, length_app. simpl.
  destruct (filter (on x) r); simpl; lia.
Qed.

Lemma merge_left_length_gt {L R : Type} (on : L -> R -> bool) (l : list L) (r : list R)
  (i : nat) (x : L) :
  nth_error l i = Some x -> (2 <= List.length (filter (on x) r))%nat ->
  (List.length l < List.length (Frame.merge_left on l r))%nat.
Proof.
  revert i. induction l as [|y l IH]; intros i Hi H2; [destruct i; discriminate|].
  rewrite merge_left_cons, length_app.
  destruct i as [|i]; simpl in Hi.
  - injection Hi as ->. pose proof (merge_left_length_ge on l r).
    destruct (filter (on x) r) as [|a [|b ms]]; simpl in *; lia.
  - specialize (IH i Hi H2). simpl.
    destruct (filter (on y) r); simpl; lia.
Qed.

Lemma filter_two {A : Type} (p : A -> bool) (l : list A) (i j : nat) (a b : A) :
  (i < j)%nat -> nth_error l i = Some a -> nth_error l j = Some b ->
  p a = true -> p b = true -> (2 <= List.length (filter p l))%nat.
Proof.
  revert i j. induction l as [|x l IH]; intros i j Hlt Hi Hj Ha Hb;
    [destruct i; discriminate|].
  destruct j as [|j]; [lia|]. simpl in Hj.
  destruct i as [|i]; simpl in Hi.
  - injection Hi as ->. simpl. rewrite Ha. simpl.
    assert (In b (filter p l)) by (apply filter_In; split; [eapply nth_error_In|]; eauto).
    destruct (filter p l); [contradiction|simpl; lia].
  - assert (2 <= List.length (filter p l))%nat by (apply (IH i j); auto; lia).
    simpl. destruct (p x); simpl; lia.
Qed.

Lemma trips_cumsum_at (l : list VehRow) (i : nat) (v : VehRow) :
  nth_error l i = Some v ->
  exists c, nth_error (trips_cumsum l) i = Some c /\ fst c = veh_index v.
Proof.
  intros Hv.
  destruct (nth_error (trips_cumsum l) i) as [c|] eqn:Hc.
  - destruct (trips_cumsum_index l i c Hc) as (b & Hb & Hf).
    exists c. split; [reflexivity|]. congruence.
  - apply nth_error_None in Hc. rewrite trips_cumsum_length in Hc.
    assert (nth_error l i <> None) by congruence.
    apply nth_error_Some in H. lia.
Qed.

Lemma join_onboard_doubled (l : list VehRow) (i j : nat) (a b : VehRow) :
  (i < j)%nat -> nth_error l i = Some a -> nth_error l j = Some b ->
  veh_index a = veh_index b ->
  (List.length l < List.length (join_onboard l))%nat.
Proof.
  intros Hlt Ha Hb Hidx. unfold join_onboard. rewrite length_map.
  apply (merge_left_length_gt _ _ _ i a Ha).
  destruct (trips_cumsum_at l i a Ha) as (ca & Hca & Hfa).
  destruct (trips_cumsum_at l j b Hb) as (cb & Hcb & Hfb).
  apply (filter_two _ _ i j ca cb Hlt Hca Hcb); apply same_index_eq; congruence.
Qed.

End DoubledIndex.

(** X2: when the vehicle table holds two rows with the same trip and stop
    sequence, joining the cumulative sums back on that index multiplies rows
    and the loader stops on its own assertion on the row count. *)
Theorem loader_rejects_doubled_stop (iteration bump_iter_now : Z)
  (pathset_links_df : list Sim.PaxLink) (veh_trips_df : list Sim.VehRow)
  (i j : nat) (a b : Sim.VehRow) :
  1 <= iteration ->
  i <> j ->
  nth_error veh_trips_df i = Some a -> nth_error veh_trips_df j = Some b ->
  Sim.veh_index a = Sim.veh_index b ->
  Sim.put_passengers_on_vehicles iteration bump_iter_now pathset_links_df veh_trips_df
  = Py.Raise Py.AssertionError.
Proof.
  intros Hit Hij Ha Hb Hidx.
  assert (Hlen : (List.length veh_trips_df <
                  List.length (Sim.join_onboard
                                 (Sim.loaded_before_onboard iteration bump_iter_now
                                    pathset_links_df veh_trips_df)))%nat).
  { rewrite <- (loaded_before_onboard_length iteration bump_iter_now pathset_links_df
                  veh_trips_df) at 1.
    destruct (loaded_before_onboard_nth iteration bump_iter_now pathset_links_df
                veh_trips_df i a Ha) as (wa & Hwa & (Hta & Hsa & _) & _).
    destruct (loaded_before_onboard_nth iteration bump_iter_now pathset_links_df
                veh_trips_df j b Hb) as (wb & Hwb & (Htb & Hsb & _) & _).
    assert (Hw : Sim.veh_index wa = Sim.veh_index wb).
    { unfold Sim.veh_index in *. injection Hidx as H1 H2. congruence. }
    destruct (Nat.lt_trichotomy i j) as [Hlt|[Heq|Hgt]]; [|contradiction|].
    - now apply (join_onboard_doubled _ i j wa wb).
    - now apply (join_onboard_doubled _ j i wb wa). }
  unfold Sim.put_passengers_on_vehicles, Sim.loaded_before_onboard in *.
  destruct (bump_iter_now =? 0).
  - rewrite truediv_ok by lia. cbn [Py.bind].
    apply Nat.lt_neq, not_eq_sym, Nat.eqb_neq in Hlen. now rewrite Hlen.
  - cbn [Py.bind].
    apply Nat.lt_neq, not_eq_sym, Nat.eqb_neq in Hlen. now rewrite Hlen.
Qed.

Lemma loader_rejects_doubled_stop_witness :
  Sim.put_passengers_on_vehicles 1 0 Examples.four_riders MoreExamples.doubled_stop
  = Py.Raise Py.AssertionError.
Proof.
  apply (loader_rejects_doubled_stop 1 0 Examples.four_riders MoreExamples.doubled_stop
           0 1 (Sim.mkVeh 1 1 10 28800 3 0 0 0 0 0 0 0 0)
           (Sim.mkVeh 1 1 10 28800 3 0 0 0 0 0 0 0 0));
    [lia | lia | reflexivity | reflexivity | reflexivity].
Defined.

Section LoaderInvariants.
Import Sim Load.

Lemma join_onboard_related_msa (l : list VehRow) :
  in_sequence_order l = true ->
  Forall2 (fun v r => veh_trip_id_num r = veh_trip_id_num v /\
                      veh_stop_sequence r = veh_stop_sequence v /\
                      net_msa_boards r = net_msa_boards v) l (join_onboard l).
Proof.
  intros Hord. apply Forall2_of_nth_error; [now rewrite join_onboard_length|].
  intros i v r Hv Hr. rewrite (join_onboard_nth l i v Hord Hv) in Hr.
  injection Hr as <-. repeat split.
Qed.

Lemma join_onboard_consistent (l : list VehRow) :
  in_sequence_order l = true -> msa_onboard_consistent (join_onboard l) = true.
Proof.
  intros Hord. unfold msa_onboard_consistent. apply forallb_forall. intros r Hr.
  apply In_nth_error in Hr as [i Hi].
  apply join_onboard_nth_inv in Hi as (w & Hw & ->); [|assumption].
  cbn [veh_msa_onboard veh_trip_id_num veh_stop_sequence set_onboard].
  apply Qeq_bool_iff. rewrite fold_left_Qplus, Qplus_0_l.
  rewrite (upto_related net_msa_boards _ _ l (join_onboard l)); [reflexivity|].
  now apply join_onboard_related_msa.
Qed.

(** at most one row of a table in sequence order sits at a given trip and
    sequence *)
Lemma in_sequence_order_one (veh : list VehRow) (p : VehRow -> bool) (t k : Z) :
  in_sequence_order veh = true ->
  (forall u, p u = true -> veh_trip_id_num u = t /\ veh_stop_sequence u = k) ->
  (List.length (filter p veh) <= 1)%nat.
Proof.
  intros Hord Hp. induction veh as [|v veh IH]; [simpl; lia|].
  simpl in Hord. apply andb_true_iff in Hord as [Hhd Htl].
  simpl. destruct (p v) eqn:Hv; [|now apply IH].
  rewrite filter_none; [simpl; lia|].
  intros u Hu. apply not_true_iff_false. intros Hpu.
  rewrite forallb_forall in Hhd. specialize (Hhd u Hu).
  destruct (Hp v Hv) as [Htv Hsv]. destruct (Hp u Hpu) as [Ht Hs].
  apply orb_true_iff in Hhd as [Hne|Hlt].
  - apply negb_true_iff, Z.eqb_neq in Hne. congruence.
  - apply Z.ltb_lt in Hlt. lia.
Qed.

Lemma in_sequence_order_related (l l' : list VehRow) :
  Forall2 (fun v r => veh_trip_id_num r = veh_trip_id_num v /\
                      veh_stop_sequence r = veh_stop_sequence v) l l' ->
  in_sequence_order l' = in_sequence_order l.
Proof.
  induction 1 as [|v r l l' [Ht Hs] Hrest IH]; [reflexivity|].
  simpl. rewrite IH, Ht, Hs. f_equal.
  clear IH. induction Hrest as [|u w l l' [Ht' Hs'] _ IHr]; [reflexivity|].
  simpl. now rewrite IHr, Ht', Hs'.
Qed.

Lemma sum_Z_map_add {A : Type} (f g : A -> Z) (l : list A) :
  sum_Z (map (fun a => f a + g a) l) = sum_Z (map f l) + sum_Z (map g l).
Proof. induction l as [|a l IH]; simpl; [reflexivity|]. rewrite IH. lia. Qed.

Lemma sum_Z_indicator {A : Type} (p : A -> bool) (l : list A) :
  sum_Z (map (fun a => if p a then 1 else 0) l) = Z.of_nat (List.length (filter p l)).
Proof.
  induction l as [|a l IH]; [reflexivity|].
  cbn [map sum_Z fold_right filter]. fold (sum_Z (map (fun a => if p a then 1 else 0) l)).
  rewrite IH. destruct (p a); simpl List.length; lia.
Qed.

Lemma sum_Z_map_sub {A : Type} (f g : A -> Z) (l : list A) :
  sum_Z (map (fun a => f a - g a) l) = sum_Z (map f l) - sum_Z (map g l).
Proof. induction l as [|a l IH]; simpl; [reflexivity|]. rewrite IH. lia. Qed.

Lemma sum_Z_zero {A : Type} (l : list A) : sum_Z (map (fun _ => 0) l) = 0.
Proof. induction l as [|a l IH]; simpl; [reflexivity|]. now rewrite IH. Qed.

(** the net boardings of a set of rows, passenger by passenger *)
Lemma net_boards_by_passenger (rows : list VehRow) (pax : list PaxLink) :
  sum_Z (map (fun u => count_rows (boards_here u) pax - count_rows (alights_here u) pax)
             rows) =
  sum_Z (map (fun l => count_rows (fun u => boards_here u l) rows
                       - count_rows (fun u => alights_here u l) rows) pax).
Proof.
  induction pax as [|l pax IH].
  - simpl. apply sum_Z_zero.
  - cbn [map sum_Z fold_right].
    fold (sum_Z (map (fun l => count_rows (fun u => boards_here u l) rows
                               - count_rows (fun u => alights_here u l) rows) pax)).
    rewrite <- IH.
    unfold count_rows at 3 4. rewrite <- !sum_Z_indicator.
    rewrite <- sum_Z_map_sub, <- sum_Z_map_add. f_equal. apply map_ext. intros u.
    unfold count_rows. cbn [filter].
    destruct (boards_here u l), (alights_here u l); cbn [List.length]; lia.
Qed.

End LoaderInvariants.

(** X3: whatever the bump iteration, the loader leaves the smoothed onboard
    of every row equal to the sum of smoothed boards - smoothed alights over
    the rows of the trip up to that row; and in a bump pass after the first
    (bump_iter not 0) it leaves smoothed boards and alights as they were. *)
Theorem loader_keeps_msa_onboard_consistent (iteration bump_iter_now : Z)
  (pathset_links_df : list Sim.PaxLink) (veh_trips_df : list Sim.VehRow) :
  1 <= iteration ->
  Sim.in_sequence_order veh_trips_df = true ->
  exists veh_loaded_df,
    Sim.put_passengers_on_vehicles iteration bump_iter_now pathset_links_df veh_trips_df
    = Py.Ok veh_loaded_df /\
    Sim.in_sequence_order veh_loaded_df = true /\
    Sim.msa_onboard_consistent veh_loaded_df = true /\
    (bump_iter_now <> 0 ->
     forall i v r,
       nth_error veh_trips_df i = Some v -> nth_error veh_loaded_df i = Some r ->
       Sim.veh_msa_boards r = Sim.veh_msa_boards v /\
       Sim.veh_msa_alights r = Sim.veh_msa_alights v).
Proof.
  intros Hit Hord.
  set (l := Sim.loaded_before_onboard iteration bump_iter_now pathset_links_df veh_trips_df).
  assert (Hord' : Sim.in_sequence_order l = true)
    by (unfold l; now rewrite loaded_before_onboard_order).
  eexists. split; [apply put_passengers_on_vehicles_ok; assumption|]. fold l.
  split; [|split].
  - rewrite <- Hord'. apply in_sequence_order_related.
    eapply Forall2_impl; [|apply (join_onboard_related l Hord')].
    cbv beta. tauto.
  - now apply join_onboard_consistent.
  - intros Hb i v r Hv Hr.
    destruct (loaded_before_onboard_nth iteration bump_iter_now pathset_links_df
                veh_trips_df i v Hv) as (w & Hw & _ & _ & _ & _ & _ & Hmsa).
    apply join_onboard_nth_inv in Hr as (w' & Hw' & ->); [|assumption].
    fold l in Hw. rewrite Hw in Hw'. injection Hw' as <-.
    cbn. now apply Hmsa.
Qed.

Section OnboardSign.
Import Sim Load.


Lemma sum_Z_nonneg {A : Type} (f : A -> Z) (l : list A) :
  (forall a, In a l -> 0 <= f a) -> 0 <= sum_Z (map f l).
Proof.
  induction l as [|a l IH]; intros H; simpl; [lia|].
  assert (0 <= f a) by (apply H; now left).
  assert (0 <= sum_Z (map f l)) by (apply IH; intros b Hb; apply H; now right).
  unfold sum_Z in *. lia.
Qed.

Lemma boards_here_trip (u : VehRow) (l : PaxLink) :
  boards_here u l = true ->
  trip_id_num l = Some (veh_trip_id_num u) /\ A_seq l = veh_stop_sequence u.
Proof.
  unfold boards_here. destruct (trip_id_num l) as [t|]; [|discriminate].
  rewrite !andb_true_iff, !Z.eqb_eq. intros [[-> _] ->]. auto.
Qed.

Lemma alights_here_trip (u : VehRow) (l : PaxLink) :
  alights_here u l = true ->
  trip_id_num l = Some (veh_trip_id_num u) /\ B_seq l = veh_stop_sequence u.
Proof.
  unfold alights_here. destruct (trip_id_num l) as [t|]; [|discriminate].
  rewrite !andb_true_iff, !Z.eqb_eq. intros [[-> _] ->]. auto.
Qed.

(** a counted link takes no more seats off the rows up to a stop than it put
    on them *)
Lemma net_boards_of_one (veh : list VehRow) (links : list PaxLink) (l : PaxLink)
  (t k : Z) :
  in_sequence_order veh = true ->
  boards_before_alighting links veh = true ->
  In l links -> is_loaded l = true ->
  0 <= count_rows (fun u => boards_here u l) (upto t k veh)
       - count_rows (fun u => alights_here u l) (upto t k veh).
Proof.
  intros Hord Hsane Hl Hloaded. unfold count_rows, upto. rewrite !filter_filter.
  set (inU := fun u => (veh_trip_id_num u =? t) && (veh_stop_sequence u <=? k)).
  change (0 <= Z.of_nat (List.length (filter (fun u => inU u && boards_here u l) veh))
               - Z.of_nat (List.length (filter (fun u => inU u && alights_here u l) veh))).
  destruct (filter (fun u => inU u && alights_here u l) veh) as [|uB rest] eqn:HB.
  - cbn [List.length]. lia.
  - assert (HuB : In uB (filter (fun u => inU u && alights_here u l) veh))
      by (rewrite HB; now left).
    apply filter_In in HuB as [HuBin HuB]. apply andb_true_iff in HuB as [HinU Hal].
    assert (Hone : (List.length (filter (fun u => inU u && alights_here u l) veh) <= 1)%nat).
    { apply (in_sequence_order_one veh _ (veh_trip_id_num uB) (veh_stop_sequence uB) Hord).
      intros u Hu. apply andb_true_iff in Hu as [_ Hu].
      apply alights_here_trip in Hu as [Ht Hs]. apply alights_here_trip in Hal as [Ht' Hs'].
      split; congruence. }
    rewrite HB in Hone.
    unfold boards_before_alighting in Hsane. rewrite forallb_forall in Hsane.
    specialize (Hsane l Hl). rewrite Hloaded in Hsane. simpl in Hsane.
    rewrite forallb_forall in Hsane. specialize (Hsane uB HuBin).
    rewrite Hal in Hsane. simpl in Hsane.
    apply existsb_exists in Hsane as (uA & HuAin & HuA).
    apply andb_true_iff in HuA as [Hbo Hlt]. apply Z.ltb_lt in Hlt.
    assert (HA : In uA (filter (fun u => inU u && boards_here u l) veh)).
    { apply filter_In. split; [assumption|]. rewrite Hbo, andb_true_r.
      unfold inU in *. apply andb_true_iff in HinU as [HtB HsB].
      apply Z.eqb_eq in HtB. apply Z.leb_le in HsB.
      apply boards_here_trip in Hbo as [HtA _]. apply alights_here_trip in Hal as [HtB' _].
      apply andb_true_iff. split; [apply Z.eqb_eq; congruence | apply Z.leb_le; lia]. }
    destruct (filter (fun u => inU u && boards_here u l) veh); [contradiction|].
    cbn [List.length] in *. lia.
Qed.

End OnboardSign.

(** X4: when every counted (chosen, unbumped) link that alights on a row of
    the table boards on an earlier row of it, nobody is on board a negative
    number of times: the loader returns and every onboard count is at least
    0. *)
Theorem onboard_never_negative (iteration bump_iter_now : Z)
  (pathset_links_df : list Sim.PaxLink) (veh_trips_df : list Sim.VehRow) :
  1 <= iteration ->
  Sim.in_sequence_order veh_trips_df = true ->
  Load.boards_before_alighting pathset_links_df veh_trips_df = true ->
  exists veh_loaded_df,
    Sim.put_passengers_on_vehicles iteration bump_iter_now pathset_links_df veh_trips_df
    = Py.Ok veh_loaded_df /\
    forall r, In r veh_loaded_df -> 0 <= Sim.veh_onboard r.
Proof.
  intros Hit Hord Hsane.
  set (l := Sim.loaded_before_onboard iteration bump_iter_now pathset_links_df veh_trips_df).
  assert (Hord' : Sim.in_sequence_order l = true)
    by (unfold l; now rewrite loaded_before_onboard_order).
  eexists. split; [apply put_passengers_on_vehicles_ok; assumption|]. fold l.
  intros r Hr. apply In_nth_error in Hr as [i Hi].
  apply join_onboard_nth_inv in Hi as (w & Hw & ->); [|assumption].
  cbn [Sim.veh_onboard Sim.set_onboard]. rewrite fold_left_Zadd, Z.add_0_l.
  set (pax := filter Load.is_loaded pathset_links_df).
  rewrite (upto_related2 Sim.net_boards
             (fun v => Sim.count_rows (Sim.boards_here v) pax
                       - Sim.count_rows (Sim.alights_here v) pax)
             _ _ veh_trips_df l).
  - rewrite net_boards_by_passenger. apply sum_Z_nonneg. intros p Hp.
    unfold pax in Hp. apply filter_In in Hp as [Hp Hloaded].
    now apply (net_boards_of_one veh_trips_df pathset_links_df).
  - apply Forall2_of_nth_error; [unfold l; now rewrite loaded_before_onboard_length|].
    intros j v w' Hv Hw'.
    destruct (loaded_before_onboard_nth iteration bump_iter_now pathset_links_df
                veh_trips_df j v Hv) as (w'' & Hw'' & (Ht & Hs & _) & _ & _ & Hb & Ha & _).
    fold l in Hw''. rewrite Hw' in Hw''. injection Hw'' as <-.
    split; [assumption|]. split; [assumption|].
    unfold Sim.net_boards. rewrite Hb, Ha. unfold pax, Sim.count_rows.
    now rewrite !filter_filter.
Qed.

Lemma onboard_never_negative_witness :
  1 <= 1 /\
  Sim.in_sequence_order (Examples.two_stop_trip 3) = true /\
  Load.boards_before_alighting Examples.four_riders (Examples.two_stop_trip 3) = true /\
  exists veh_loaded_df,
    Sim.put_passengers_on_vehicles 1 0 Examples.four_riders (Examples.two_stop_trip 3)
    = Py.Ok veh_loaded_df /\
    forall r, In r veh_loaded_df -> 0 <= Sim.veh_onboard r.
Proof.
  split; [lia|]. split; [reflexivity|]. split; [reflexivity|].
  apply (onboard_never_negative 1 0 Examples.four_riders (Examples.two_stop_trip 3));
    [lia | reflexivity | reflexivity].
Defined.

Lemma loader_keeps_msa_onboard_consistent_witness :
  1 <= 2 /\
  Sim.in_sequence_order Examples.after_iteration_1 = true /\
  exists veh_loaded_df,
    Sim.put_passengers_on_vehicles 2 1 Examples.two_riders Examples.after_iteration_1
    = Py.Ok veh_loaded_df /\
    Sim.in_sequence_order veh_loaded_df = true /\
    Sim.msa_onboard_consistent veh_loaded_df = true /\
    (1 <> 0 ->
     forall i v r,
       nth_error Examples.after_iteration_1 i = Some v ->
       nth_error veh_loaded_df i = Some r ->
       Sim.veh_msa_boards r = Sim.veh_msa_boards v /\
       Sim.veh_msa_alights r = Sim.veh_msa_alights v).
Proof.
  split; [lia|]. split; [reflexivity|].
  apply (loader_keeps_msa_onboard_consistent 2 1 Examples.two_riders
                                             Examples.after_iteration_1);
    [lia | reflexivity].
Defined.

(** ** Capacity enforcement *)

Section DedupFacts.
Context {A K : Type}.
Variable key : A -> K.
Variable same : A -> A -> bool.
Hypothesis same_key : forall a b, same a b = true <-> key a = key b.

Lemma drop_duplicates_from_In (seen l : list A) (x : A) :
  In x (Frame.drop_duplicates_from same seen l) ->
  In x l /\ existsb (same x) seen = false.
Proof.
  revert seen. induction l as [|y l IH]; intros seen H; [destruct H|].
  simpl in H. destruct (existsb (same y) seen) eqn:E.
  - destruct (IH _ H). split; [now right|assumption].
  - destruct H as [<-|H]; [split; [now left|assumption]|].
    destruct (IH _ H) as [Hin Hex]. split; [now right|].
    simpl in Hex. now apply orb_false_iff in Hex as [_ Hex].
Qed.

Lemma drop_duplicates_from_NoDup (seen l : list A) :
  NoDup (map key (Frame.drop_duplicates_from same seen l)).
Proof.
  revert seen. induction l as [|y l IH]; intros seen; simpl; [constructor|].
  destruct (existsb (same y) seen); [apply IH|].
  simpl. constructor; [|apply IH].
  intros Hin. apply in_map_iff in Hin as (x & Hk & Hx).
  apply drop_duplicates_from_In in Hx as [_ Hex].
  simpl in Hex. apply orb_false_iff in Hex as [Hxy _].
  assert (same x y = true) by now apply same_key. congruence.
Qed.

(** a kept row is the first of the list with its key *)
Lemma drop_duplicates_from_first (seen l : list A) (x : A) :
  In x (Frame.drop_duplicates_from same seen l) ->
  exists pre post, l = pre ++ x :: post /\ forall y, In y pre -> key y <> key x.
Proof.
  revert seen. induction l as [|y l IH]; intros seen H; [destruct H|].
  simpl in H. destruct (existsb (same y) seen) eqn:E.
  - pose proof (drop_duplicates_from_In _ _ _ H) as [_ Hex].
    destruct (IH _ H) as (pre & post & -> & Hpre).
    exists (y :: pre), post. split; [reflexivity|].
    intros z [<-|Hz]; [|now apply Hpre].
    intros Hk. apply existsb_exists in E as (s & Hs & Hys).
    apply same_key in Hys.
    assert (Hxs : same x s = true) by (apply same_key; congruence).
    assert (existsb (same x) seen = true) by (apply existsb_exists; eauto).
    congruence.
  - destruct H as [<-|H].
    + exists [], l. split; [reflexivity|]. intros z [].
    + pose proof (drop_duplicates_from_In _ _ _ H) as [_ Hex].
      destruct (IH _ H) as (pre & post & -> & Hpre).
      exists (y :: pre), post. split; [reflexivity|].
      intros z [<-|Hz]; [|now apply Hpre].
      intros Hk. simpl in Hex. apply orb_false_iff in Hex as [Hxy _].
      assert (same x y = true) by (apply same_key; congruence). congruence.
Qed.

(** looking a key up after dropping duplicates finds what the list held
    first, unless the key was seen before *)
Lemma find_drop_duplicates_from (k : K) (keyb : K -> K -> bool) (seen l : list A) :
  (forall a b, keyb a b = true <-> a = b) ->
  find (fun r => keyb (key r) k) (Frame.drop_duplicates_from same seen l) =
  if existsb (fun s => keyb (key s) k) seen then None
  else find (fun r => keyb (key r) k) l.
Proof.
  intros Hkeyb. revert seen. induction l as [|y l IH]; intros seen.
  - simpl. now destruct (existsb _ seen).
  - simpl. destruct (existsb (same y) seen) eqn:E.
    + rewrite IH. destruct (existsb (fun s => keyb (key s) k) seen) eqn:Es; [reflexivity|].
      destruct (keyb (key y) k) eqn:Ey; [|reflexivity].
      apply Hkeyb in Ey. apply existsb_exists in E as (s & Hs & Hys).
      apply same_key in Hys.
      assert (existsb (fun s => keyb (key s) k) seen = true).
      { apply existsb_exists. exists s. split; [assumption|]. apply Hkeyb. congruence. }
      congruence.
    + simpl. destruct (keyb (key y) k) eqn:Ey.
      * destruct (existsb (fun s => keyb (key s) k) seen) eqn:Es; [|reflexivity].
        apply Hkeyb in Ey. apply existsb_exists in Es as (s & Hs & Hsk).
        apply Hkeyb in Hsk.
        assert (existsb (same y) seen = true).
        { apply existsb_exists. exists s. split; [assumption|]. apply same_key. congruence. }
        congruence.
      * rewrite IH. simpl. now rewrite Ey.
Qed.

Lemma drop_duplicates_from_length (seen l : list A) :
  (List.length (Frame.drop_duplicates_from same seen l) <= List.length l)%nat.
Proof.
  revert seen. induction l as [|y l IH]; intros seen; simpl; [lia|].
  destruct (existsb (same y) seen); simpl; [specialize (IH seen)|specialize (IH (y :: seen))];
    lia.
Qed.

Lemma drop_duplicates_nil (l : list A) :
  Frame.drop_duplicates same l = [] <-> l = [].
Proof.
  unfold Frame.drop_duplicates. destruct l as [|y l]; simpl; [tauto|].
  split; discriminate.
Qed.
End DedupFacts.

Lemma find_app_first {A : Type} (p : A -> bool) (l1 l2 : list A) :
  find p (l1 ++ l2) = match find p l1 with Some r => Some r | None => find p l2 end.
Proof.
  induction l1 as [|x l1 IH]; [reflexivity|]. simpl. now destruct (p x).
Qed.

Lemma filter_split {A : Type} (p : A -> bool) (l pre' post' : list A) (x : A) :
  filter p l = pre' ++ x :: post' ->
  exists pre post, l = pre ++ x :: post /\ filter p pre = pre' /\ p x = true.
Proof.
  revert pre'. induction l as [|y l IH]; intros pre' H.
  - destruct pre'; discriminate.
  - simpl in H. destruct (p y) eqn:Hy.
    + destruct pre' as [|z pre']; simpl in H.
      * injection H as -> H. exists [], l. simpl. auto.
      * injection H as -> H. destruct (IH _ H) as (pre & post & -> & Hf & Hx).
        exists (z :: pre), post. simpl. rewrite Hy, Hf. auto.
    + destruct (IH _ H) as (pre & post & -> & Hf & Hx).
      exists (y :: pre), post. simpl. rewrite Hy. auto.
Qed.


Section RegistryMore.
Import Sim Bump Enforce.

Lemma same_bump_wait_key (a b : BumpWaitRow) :
  (bw_trip_id_num a =? bw_trip_id_num b) && (bw_stop_sequence a =? bw_stop_sequence b) = true
  <-> bump_wait_key a = bump_wait_key b.
Proof.
  unfold bump_wait_key. rewrite andb_true_iff, !Z.eqb_eq.
  split; [intros [-> ->]; reflexivity | intros [= -> ->]; auto].
Qed.

End RegistryMore.

(** X5: merging a pass into the bump-wait registry is insert-if-absent on
    (trip, sequence): a key the registry holds keeps its row, a new key gets
    the first row the pass has for it, and no two rows of the merged registry
    share (trip, sequence); an empty (None) registry becomes the rows of the
    pass. *)
Theorem registry_merge_is_insert_if_absent (old new_rows : list Sim.BumpWaitRow) :
  Bump.update_bump_wait None new_rows = new_rows /\
  NoDup (map Enforce.bump_wait_key (Bump.update_bump_wait (Some old) new_rows)) /\
  forall trip seq_,
    Enforce.held (Bump.update_bump_wait (Some old) new_rows) trip seq_ =
    match Enforce.held old trip seq_ with
    | Some r => Some r
    | None => Enforce.held new_rows trip seq_
    end.
Proof.
  split; [reflexivity|]. split.
  - unfold Bump.update_bump_wait, Frame.drop_duplicates.
    apply drop_duplicates_from_NoDup. intros a b. apply same_bump_wait_key.
  - intros trip seq_. unfold Enforce.held, Bump.update_bump_wait, Frame.drop_duplicates.
    rewrite <- find_app_first.
    apply (find_drop_duplicates_from Enforce.bump_wait_key _
             (fun a b => same_bump_wait_key a b) (trip, seq_)
             (fun a b => (fst a =? fst b) && (snd a =? snd b)) [] (old ++ new_rows)).
    intros [a1 a2] [b1 b2]. simpl. rewrite andb_true_iff, !Z.eqb_eq.
    split; [intros [-> ->]; reflexivity | intros [= -> ->]; auto].
Qed.

Section BumpStops.
Import Sim Bump.

Lemma drop_duplicates_from_complete {A : Type} (same : A -> A -> bool)
  (seen l : list A) (x : A) :
  (forall a, same a a = true) ->
  In x l ->
  existsb (same x) seen = true \/
  exists y, In y (Frame.drop_duplicates_from same seen l) /\ same x y = true.
Proof.
  intros Hrefl. revert seen. induction l as [|y l IH]; intros seen Hx; [destruct Hx|].
  simpl. destruct Hx as [->|Hx].
  - destruct (existsb (same x) seen) eqn:E; [now left|].
    right. exists x. split; [now left|apply Hrefl].
  - destruct (existsb (same y) seen) eqn:E.
    + apply IH, Hx.
    + destruct (IH (y :: seen) Hx) as [H|(z & Hz & Hxz)].
      * simpl in H. apply orb_true_iff in H as [H|H]; [|now left].
        right. exists y. split; [now left|assumption].
      * right. exists z. split; [now right|assumption].
Qed.

Lemma trip_same_key (a b : VehRow) :
  (veh_trip_id_num a =? veh_trip_id_num b) = true <->
  veh_trip_id_num a = veh_trip_id_num b.
Proof. apply Z.eqb_eq. Qed.

Lemma first_overcap_stops_In (veh : list VehRow) (b : VehRow) :
  In b (first_overcap_stops (filter (fun v => 0 <? veh_overcap v) veh)) ->
  0 < veh_overcap b /\
  exists pre post, veh = pre ++ b :: post /\
    forall u, In u pre -> veh_trip_id_num u = veh_trip_id_num b -> veh_overcap u <= 0.
Proof.
  unfold first_overcap_stops, Group.first_of_groups, Frame.drop_duplicates. intros Hb.
  destruct (drop_duplicates_from_first veh_trip_id_num _ trip_same_key [] _ b Hb)
    as (pre' & post' & Hsplit & Hpre').
  destruct (filter_split _ _ _ _ _ Hsplit) as (pre & post & -> & Hf & Hov).
  apply Z.ltb_lt in Hov. split; [assumption|].
  exists pre, post. split; [reflexivity|].
  intros u Hu Ht.
  destruct (Z.ltb_spec 0 (veh_overcap u)) as [Hpos|]; [|assumption].
  exfalso. apply (Hpre' u); [|assumption].
  rewrite <- Hf. apply filter_In. split; [assumption|]. now apply Z.ltb_lt.
Qed.

Lemma arrival_leb_total (a b : VehRow) :
  (veh_arrival_time a <=? veh_arrival_time b) = true \/
  (veh_arrival_time b <=? veh_arrival_time a) = true.
Proof. rewrite !Z.leb_le. lia. Qed.

Lemma arrival_leb_trans (a b c : VehRow) :
  (veh_arrival_time a <=? veh_arrival_time b) = true ->
  (veh_arrival_time b <=? veh_arrival_time c) = true ->
  (veh_arrival_time a <=? veh_arrival_time c) = true.
Proof. rewrite !Z.leb_le. lia. Qed.

End BumpStops.

(** X6: the bump stops of a pass.  Every selected stop is a row over capacity
    and the first such row of its trip in the table; no two selected stops
    are of the same trip.  With bump_one_at_a_time (and capacity_constraint)
    at most one stop is selected, and no first over-capacity stop of any trip
    is reached earlier; without it every trip that is over capacity
    somewhere has its stop selected. *)
Theorem bump_stops_are_first_over_capacity (s : Bump.Settings)
  (veh_loaded_df : list Sim.VehRow) :
  let stops := Bump.bump_stops_of s veh_loaded_df in
  NoDup (map Sim.veh_trip_id_num stops) /\
  (forall b, In b stops ->
     0 < Sim.veh_overcap b /\
     exists pre post, veh_loaded_df = pre ++ b :: post /\
       forall u, In u pre -> Sim.veh_trip_id_num u = Sim.veh_trip_id_num b ->
                 Sim.veh_overcap u <= 0) /\
  (Bump.CAPACITY_CONSTRAINT s && Bump.BUMP_ONE_AT_A_TIME s = true ->
   (List.length stops <= 1)%nat /\
   forall b c, In b stops ->
     In c (Bump.first_overcap_stops
             (filter (fun v => 0 <? Sim.veh_overcap v) veh_loaded_df)) ->
     Sim.veh_arrival_time b <= Sim.veh_arrival_time c) /\
  (Bump.CAPACITY_CONSTRAINT s && Bump.BUMP_ONE_AT_A_TIME s = false ->
   forall u, In u veh_loaded_df -> 0 < Sim.veh_overcap u ->
     exists b, In b stops /\ Sim.veh_trip_id_num b = Sim.veh_trip_id_num u).
Proof.
  intros stops. unfold stops, Bump.bump_stops_of, Bump.select_bump_stops.
  set (firsts := Bump.first_overcap_stops
                   (filter (fun v => 0 <? Sim.veh_overcap v) veh_loaded_df)).
  set (sorted := Frame.sort_values
                   (fun a b => Sim.veh_arrival_time a <=? Sim.veh_arrival_time b) firsts).
  assert (Hsorted : StronglySorted
                      (fun a b => (Sim.veh_arrival_time a <=? Sim.veh_arrival_time b) = true)
                      sorted)
    by (apply sort_values_sorted; [apply arrival_leb_total | apply arrival_leb_trans]).
  assert (Hperm : Permutation firsts sorted) by apply sort_values_perm.
  assert (Hnodup : NoDup (map Sim.veh_trip_id_num firsts)).
  { unfold firsts, Bump.first_overcap_stops, Group.first_of_groups, Frame.drop_duplicates.
    apply drop_duplicates_from_NoDup. intros a b. apply trip_same_key. }
  destruct (Bump.CAPACITY_CONSTRAINT s && Bump.BUMP_ONE_AT_A_TIME s).
  - split; [|split; [|split]].
    + destruct sorted as [|x sorted']; simpl; repeat constructor. intros [].
    + intros b Hb. apply first_overcap_stops_In. fold firsts.
      eapply Permutation_in; [symmetry; exact Hperm|].
      destruct sorted as [|x sorted']; simpl in Hb; [destruct Hb|].
      destruct Hb as [<-|[]]. now left.
    + intros _. split; [apply firstn_le_length|].
      intros b c Hb Hc.
      apply (Permutation_in _ Hperm) in Hc.
      destruct sorted as [|x sorted']; simpl in Hb; [destruct Hb|].
      destruct Hb as [<-|[]].
      destruct Hc as [<-|Hc]; [lia|].
      apply StronglySorted_inv in Hsorted as [_ Hall].
      rewrite Forall_forall in Hall. apply Z.leb_le. now apply Hall.
    + discriminate.
  - split; [assumption|]. split; [|split].
    + intros b Hb. now apply first_overcap_stops_In.
    + discriminate.
    + intros _ u Hu Hov.
      assert (Hin : In u (filter (fun v => 0 <? Sim.veh_overcap v) veh_loaded_df))
        by (apply filter_In; split; [assumption|now apply Z.ltb_lt]).
      destruct (drop_duplicates_from_complete
                  (fun a b => Sim.veh_trip_id_num a =? Sim.veh_trip_id_num b)
                  [] _ u (fun a => Z.eqb_refl _) Hin) as [H|(y & Hy & Hsame)];
        [discriminate|].
      exists y. split; [exact Hy|]. apply Z.eqb_eq in Hsame. auto.
Qed.

Section VehicleJoin.
Import Sim Bump.

Lemma boards_here_at_most_one (veh : list VehRow) (l : PaxLink) :
  in_sequence_order veh = true ->
  (List.length (filter (fun v => boards_here v l) veh) <= 1)%nat.
Proof.
  intros Hord. destruct (trip_id_num l) as [t|] eqn:Ht.
  - apply (in_sequence_order_one veh _ t (A_seq l) Hord).
    intros u Hu. apply boards_here_trip in Hu as [H1 H2]. split; congruence.
  - rewrite filter_none; [simpl; lia|]. intros u _. unfold boards_here. now rewrite Ht.
Qed.

Lemma alights_here_at_most_one (veh : list VehRow) (l : PaxLink) :
  in_sequence_order veh = true ->
  (List.length (filter (fun v => alights_here v l) veh) <= 1)%nat.
Proof.
  intros Hord. destruct (trip_id_num l) as [t|] eqn:Ht.
  - apply (in_sequence_order_one veh _ t (B_seq l) Hord).
    intros u Hu. apply alights_here_trip in Hu as [H1 H2]. split; congruence.
  - rewrite filter_none; [simpl; lia|]. intros u _. unfold alights_here. now rewrite Ht.
Qed.

End VehicleJoin.

(** X7: on a vehicle table in sequence order the join of
    [find_passenger_vehicle_times] neither drops nor multiplies links: it
    returns the links in order, each with its overcap column replaced by the
    overcap of the vehicle row at the link's trip, boarding stop and boarding
    sequence, or by a missing value when there is no such row (as for a link
    that rides no vehicle). *)
Theorem vehicle_join_is_a_lookup (pathset_links_df : list Sim.PaxLink)
  (veh_trips_df : list Sim.VehRow) :
  Sim.in_sequence_order veh_trips_df = true ->
  Bump.find_passenger_vehicle_times pathset_links_df veh_trips_df =
  map (fun l => Sim.set_overcap l
                  (option_map Sim.veh_overcap
                              (find (fun v => Sim.boards_here v l) veh_trips_df)))
      pathset_links_df.
Proof.
  intros Hord. unfold Bump.find_passenger_vehicle_times.
  rewrite (merge_left_lookup (fun l v => Sim.boards_here v l))
    by (intros l _; now apply boards_here_at_most_one).
  rewrite (merge_left_lookup (fun l v => Sim.alights_here v l))
    by (intros l _; now apply alights_here_at_most_one).
  rewrite !map_map. reflexivity.
Qed.

Lemma vehicle_join_is_a_lookup_witness :
  Sim.in_sequence_order Examples.four_on_three = true /\
  Bump.find_passenger_vehicle_times Examples.four_riders Examples.four_on_three =
  map (fun l => Sim.set_overcap l
                  (option_map Sim.veh_overcap
                              (find (fun v => Sim.boards_here v l) Examples.four_on_three)))
      Examples.four_riders.
Proof.
  split; [reflexivity|].
  apply (vehicle_join_is_a_lookup Examples.four_riders Examples.four_on_three).
  reflexivity.
Defined.

Lemma map_snd_combine {A B : Type} (la : list A) (lb : list B) :
  List.length lb = List.length la -> map (fun x => snd x) (combine la lb) = lb.
Proof.
  revert lb. induction la as [|a la IH]; intros [|b lb] H; simpl in *;
    try discriminate; try reflexivity.
  f_equal. apply IH. congruence.
Qed.

(** X8: which candidates are bumped.  Counted off in bump order, the
    candidates of a (trip, sequence, stop) carry the bump indices 0, 1, 2,
    ...; the ones flagged bumped are those whose index is below onboard -
    capacity of the stop, that is the first min(n, overcap) of the order, and
    all later ones are flagged boarded. *)
Theorem bumped_are_first_in_bump_order (s : Bump.Settings)
  (iteration simulation_iteration bump_iter_now : Z)
  (pathset_links_df : list Sim.PaxLink) (veh_loaded_df : list Sim.VehRow)
  (trip seq_ stop : Z) (v : Sim.VehRow) :
  Sim.veh_at trip seq_ stop veh_loaded_df = [v] ->
  let veh := Bump.compute_overcap iteration simulation_iteration bump_iter_now
                                  veh_loaded_df in
  let at_stop := Bump.boards_at trip seq_ stop
                   (Bump.boards_of_pass s pathset_links_df veh) in
  map Bump.bump_index at_stop = map Z.of_nat (seq 0 (List.length at_stop)) /\
  map Bump.new_bumpstop_boarded at_stop =
  map (fun i => if Z.of_nat i <? Sim.veh_onboard v - Sim.veh_capacity v then 0 else 1)
      (seq 0 (List.length at_stop)).
Proof.
  intros Hv veh at_stop. unfold at_stop, Bump.boards_of_pass. split.
  - rewrite boards_at_indexed. cbv zeta.
    set (members := filter _ (Frame.sort_values Bump.link_leb _)).
    rewrite length_map, length_combine, length_map, length_seq, Nat.min_id, map_map.
    cbn [Bump.bump_index Bump.flag_board].
    apply map_snd_combine. now rewrite length_map, length_seq.
  - destruct (compute_overcap_at iteration simulation_iteration bump_iter_now
                veh_loaded_df trip seq_ stop v Hv) as (v' & Hv' & Hoc).
    rewrite <- Hoc. apply boards_at_flags. intros l Hl Hg.
    apply (find_passenger_vehicle_times_overcap pathset_links_df veh trip seq_ stop v');
      [exact Hv'| |exact Hg].
    now apply (bump_candidates_In s).
Qed.

Lemma bumped_are_first_in_bump_order_witness :
  Sim.veh_at 1 1 10 Examples.four_on_three = [Examples.stop_10_of Examples.four_on_three] /\
  let veh := Bump.compute_overcap 1 0 0 Examples.four_on_three in
  let at_stop := Bump.boards_at 1 1 10
                   (Bump.boards_of_pass Examples.capacity_on Examples.four_riders veh) in
  map Bump.bump_index at_stop = map Z.of_nat (seq 0 (List.length at_stop)) /\
  map Bump.new_bumpstop_boarded at_stop =
  map (fun i => if Z.of_nat i <?
                   Sim.veh_onboard (Examples.stop_10_of Examples.four_on_three)
                   - Sim.veh_capacity (Examples.stop_10_of Examples.four_on_three)
                then 0 else 1)
      (seq 0 (List.length at_stop)).
Proof.
  split; [reflexivity|].
  apply (bumped_are_first_in_bump_order Examples.capacity_on 1 0 0 Examples.four_riders
           Examples.four_on_three 1 1 10 (Examples.stop_10_of Examples.four_on_three)).
  reflexivity.
Defined.

Section PassFacts.
Import Sim Bump Enforce.

Variable s : Settings.
Variable bw : option (list BumpWaitRow).
Variables iteration simulation_iteration bump_iter_now : Z.
Variable links : list PaxLink.
Variable veh : list VehRow.

Let veh' := compute_overcap iteration simulation_iteration bump_iter_now veh.
Let links' := links_of_pass iteration simulation_iteration bump_iter_now links veh.
Let pass := flag_bump_overcap_passengers s bw iteration simulation_iteration
                                         bump_iter_now links veh.

Lemma some_overcap_filter :
  filter (fun v => 0 <? veh_overcap v) veh' = [] <-> some_overcap veh = false.
Proof.
  unfold veh', some_overcap, compute_overcap.
  assert (H : forall (h : VehRow -> VehRow),
             (forall v, veh_overcap (h v) = veh_onboard v - veh_capacity v) ->
             filter (fun v => 0 <? veh_overcap v) (map h veh) = [] <->
             existsb (fun v => veh_capacity v <? veh_onboard v) veh = false).
  { intros h Hh. clear veh' links' pass. induction veh as [|v l IH]; simpl; [tauto|].
    rewrite Hh.
    replace (0 <? veh_onboard v - veh_capacity v) with (veh_capacity v <? veh_onboard v)
      by (destruct (Z.ltb_spec (veh_capacity v) (veh_onboard v)),
                   (Z.ltb_spec 0 (veh_onboard v - veh_capacity v)); try reflexivity; lia).
    destruct (veh_capacity v <? veh_onboard v); simpl; [split; discriminate|exact IH]. }
  destruct ((iteration =? 1) && (simulation_iteration =? 0) && (bump_iter_now =? 0));
    rewrite ?map_map; apply H; reflexivity.
Qed.

Lemma flag_bump_unforced :
  CAPACITY_CONSTRAINT s = false \/ some_overcap veh = false ->
  pass = mkFlagged 0 (if some_overcap veh
                      then find_passenger_vehicle_times links' veh'
                      else links')
                   veh' bw.
Proof.
  intros H. unfold pass, flag_bump_overcap_passengers.
  fold veh'. unfold links', links_of_pass. fold veh'.
  pose proof some_overcap_filter as Hf.
  destruct (filter (fun v => 0 <? veh_overcap v) veh') as [|x rest] eqn:E.
  - rewrite (proj1 Hf eq_refl). reflexivity.
  - destruct (some_overcap veh) eqn:Eo.
    + destruct H as [H|H]; [|discriminate]. now rewrite H.
    + destruct Hf as [_ Hf]. specialize (Hf eq_refl). discriminate.
Qed.

Lemma flag_bump_forced :
  CAPACITY_CONSTRAINT s = true -> some_overcap veh = true ->
  let boards := boards_of_pass s links' veh' in
  pass = mkFlagged (Z.of_nat (List.length (bumped_paths boards)))
                   (record_boarded
                      (kick_out bump_iter_now
                                (map fst (joined_to_bump_stops s links' veh'))
                                (bump_paths_of_pass s iteration simulation_iteration
                                                    bump_iter_now links veh))
                      boards)
                   veh'
                   (Some (update_bump_wait bw (new_bump_wait boards))).
Proof.
  intros Hcc Hsome boards. unfold pass, flag_bump_overcap_passengers.
  fold veh'. unfold bump_paths_of_pass. fold veh'. fold links'.
  change (mark_atcap_boarded links (filter (fun v => veh_overcap v =? 0) veh')) with links'.
  pose proof some_overcap_filter as Hf.
  destruct (filter (fun v => 0 <? veh_overcap v) veh') as [|x rest] eqn:E.
  - destruct Hf as [Hf _]. rewrite (Hf eq_refl) in Hsome. discriminate.
  - rewrite Hcc. cbn [negb]. fold boards.
    destruct (unchosen_atcap (joined_to_bump_stops s links' veh')) eqn:Eu.
    + unfold unchosen_paths, Frame.drop_duplicates. simpl. now rewrite app_nil_r.
    + reflexivity.
Qed.

Lemma set_overcap_same_ride (l : PaxLink) (oc : option Z) :
  same_ride l (set_overcap l oc) /\ bump_iter (set_overcap l oc) = bump_iter l.
Proof. unfold same_ride. cbn. repeat split. Qed.

Lemma set_bumpstop_boarded_same_ride (l : PaxLink) (b : option Z) :
  same_ride l (set_bumpstop_boarded l b) /\
  bump_iter (set_bumpstop_boarded l b) = bump_iter l.
Proof. unfold same_ride. cbn. repeat split. Qed.

Lemma same_ride_refl (l : PaxLink) : same_ride l l.
Proof. unfold same_ride. repeat split. Qed.

Lemma same_ride_trans (a b c : PaxLink) : same_ride a b -> same_ride b c -> same_ride a c.
Proof. unfold same_ride. intuition congruence. Qed.

Lemma mark_atcap_boarded_In (ls : list PaxLink) (atcap : list VehRow) (l' : PaxLink) :
  In l' (mark_atcap_boarded ls atcap) ->
  exists l, In l ls /\ same_ride l l' /\ bump_iter l' = bump_iter l.
Proof.
  unfold mark_atcap_boarded. intros H.
  apply in_map_iff in H as ([l m] & <- & H). apply merge_left_In in H as [H _].
  exists l. split; [assumption|]. cbn [fst snd].
  destruct (is_some m && Qle_bool 0 (chosen l));
    [apply set_bumpstop_boarded_same_ride | split; [apply same_ride_refl|reflexivity]].
Qed.

Lemma find_passenger_vehicle_times_In (ls : list PaxLink) (vs : list VehRow)
  (l' : PaxLink) :
  In l' (find_passenger_vehicle_times ls vs) ->
  exists l, In l ls /\ same_ride l l' /\ bump_iter l' = bump_iter l.
Proof.
  unfold find_passenger_vehicle_times. intros H.
  apply in_map_iff in H as ([l1 m1] & <- & H). apply merge_left_In in H as [H _].
  apply in_map_iff in H as ([l m] & <- & H). apply merge_left_In in H as [H _].
  exists l. split; [assumption|]. apply set_overcap_same_ride.
Qed.

Lemma record_boarded_In (ls : list PaxLink) (boards : list BoardRow) (l' : PaxLink) :
  In l' (record_boarded ls boards) ->
  exists l, In l ls /\ same_ride l l' /\ bump_iter l' = bump_iter l.
Proof.
  unfold record_boarded. intros H.
  apply in_map_iff in H as ([l m] & <- & H). apply merge_left_In in H as [H _].
  exists l. split; [assumption|]. cbn [fst snd].
  destruct m; [apply set_bumpstop_boarded_same_ride|
               split; [apply same_ride_refl|reflexivity]].
Qed.

Lemma filter_nil_existsb {A : Type} (p : A -> bool) (l : list A) :
  filter p l = [] <-> existsb p l = false.
Proof.
  induction l as [|x l IH]; simpl; [tauto|].
  destruct (p x); simpl; [split; discriminate|exact IH].
Qed.

Lemma kick_out_In (ls : list PaxLink) (paths : list (string * Z * Z)) (l' : PaxLink) :
  In l' (kick_out bump_iter_now ls paths) ->
  exists l, In l ls /\
    l' = if existsb (same_path (path_key l)) paths
         then set_bump_iter l bump_iter_now else l.
Proof.
  unfold kick_out. intros H.
  apply in_map_iff in H as ([l m] & <- & H). apply merge_left_In in H as [H Hm].
  exists l. split; [assumption|]. cbn [fst snd].
  destruct m as [k|]; simpl.
  - apply filter_In in Hm as [Hk Hsame].
    replace (existsb (same_path (path_key l)) paths) with true; [reflexivity|].
    symmetry. apply existsb_exists. eauto.
  - apply filter_nil_existsb in Hm.
    replace (existsb (same_path (path_key l)) paths) with false
      by (symmetry; exact Hm).
    reflexivity.
Qed.

Lemma set_bump_iter_same_ride (l : PaxLink) (b : Z) : same_ride l (set_bump_iter l b).
Proof. unfold same_ride. cbn. repeat split. Qed.

Lemma same_ride_path_key (l l' : PaxLink) : same_ride l l' -> path_key l' = path_key l.
Proof. unfold same_ride, path_key. intuition congruence. Qed.

Lemma links_of_pass_In (l' : PaxLink) :
  In l' links' -> exists l, In l links /\ same_ride l l' /\ bump_iter l' = bump_iter l.
Proof. unfold links', links_of_pass. apply mark_atcap_boarded_In. Qed.

End PassFacts.

(** where the links of a pass come from, when nothing forces a bump *)
Lemma unforced_pass_links (s : Bump.Settings) (bw : option (list Sim.BumpWaitRow))
  (iteration simulation_iteration bump_iter_now : Z)
  (links : list Sim.PaxLink) (veh : list Sim.VehRow) (l' : Sim.PaxLink) :
  Bump.CAPACITY_CONSTRAINT s = false \/ Enforce.some_overcap veh = false ->
  In l' (Bump.flagged_links
           (Bump.flag_bump_overcap_passengers s bw iteration simulation_iteration
                                              bump_iter_now links veh)) ->
  exists l, In l links /\ Enforce.same_ride l l' /\ Sim.bump_iter l' = Sim.bump_iter l.
Proof.
  intros H Hl'. rewrite flag_bump_unforced in Hl' by assumption.
  cbn [Bump.flagged_links] in Hl'. destruct (Enforce.some_overcap veh).
  - apply find_passenger_vehicle_times_In in Hl' as (l1 & Hl1 & Hs1 & Hb1).
    apply links_of_pass_In in Hl1 as (l & Hl & Hs & Hb).
    exists l. split; [assumption|]. split; [now apply (same_ride_trans l l1)|congruence].
  - now apply links_of_pass_In in Hl'.
Qed.

(** and when capacity is enforced on a table with a row over capacity *)
Lemma forced_pass_links (s : Bump.Settings) (bw : option (list Sim.BumpWaitRow))
  (iteration simulation_iteration bump_iter_now : Z)
  (pathset_links_df : list Sim.PaxLink) (veh_loaded_df : list Sim.VehRow)
  (l' : Sim.PaxLink) :
  Bump.CAPACITY_CONSTRAINT s = true ->
  Enforce.some_overcap veh_loaded_df = true ->
  In l' (Bump.flagged_links
           (Bump.flag_bump_overcap_passengers s bw iteration simulation_iteration
                                              bump_iter_now pathset_links_df veh_loaded_df)) ->
  exists l, In l pathset_links_df /\ Enforce.same_ride l l' /\
    Sim.bump_iter l' =
    if existsb (Bump.same_path (Bump.path_key l))
               (Enforce.bump_paths_of_pass s iteration simulation_iteration bump_iter_now
                                           pathset_links_df veh_loaded_df)
    then bump_iter_now else Sim.bump_iter l.
Proof.
  intros Hcc Hsome Hl'.
  rewrite flag_bump_forced in Hl' by assumption. cbn [Bump.flagged_links] in Hl'.
  apply record_boarded_In in Hl' as (l1 & Hl1 & Hs1 & Hb1).
  apply kick_out_In in Hl1 as (l2 & Hl2 & Hkick).
  apply in_map_iff in Hl2 as ([l2' m] & Hfst & Hl2). simpl in Hfst. subst l2'.
  unfold Bump.joined_to_bump_stops in Hl2. apply merge_left_In in Hl2 as [Hl2 _].
  apply find_passenger_vehicle_times_In in Hl2 as (l3 & Hl3 & Hs3 & Hb3).
  apply links_of_pass_In in Hl3 as (l & Hl & Hs & Hb).
  exists l. split; [assumption|].
  assert (Hs2 : Enforce.same_ride l l2) by now apply (same_ride_trans l l3).
  assert (Hkey : Bump.path_key l2 = Bump.path_key l) by now apply same_ride_path_key.
  rewrite Hkey in Hkick.
  destruct (existsb (Bump.same_path (Bump.path_key l)) _); subst l1.
  - split.
    + apply (same_ride_trans l (Sim.set_bump_iter l2 bump_iter_now)); [|assumption].
      apply (same_ride_trans l l2); [assumption|apply set_bump_iter_same_ride].
    + rewrite Hb1. reflexivity.
  - split; [now apply (same_ride_trans l l2)|]. congruence.
Qed.

(** X9: without capacity_constraint, or when no row of the loaded table has
    more on board than its capacity, the capacity step bumps nobody: it
    reports 0 bumped paths, leaves the bump-wait registry as it was, and
    every link it returns is a link it was given with its bump_iter (and all
    columns but the boarded mark and overcap) unchanged. *)
Theorem pass_without_cause_bumps_nobody (s : Bump.Settings)
  (bw : option (list Sim.BumpWaitRow))
  (iteration simulation_iteration bump_iter_now : Z)
  (pathset_links_df : list Sim.PaxLink) (veh_loaded_df : list Sim.VehRow) :
  Bump.CAPACITY_CONSTRAINT s = false \/ Enforce.some_overcap veh_loaded_df = false ->
  let pass := Bump.flag_bump_overcap_passengers s bw iteration simulation_iteration
                bump_iter_now pathset_links_df veh_loaded_df in
  Bump.chosen_paths_bumped pass = 0 /\
  Bump.flagged_bump_wait pass = bw /\
  forall l', In l' (Bump.flagged_links pass) ->
    exists l, In l pathset_links_df /\ Enforce.same_ride l l' /\
              Sim.bump_iter l' = Sim.bump_iter l.
Proof.
  intros H pass. split; [|split].
  - unfold pass. now rewrite flag_bump_unforced.
  - unfold pass. now rewrite flag_bump_unforced.
  - intros l' Hl'.
    exact (unforced_pass_links s bw iteration simulation_iteration bump_iter_now
             pathset_links_df veh_loaded_df l' H Hl').
Qed.

Lemma pass_without_cause_bumps_nobody_witness :
  (Bump.CAPACITY_CONSTRAINT Examples.capacity_on = false \/
   Enforce.some_overcap Examples.one_on_three = false) /\
  let pass := Bump.flag_bump_overcap_passengers Examples.capacity_on None 1 0 0
                Examples.one_rider Examples.one_on_three in
  Bump.chosen_paths_bumped pass = 0 /\
  Bump.flagged_bump_wait pass = None /\
  forall l', In l' (Bump.flagged_links pass) ->
    exists l, In l Examples.one_rider /\ Enforce.same_ride l l' /\
              Sim.bump_iter l' = Sim.bump_iter l.
Proof.
  split; [right; reflexivity|].
  apply (pass_without_cause_bumps_nobody Examples.capacity_on None 1 0 0
           Examples.one_rider Examples.one_on_three).
  right. reflexivity.
Defined.

(** X10: with capacity_constraint and some row over capacity, the number of
    bumped chosen paths the step reports is the number of distinct (person,
    request, path) among the candidates flagged bumped; it is 0, the exit
    condition of the capacity loop, exactly when every candidate is flagged
    boarded; and the registry becomes the merge of the old registry with the
    first rows of the candidates of each (trip, sequence, stop). *)
Theorem forced_pass_reports_bumped_paths (s : Bump.Settings)
  (bw : option (list Sim.BumpWaitRow))
  (iteration simulation_iteration bump_iter_now : Z)
  (pathset_links_df : list Sim.PaxLink) (veh_loaded_df : list Sim.VehRow) :
  Bump.CAPACITY_CONSTRAINT s = true ->
  Enforce.some_overcap veh_loaded_df = true ->
  let pass := Bump.flag_bump_overcap_passengers s bw iteration simulation_iteration
                bump_iter_now pathset_links_df veh_loaded_df in
  let boards :=
    Bump.boards_of_pass s
      (Enforce.links_of_pass iteration simulation_iteration bump_iter_now
                             pathset_links_df veh_loaded_df)
      (Bump.compute_overcap iteration simulation_iteration bump_iter_now veh_loaded_df) in
  Bump.chosen_paths_bumped pass = Z.of_nat (List.length (Bump.bumped_paths boards)) /\
  (List.length (Bump.bumped_paths boards)
   <= List.length (filter (fun b => (Bump.new_bumpstop_boarded b =? 0)%Z) boards))%nat /\
  (Bump.chosen_paths_bumped pass = 0 <->
   forall b, In b boards -> Bump.new_bumpstop_boarded b = 1) /\
  Bump.flagged_bump_wait pass =
  Some (Bump.update_bump_wait bw (Bump.new_bump_wait boards)).
Proof.
  intros Hcc Hsome pass boards. unfold pass.
  rewrite flag_bump_forced by assumption. fold boards.
  cbn [Bump.chosen_paths_bumped Bump.flagged_bump_wait].
  split; [reflexivity|]. split; [|split; [|reflexivity]].
  - unfold Bump.bumped_paths, Frame.drop_duplicates.
    etransitivity; [apply drop_duplicates_from_length|]. now rewrite length_map.
  - assert (Hflag : forall b, In b boards ->
                      Bump.new_bumpstop_boarded b = 0 \/ Bump.new_bumpstop_boarded b = 1).
    { intros b Hb. unfold boards, Bump.boards_of_pass, Bump.bumpstop_boards in Hb.
      apply in_map_iff in Hb as (li & <- & _).
      unfold Bump.flag_board. cbn [Bump.new_bumpstop_boarded].
      destruct (match Sim.overcap (fst li) with
                | Some oc => snd li <? oc | None => false end); auto. }
    split.
    + intros H b Hb.
      assert (Hnil : Bump.bumped_paths boards = [])
        by (destruct (Bump.bumped_paths boards); [reflexivity|simpl in H; lia]).
      unfold Bump.bumped_paths in Hnil. apply drop_duplicates_nil in Hnil.
      apply map_eq_nil in Hnil.
      destruct (Hflag b Hb) as [E|E]; [|assumption].
      assert (In b (filter (fun b => Bump.new_bumpstop_boarded b =? 0) boards))
        by (apply filter_In; split; [assumption|now apply Z.eqb_eq]).
      rewrite Hnil in H0. destruct H0.
    + intros H. unfold Bump.bumped_paths.
      rewrite filter_none; [reflexivity|].
      intros b Hb. apply Z.eqb_neq. rewrite (H b Hb). discriminate.
Qed.

Lemma forced_pass_reports_bumped_paths_witness :
  Bump.CAPACITY_CONSTRAINT Examples.capacity_on = true /\
  Enforce.some_overcap Examples.four_on_three = true /\
  let pass := Bump.flag_bump_overcap_passengers Examples.capacity_on None 1 0 0
                Examples.four_riders Examples.four_on_three in
  let boards :=
    Bump.boards_of_pass Examples.capacity_on
      (Enforce.links_of_pass 1 0 0 Examples.four_riders Examples.four_on_three)
      (Bump.compute_overcap 1 0 0 Examples.four_on_three) in
  Bump.chosen_paths_bumped pass = Z.of_nat (List.length (Bump.bumped_paths boards)) /\
  (List.length (Bump.bumped_paths boards)
   <= List.length (filter (fun b => (Bump.new_bumpstop_boarded b =? 0)%Z) boards))%nat /\
  (Bump.chosen_paths_bumped pass = 0 <->
   forall b, In b boards -> Bump.new_bumpstop_boarded b = 1) /\
  Bump.flagged_bump_wait pass =
  Some (Bump.update_bump_wait None (Bump.new_bump_wait boards)).
Proof.
  split; [reflexivity|]. split; [reflexivity|].
  apply (forced_pass_reports_bumped_paths Examples.capacity_on None 1 0 0
           Examples.four_riders Examples.four_on_three); reflexivity.
Defined.

(** X11: with capacity_constraint and some row over capacity, every link the
    step returns is a link it was given; its bump_iter is the current bump
    iteration when the link's (person, request, path) is among the bumped
    paths of the pass (or among the unchosen paths that board at a bump
    stop), whichever link of the path it is, and is unchanged otherwise. *)
Theorem forced_pass_kicks_out_whole_paths (s : Bump.Settings)
  (bw : option (list Sim.BumpWaitRow))
  (iteration simulation_iteration bump_iter_now : Z)
  (pathset_links_df : list Sim.PaxLink) (veh_loaded_df : list Sim.VehRow) :
  Bump.CAPACITY_CONSTRAINT s = true ->
  Enforce.some_overcap veh_loaded_df = true ->
  let pass := Bump.flag_bump_overcap_passengers s bw iteration simulation_iteration
                bump_iter_now pathset_links_df veh_loaded_df in
  let bump_paths :=
    Enforce.bump_paths_of_pass s iteration simulation_iteration bump_iter_now
                               pathset_links_df veh_loaded_df in
  forall l', In l' (Bump.flagged_links pass) ->
    exists l, In l pathset_links_df /\ Enforce.same_ride l l' /\
      Sim.bump_iter l' =
      if existsb (Bump.same_path (Bump.path_key l)) bump_paths
      then bump_iter_now else Sim.bump_iter l.
Proof.
  intros Hcc Hsome pass bump_paths l' Hl'.
  exact (forced_pass_links s bw iteration simulation_iteration bump_iter_now
           pathset_links_df veh_loaded_df l' Hcc Hsome Hl').
Qed.

Lemma forced_pass_kicks_out_whole_paths_witness :
  Bump.CAPACITY_CONSTRAINT Examples.capacity_on = true /\
  Enforce.some_overcap Examples.four_on_three = true /\
  let pass := Bump.flag_bump_overcap_passengers Examples.capacity_on None 1 0 0
                Examples.four_riders Examples.four_on_three in
  let bump_paths :=
    Enforce.bump_paths_of_pass Examples.capacity_on 1 0 0
                               Examples.four_riders Examples.four_on_three in
  forall l', In l' (Bump.flagged_links pass) ->
    exists l, In l Examples.four_riders /\ Enforce.same_ride l l' /\
      Sim.bump_iter l' =
      if existsb (Bump.same_path (Bump.path_key l)) bump_paths
      then 0 else Sim.bump_iter l.
Proof.
  split; [reflexivity|]. split; [reflexivity|].
  apply (forced_pass_kicks_out_whole_paths Examples.capacity_on None 1 0 0
           Examples.four_riders Examples.four_on_three); reflexivity.
Defined.

(** ** The capacity loop *)

(** X12: a pass that enforces capacity in bump iteration 0 or later takes the
    kicked-out paths off the vehicles: a returned link is counted by the next
    call of the loader exactly when the link it comes from was counted and
    its (person, request, path) is not among the paths of the pass. *)
Theorem kicked_out_paths_are_not_reloaded (s : Bump.Settings)
  (bw : option (list Sim.BumpWaitRow))
  (iteration simulation_iteration bump_iter_now : Z)
  (pathset_links_df : list Sim.PaxLink) (veh_loaded_df : list Sim.VehRow) :
  Bump.CAPACITY_CONSTRAINT s = true ->
  Enforce.some_overcap veh_loaded_df = true ->
  0 <= bump_iter_now ->
  let pass := Bump.flag_bump_overcap_passengers s bw iteration simulation_iteration
                bump_iter_now pathset_links_df veh_loaded_df in
  let bump_paths :=
    Enforce.bump_paths_of_pass s iteration simulation_iteration bump_iter_now
                               pathset_links_df veh_loaded_df in
  forall l', In l' (Bump.flagged_links pass) ->
    exists l, In l pathset_links_df /\ Enforce.same_ride l l' /\
      Load.is_loaded l' =
      Load.is_loaded l && negb (existsb (Bump.same_path (Bump.path_key l)) bump_paths).
Proof.
  intros Hcc Hsome Hpos pass bump_paths l' Hl'.
  destruct (forced_pass_links s bw iteration simulation_iteration bump_iter_now
              pathset_links_df veh_loaded_df l' Hcc Hsome Hl') as (l & Hl & Hs & Hb).
  exists l. split; [assumption|]. split; [assumption|].
  fold bump_paths in Hb. unfold Load.is_loaded. rewrite Hb.
  replace (Sim.chosen l') with (Sim.chosen l) by (symmetry; apply Hs).
  destruct (existsb (Bump.same_path (Bump.path_key l)) bump_paths); cbn [negb].
  - replace (bump_iter_now =? -1) with false by (symmetry; apply Z.eqb_neq; lia).
    now rewrite !andb_false_r.
  - now rewrite andb_true_r.
Qed.

Lemma kicked_out_paths_are_not_reloaded_witness :
  Bump.CAPACITY_CONSTRAINT Examples.capacity_on = true /\
  Enforce.some_overcap Examples.four_on_three = true /\
  0 <= 0 /\
  let pass := Bump.flag_bump_overcap_passengers Examples.capacity_on None 1 0 0
                Examples.four_riders Examples.four_on_three in
  let bump_paths :=
    Enforce.bump_paths_of_pass Examples.capacity_on 1 0 0
                               Examples.four_riders Examples.four_on_three in
  forall l', In l' (Bump.flagged_links pass) ->
    exists l, In l Examples.four_riders /\ Enforce.same_ride l l' /\
      Load.is_loaded l' =
      Load.is_loaded l && negb (existsb (Bump.same_path (Bump.path_key l)) bump_paths).
Proof.
  split; [reflexivity|]. split; [reflexivity|]. split; [lia|].
  apply (kicked_out_paths_are_not_reloaded Examples.capacity_on None 1 0 0
           Examples.four_riders Examples.four_on_three); [reflexivity|reflexivity|lia].
Defined.

Section LoopFacts.
Import Sim Bump Enforce CapacityLoop.

(** one pass: a returned link is a given link, its bump_iter unchanged or
    set to the bump iteration of the pass *)
Lemma pass_links (s : Settings) (bw : option (list BumpWaitRow))
  (iteration simulation_iteration bump_iter_now : Z)
  (links : list PaxLink) (veh : list VehRow) (l' : PaxLink) :
  In l' (flagged_links (flag_bump_overcap_passengers s bw iteration simulation_iteration
                                                     bump_iter_now links veh)) ->
  exists l, In l links /\ same_ride l l' /\
            (bump_iter l' = bump_iter l \/ bump_iter l' = bump_iter_now).
Proof.
  intros Hl'.
  destruct (CAPACITY_CONSTRAINT s) eqn:Hcc, (some_overcap veh) eqn:Hsome.
  - destruct (forced_pass_links s bw iteration simulation_iteration bump_iter_now
                links veh l' Hcc Hsome Hl') as (l & Hl & Hs & Hb).
    exists l. split; [assumption|]. split; [assumption|].
    destruct (existsb _ _) in Hb; auto.
  - destruct (unforced_pass_links s bw iteration simulation_iteration bump_iter_now
                links veh l' (or_intror Hsome) Hl') as (l & Hl & Hs & Hb). eauto.
  - destruct (unforced_pass_links s bw iteration simulation_iteration bump_iter_now
                links veh l' (or_introl Hcc) Hl') as (l & Hl & Hs & Hb). eauto.
  - destruct (unforced_pass_links s bw iteration simulation_iteration bump_iter_now
                links veh l' (or_introl Hcc) Hl') as (l & Hl & Hs & Hb). eauto.
Qed.

End LoopFacts.

(** X13: when the capacity loop, started at a bump iteration of 0 or more,
    comes to an end without an exception, its last bump iteration is not
    below the first, every link it returns is one of the links it was given,
    and the link's bump_iter is either unchanged or the number of one of the
    passes made; so no link that the loader did not count at the start is
    counted at the end. *)
Theorem capacity_loop_only_takes_riders_off (fuel : nat) (s : Bump.Settings)
  (has_capacity_configured : bool) (bw : option (list Sim.BumpWaitRow))
  (iteration simulation_iteration bump_iter_now : Z)
  (pathset_links_df : list Sim.PaxLink) (veh_trips_df : list Sim.VehRow)
  (out : CapacityLoop.Outcome) :
  0 <= bump_iter_now ->
  CapacityLoop.capacity_loop fuel s has_capacity_configured bw iteration
    simulation_iteration bump_iter_now pathset_links_df veh_trips_df = Some (Py.Ok out) ->
  bump_iter_now <= CapacityLoop.out_bump_iter out /\
  forall l', In l' (CapacityLoop.out_links out) ->
    exists l, In l pathset_links_df /\ Enforce.same_ride l l' /\
      (Sim.bump_iter l' = Sim.bump_iter l \/
       bump_iter_now <= Sim.bump_iter l' <= CapacityLoop.out_bump_iter out) /\
      (Load.is_loaded l' = true -> Load.is_loaded l = true).
Proof.
  assert (Hloaded : forall l l' lo hi, Enforce.same_ride l l' -> 0 <= lo ->
            (Sim.bump_iter l' = Sim.bump_iter l \/ lo <= Sim.bump_iter l' <= hi) ->
            Load.is_loaded l' = true -> Load.is_loaded l = true).
  { intros l l' lo hi Hs Hlo Hb. unfold Load.is_loaded.
    replace (Sim.chosen l') with (Sim.chosen l) by (symmetry; apply Hs).
    rewrite !andb_true_iff, !Z.eqb_eq. intros [Hc Hm]. split; [assumption|].
    destruct Hb as [Hb|Hb]; lia. }
  revert bw bump_iter_now pathset_links_df veh_trips_df.
  induction fuel as [|fuel IH]; intros bw bi links veh Hpos Hrun; [discriminate|].
  cbn [CapacityLoop.capacity_loop] in Hrun.
  destruct (Sim.put_passengers_on_vehicles iteration bi links veh) as [veh'|e];
    [|discriminate].
  destruct has_capacity_configured; cbn [negb] in Hrun.
  - set (pass := Bump.flag_bump_overcap_passengers s bw iteration simulation_iteration
                   bi links veh') in *.
    destruct (Bump.chosen_paths_bumped pass =? 0).
    + injection Hrun as <-. cbn [CapacityLoop.out_bump_iter CapacityLoop.out_links].
      split; [lia|]. intros l' Hl'.
      apply find_passenger_vehicle_times_In in Hl' as (l1 & Hl1 & Hs1 & Hb1).
      apply pass_links in Hl1 as (l & Hl & Hs & Hb).
      assert (Hs' : Enforce.same_ride l l') by now apply (same_ride_trans l l1).
      assert (Hb' : Sim.bump_iter l' = Sim.bump_iter l \/ bi <= Sim.bump_iter l' <= bi)
        by (destruct Hb; [left; congruence|right; lia]).
      exists l. split; [assumption|]. split; [assumption|]. split; [assumption|].
      now apply (Hloaded l l' bi bi).
    + apply IH in Hrun as [Hle Hlinks]; [|lia]. split; [lia|].
      intros l' Hl'. apply Hlinks in Hl' as (l1 & Hl1 & Hs1 & Hb1 & _).
      apply pass_links in Hl1 as (l & Hl & Hs & Hb).
      assert (Hs' : Enforce.same_ride l l') by now apply (same_ride_trans l l1).
      assert (Hb' : Sim.bump_iter l' = Sim.bump_iter l \/
                    bi <= Sim.bump_iter l' <= CapacityLoop.out_bump_iter out)
        by (destruct Hb1 as [Hb1|Hb1]; [destruct Hb; [left; congruence|right; lia]
                                        |right; lia]).
      exists l. split; [assumption|]. split; [assumption|]. split; [assumption|].
      now apply (Hloaded l l' bi (CapacityLoop.out_bump_iter out)).
  - injection Hrun as <-. cbn [CapacityLoop.out_bump_iter CapacityLoop.out_links].
    split; [lia|]. intros l' Hl'. exists l'. split; [assumption|].
    split; [apply same_ride_refl|]. split; [now left|trivial].
Qed.

Lemma capacity_loop_only_takes_riders_off_witness :
  0 <= 0 /\
  CapacityLoop.capacity_loop 2 Examples.capacity_on true None 1 0 0
    Examples.four_riders (Examples.two_stop_trip 3)
  = Some (Py.Ok MoreExamples.outcome_of_four) /\
  0 <= CapacityLoop.out_bump_iter MoreExamples.outcome_of_four /\
  forall l', In l' (CapacityLoop.out_links MoreExamples.outcome_of_four) ->
    exists l, In l Examples.four_riders /\ Enforce.same_ride l l' /\
      (Sim.bump_iter l' = Sim.bump_iter l \/
       0 <= Sim.bump_iter l' <= CapacityLoop.out_bump_iter MoreExamples.outcome_of_four) /\
      (Load.is_loaded l' = true -> Load.is_loaded l = true).
Proof.
  split; [lia|]. split; [vm_compute; reflexivity|].
  apply (capacity_loop_only_takes_riders_off 2 Examples.capacity_on true None 1 0 0
           Examples.four_riders (Examples.two_stop_trip 3) MoreExamples.outcome_of_four);
    [lia | vm_compute; reflexivity].
Defined.

(** X14: when the trips have no capacity configured, or capacity_constraint
    is off, the capacity loop is a single pass of the loader whatever the
    loads are: it raises what the loader raises, and otherwise ends with the
    bump iteration and the bump-wait registry it started with, the loaded
    table (with overcap filled in when capacity is configured), and the given
    links with their bump_iter unchanged. *)
Theorem capacity_loop_single_pass (fuel : nat) (s : Bump.Settings)
  (has_capacity_configured : bool) (bw : option (list Sim.BumpWaitRow))
  (iteration simulation_iteration bump_iter_now : Z)
  (pathset_links_df : list Sim.PaxLink) (veh_trips_df : list Sim.VehRow) :
  has_capacity_configured = false \/ Bump.CAPACITY_CONSTRAINT s = false ->
  let run := CapacityLoop.capacity_loop (S fuel) s has_capacity_configured bw iteration
               simulation_iteration bump_iter_now pathset_links_df veh_trips_df in
  match Sim.put_passengers_on_vehicles iteration bump_iter_now pathset_links_df
                                       veh_trips_df with
  | Py.Raise e => run = Some (Py.Raise e)
  | Py.Ok veh_loaded_df =>
      exists out, run = Some (Py.Ok out) /\
        CapacityLoop.out_bump_iter out = bump_iter_now /\
        CapacityLoop.out_bump_wait out = bw /\
        CapacityLoop.out_veh out =
        (if has_capacity_configured
         then Bump.compute_overcap iteration simulation_iteration bump_iter_now veh_loaded_df
         else veh_loaded_df) /\
        forall l', In l' (CapacityLoop.out_links out) ->
          exists l, In l pathset_links_df /\ Enforce.same_ride l l' /\
                    Sim.bump_iter l' = Sim.bump_iter l
  end.
Proof.
  intros H run. unfold run. cbn [CapacityLoop.capacity_loop].
  destruct (Sim.put_passengers_on_vehicles iteration bump_iter_now pathset_links_df
                                           veh_trips_df) as [veh'|e]; [|reflexivity].
  destruct has_capacity_configured; cbn [negb].
  - destruct H as [H|H]; [discriminate|].
    pose proof (flag_bump_unforced s bw iteration simulation_iteration bump_iter_now
                  pathset_links_df veh' (or_introl H)) as Hpass.
    pose proof (unforced_pass_links s bw iteration simulation_iteration bump_iter_now
                  pathset_links_df veh') as Hlinks.
    destruct (Bump.flag_bump_overcap_passengers s bw iteration simulation_iteration
                bump_iter_now pathset_links_df veh') as [n ls vs r].
    injection Hpass as -> _ -> ->. cbn [Bump.chosen_paths_bumped Z.eqb].
    eexists. split; [reflexivity|].
    cbn [CapacityLoop.out_bump_iter CapacityLoop.out_bump_wait CapacityLoop.out_veh
         CapacityLoop.out_links Bump.flagged_links Bump.flagged_veh Bump.flagged_bump_wait].
    repeat split. intros l' Hl'.
    apply find_passenger_vehicle_times_In in Hl' as (l1 & Hl1 & Hs1 & Hb1).
    destruct (Hlinks l1 (or_introl H) Hl1) as (l & Hl & Hs & Hb).
    exists l. split; [assumption|]. split; [now apply (same_ride_trans l l1)|congruence].
  - eexists. split; [reflexivity|].
    cbn [CapacityLoop.out_bump_iter CapacityLoop.out_bump_wait CapacityLoop.out_veh
         CapacityLoop.out_links].
    repeat split. intros l' Hl'. exists l'. split; [assumption|].
    split; [apply same_ride_refl|reflexivity].
Qed.

Lemma capacity_loop_single_pass_witness :
  (false = false \/ Bump.CAPACITY_CONSTRAINT Examples.capacity_on = false) /\
  let run := CapacityLoop.capacity_loop 1 Examples.capacity_on false None 1 0 0
               Examples.four_riders (Examples.two_stop_trip 3) in
  match Sim.put_passengers_on_vehicles 1 0 Examples.four_riders (Examples.two_stop_trip 3) with
  | Py.Raise e => run = Some (Py.Raise e)
  | Py.Ok veh_loaded_df =>
      exists out, run = Some (Py.Ok out) /\
        CapacityLoop.out_bump_iter out = 0 /\
        CapacityLoop.out_bump_wait out = None /\
        CapacityLoop.out_veh out =
        (if false then Bump.compute_overcap 1 0 0 veh_loaded_df else veh_loaded_df) /\
        forall l', In l' (CapacityLoop.out_links out) ->
          exists l, In l Examples.four_riders /\ Enforce.same_ride l l' /\
                    Sim.bump_iter l' = Sim.bump_iter l
  end.
Proof.
  split; [left; reflexivity|].
  apply (capacity_loop_single_pass 0 Examples.capacity_on false None 1 0 0
           Examples.four_riders (Examples.two_stop_trip 3)).
  left. reflexivity.
Defined.

(** ** Missed transfers: rows in, rows out *)


(** X15: [flag_missed_transfers] returns the path table it was given, one
    row for every row and in the same order; the missed_xfer of a row is 0
    or 1, and it is missing exactly for the paths that have no link. *)
Theorem missed_transfers_keep_every_path (pathset_paths_df : list Xfer.XPath)
  (pathset_links_df : list Xfer.XLink) :
  let out := Xfer.flag_missed_transfers pathset_paths_df pathset_links_df in
  map Legs.path_key (fst out) = map Legs.path_key pathset_paths_df /\
  forall p, In p (fst out) ->
    (Xfer.path_missed_xfer p = None \/ Xfer.path_missed_xfer p = Some 0 \/
     Xfer.path_missed_xfer p = Some 1) /\
    (Xfer.path_missed_xfer p = None <->
     ~ exists l, In l pathset_links_df /\ Xfer.path_of l = Legs.path_key p).
Proof.
  intros out. unfold out, Xfer.flag_missed_transfers. cbn [fst].
  set (links := Xfer.flag_links pathset_links_df).
  rewrite merge_left_lookup
    by (intros p _; apply (grouped_missed_xfer_at_most_one links
                             (Xfer.path_trip_list_id_num p, Xfer.path_pathnum p))).
  rewrite !map_map. split; [reflexivity|].
  intros p Hp. apply in_map_iff in Hp as (p0 & <- & _).
  cbn [fst snd Xfer.path_missed_xfer Legs.path_key Xfer.path_trip_list_id_num
       Xfer.path_pathnum].
  assert (Hflags : forall l, In l links -> Xfer.missed_xfer l = 0 \/ Xfer.missed_xfer l = 1)
    by (intros l Hl; now destruct (flag_links_flag _ l Hl) as (_ & _ & H)).
  set (k := (Xfer.path_trip_list_id_num p0, Xfer.path_pathnum p0)).
  change (Legs.path_key (Xfer.mkXPath (Xfer.path_trip_list_id_num p0) (Xfer.path_pathnum p0)
            (option_map snd (find (fun g => Xfer.same_path k (fst g))
                                  (Xfer.grouped_missed_xfer links))))) with k.
  rewrite <- (flag_links_paths pathset_links_df k). fold links.
  destruct (find (fun g => Xfer.same_path k (fst g)) (Xfer.grouped_missed_xfer links))
    as [[k' v]|] eqn:E; cbn [option_map snd].
  - apply find_some in E as [Hg Hk]. cbn [fst] in Hk. apply same_path_eq in Hk. subst k'.
    destruct (grouped_missed_xfer_In _ _ _ Hflags Hg) as [Hv _]. split.
    + destruct Hv as [->| ->]; auto.
    + split; [discriminate|]. intros Hno. exfalso. apply Hno.
      apply (grouped_missed_xfer_keys links k). eauto.
  - split; [now left|]. split; [|reflexivity]. intros _ Hex.
    apply (grouped_missed_xfer_keys links k) in Hex as [v Hv].
    pose proof (find_none _ _ E (k, v) Hv) as Hf. cbn [fst] in Hf.
    assert (Xfer.same_path k k = true) by now apply same_path_eq. congruence.
Qed.

(** X16: when no two links share (request, path, link number),
    [flag_missed_transfers] returns the links it was given, one row for every
    row and in the same order, with the columns it reads unchanged. *)
Theorem missed_transfers_keep_every_link (pathset_paths_df : list Xfer.XPath)
  (pathset_links_df : list Xfer.XLink) :
  NoDup (map Legs.leg_key pathset_links_df) ->
  let out := Xfer.flag_missed_transfers pathset_paths_df pathset_links_df in
  map Legs.read_columns (snd out) = map Legs.read_columns pathset_links_df /\
  List.length (snd out) = List.length pathset_links_df.
Proof.
  intros Hnd out.
  assert (H : map Legs.read_columns (snd out) = map Legs.read_columns pathset_links_df).
  { unfold out, Xfer.flag_missed_transfers. cbn [snd].
    rewrite flag_links_by_lookup by assumption.
    rewrite !map_read_columns;
      auto using first_step_read, after_first_join_read, after_second_join_read. }
  split; [assumption|].
  apply (f_equal (@List.length _)) in H. now rewrite !length_map in H.
Qed.

Lemma missed_transfers_keep_every_link_witness :
  NoDup (map Legs.leg_key Examples.missed_connection) /\
  let out := Xfer.flag_missed_transfers Examples.missed_connection_paths
                                        Examples.missed_connection in
  map Legs.read_columns (snd out) = map Legs.read_columns Examples.missed_connection /\
  List.length (snd out) = List.length Examples.missed_connection.
Proof.
  assert (Hnd : NoDup (map Legs.leg_key Examples.missed_connection)).
  { cbn. repeat constructor; cbn; intuition discriminate. }
  split; [exact Hnd|].
  exact (missed_transfers_keep_every_link Examples.missed_connection_paths
           Examples.missed_connection Hnd).
Defined.


(** X17: how the legs of a path follow one another in time, when no two
    links share (request, path, link number).  In the links returned the B
    time of a link is its first B time (the pathfinding B time of an access
    link, the alight time of a trip link, the new A time plus the pathfinding
    link time otherwise), backed up by 24 hours exactly when the link time
    would be over 22 hours, and the new link time is B time - A time.  An
    access link starts at its pathfinding A time; a link that is neither
    an access nor a trip link starts when the leg before it alights; a trip
    link starts at the first B time of the leg before it, which is that
    leg's new B time when it was not backed up and 24 hours after it when it
    was; and a link that is not an access link and has no leg before it has
    no A time. *)
Theorem legs_follow_one_another (pathset_paths_df : list Xfer.XPath)
  (pathset_links_df : list Xfer.XLink) :
  NoDup (map Legs.leg_key pathset_links_df) ->
  let out := Xfer.flag_missed_transfers pathset_paths_df pathset_links_df in
  forall l, In l (snd out) ->
    Xfer.new_B_time l
    = (if Legs.backed_up l
       then Xfer.oadd (Legs.first_B_time l) (- (24 * Xfer.hour))
       else Legs.first_B_time l) /\
    Xfer.new_linktime l = Xfer.osub (Xfer.new_B_time l) (Xfer.new_A_time l) /\
    (Xfer.linkmode l = Xfer.Access -> Xfer.new_A_time l = Some (Xfer.pf_A_time l)) /\
    (Xfer.linkmode l <> Xfer.Access ->
     (forall m, In m (snd out) -> Xfer.leg_before l m = false) ->
     Xfer.new_A_time l = None) /\
    forall m, In m (snd out) -> Xfer.leg_before l m = true ->
      match Xfer.linkmode l with
      | Xfer.Access => True
      | Xfer.Trip =>
          Xfer.new_A_time l = Legs.first_B_time m /\
          (Legs.backed_up m = false -> Xfer.new_A_time l = Xfer.new_B_time m) /\
          (Legs.backed_up m = true ->
           Xfer.new_A_time l = Xfer.oadd (Xfer.new_B_time m) (24 * Xfer.hour))
      | _ => Xfer.new_A_time l = Xfer.alight_time m
      end.
Proof.
  intros Hnd out l Hl. unfold out, Xfer.flag_missed_transfers in *. cbn [snd] in *.
  destruct (flag_links_legs pathset_links_df l Hnd Hl) as (HB & HL & Hacc & Hnone & Hleg).
  split; [exact HB|]. split; [exact HL|]. split; [exact Hacc|]. split; [exact Hnone|].
  intros m Hm Hlm. specialize (Hleg m Hm Hlm).
  destruct (flag_links_legs pathset_links_df m Hnd Hm) as (HBm & _).
  destruct (Xfer.linkmode l) eqn:Hmode; cbn [Xfer.is_trip] in Hleg; try exact I;
    try (apply Hleg; discriminate).
  assert (HA : Xfer.new_A_time l = Legs.first_B_time m) by (apply Hleg; discriminate).
  split; [exact HA|]. split.
  - intros Hno. now rewrite HBm, Hno.
  - intros Hyes. rewrite HBm, Hyes, HA. apply oadd_back.
Qed.

Lemma legs_follow_one_another_witness :
  NoDup (map Legs.leg_key Examples.missed_connection) /\
  let out := Xfer.flag_missed_transfers Examples.missed_connection_paths
                                        Examples.missed_connection in
  forall l, In l (snd out) ->
    Xfer.new_B_time l
    = (if Legs.backed_up l
       then Xfer.oadd (Legs.first_B_time l) (- (24 * Xfer.hour))
       else Legs.first_B_time l) /\
    Xfer.new_linktime l = Xfer.osub (Xfer.new_B_time l) (Xfer.new_A_time l) /\
    (Xfer.linkmode l = Xfer.Access -> Xfer.new_A_time l = Some (Xfer.pf_A_time l)) /\
    (Xfer.linkmode l <> Xfer.Access ->
     (forall m, In m (snd out) -> Xfer.leg_before l m = false) ->
     Xfer.new_A_time l = None) /\
    forall m, In m (snd out) -> Xfer.leg_before l m = true ->
      match Xfer.linkmode l with
      | Xfer.Access => True
      | Xfer.Trip =>
          Xfer.new_A_time l = Legs.first_B_time m /\
          (Legs.backed_up m = false -> Xfer.new_A_time l = Xfer.new_B_time m) /\
          (Legs.backed_up m = true ->
           Xfer.new_A_time l = Xfer.oadd (Xfer.new_B_time m) (24 * Xfer.hour))
      | _ => Xfer.new_A_time l = Xfer.alight_time m
      end.
Proof.
  assert (Hnd : NoDup (map Legs.leg_key Examples.missed_connection)).
  { cbn. repeat constructor; cbn; intuition discriminate. }
  split; [exact Hnd|].
  exact (legs_follow_one_another Examples.missed_connection_paths
           Examples.missed_connection Hnd).
Defined.

(** X18: two links with the same (request, path, link number) in front of
    a following leg multiply that leg in the first join:
    [flag_missed_transfers] then returns more links than it was given. *)
Theorem doubled_leg_multiplies_links (pathset_paths_df : list Xfer.XPath)
  (pathset_links_df : list Xfer.XLink) (i j : nat) (m m' l : Xfer.XLink) :
  (i < j)%nat ->
  nth_error pathset_links_df i = Some m ->
  nth_error pathset_links_df j = Some m' ->
  Legs.leg_key m = Legs.leg_key m' ->
  In l pathset_links_df ->
  Xfer.leg_before l m = true ->
  (List.length pathset_links_df
   < List.length (snd (Xfer.flag_missed_transfers pathset_paths_df pathset_links_df)))%nat.
Proof.
  intros Hij Hi Hj Hkey Hl Hlm.
  unfold Xfer.flag_missed_transfers, Xfer.flag_links. cbn [snd].
  rewrite (map_map Xfer.set_alight_delay Xfer.back_up_a_day).
  change (map (fun x => Xfer.back_up_a_day (Xfer.set_alight_delay x)) pathset_links_df)
    with (map Legs.first_step pathset_links_df).
  set (ls1 := map Legs.first_step pathset_links_df).
  rewrite !length_map. unfold Xfer.join_B_of_previous. rewrite length_map.
  eapply Nat.lt_le_trans; [|apply merge_left_length_ge].
  rewrite length_map. unfold Xfer.join_alight_of_previous. rewrite length_map.
  replace (List.length pathset_links_df) with (List.length ls1)
    by (unfold ls1; apply length_map).
  apply In_nth_error in Hl as [k Hk].
  apply (merge_left_length_gt Xfer.leg_before ls1 ls1 k (Legs.first_step l)).
  - unfold ls1. now apply map_nth_error.
  - apply (filter_two _ ls1 i j (Legs.first_step m) (Legs.first_step m') Hij).
    + unfold ls1. now apply map_nth_error.
    + unfold ls1. now apply map_nth_error.
    + rewrite (leg_before_read l _ m _ (first_step_read l) (first_step_read m)).
      assumption.
    + rewrite (leg_before_read l _ m' _ (first_step_read l) (first_step_read m')).
      apply leg_before_key. rewrite <- Hkey. now apply leg_before_key.
Qed.

Lemma doubled_leg_multiplies_links_witness :
  (0 < 1)%nat /\
  nth_error MoreExamples.doubled_leg 0 = Some MoreExamples.first_leg /\
  nth_error MoreExamples.doubled_leg 1 = Some MoreExamples.first_leg /\
  Legs.leg_key MoreExamples.first_leg = Legs.leg_key MoreExamples.first_leg /\
  In MoreExamples.second_leg MoreExamples.doubled_leg /\
  Xfer.leg_before MoreExamples.second_leg MoreExamples.first_leg = true /\
  (List.length MoreExamples.doubled_leg
   < List.length (snd (Xfer.flag_missed_transfers [] MoreExamples.doubled_leg)))%nat.
Proof.
  assert (Hin : In MoreExamples.second_leg MoreExamples.doubled_leg)
    by (right; right; left; reflexivity).
  repeat (split; [first [lia | reflexivity | exact Hin]|]).
  apply (doubled_leg_multiplies_links [] MoreExamples.doubled_leg 0 1
           MoreExamples.first_leg MoreExamples.first_leg MoreExamples.second_leg);
    first [lia | reflexivity | exact Hin].
Defined.

(** ** The driver: more on what is pathfound, merged and reported *)

Section DriverMore.
Import Driver.

Lemma reset_new_path_not_chosen (p : PathRow) : is_chosen (reset_new_path p) = false.
Proof. reflexivity. Qed.

Lemma existsb_map {A B : Type} (f : A -> B) (p : B -> bool) (l : list A) :
  existsb p (map f l) = existsb (fun x => p (f x)) l.
Proof. induction l as [|x l IH]; [reflexivity|]. simpl. now rewrite IH. Qed.

Lemma existsb_false {A : Type} (p : A -> bool) (l : list A) :
  (forall x, p x = false) -> existsb p l = false.
Proof. intros H. induction l as [|x l IH]; [reflexivity|]. simpl. now rewrite H, IH. Qed.

End DriverMore.

(** X19: the class attribute PATHFINDING_EVERYONE is never switched on by
    [generate_pathsets]: after the choice of the trip list it is on only if
    it was on before and the iteration is odd; the other attributes are left
    alone. *)
Theorem pathfinding_everyone_is_never_switched_on (iteration : Z) (g : Driver.Globals)
  (trip_list_df : list Driver.TripListRow) (pathset_paths_df : list Driver.PathRow) :
  let g' := fst (Driver.choose_pathfind_trip_list iteration g trip_list_df pathset_paths_df) in
  (Driver.PATHFINDING_EVERYONE g' = true <->
   Driver.PATHFINDING_EVERYONE g = true /\ iteration mod 2 <> 0) /\
  Driver.DEBUG_TRACE_ONLY g' = Driver.DEBUG_TRACE_ONLY g /\
  Driver.TRACE_PERSON_IDS g' = Driver.TRACE_PERSON_IDS g.
Proof.
  intros g'. unfold g', Driver.choose_pathfind_trip_list.
  destruct (Z.eqb_spec (iteration mod 2) 0) as [E|E]; cbn [fst Driver.PATHFINDING_EVERYONE
    Driver.DEBUG_TRACE_ONLY Driver.TRACE_PERSON_IDS].
  - split; [|split; reflexivity]. split; [discriminate|]. intros [_ H]. contradiction.
  - split; [|split; reflexivity]. tauto.
Qed.

(** X20: the odd iteration that follows an even one.  The whole trip list is
    pathfound, but the attribute is still off, so the driver merges instead
    of taking the new pathsets as they are: the number of pathsets it reports
    is counted from the merged table, and the paths of every request of the
    trip list are the new ones with their chosen status reset. *)
Theorem odd_iteration_after_even_still_merges (iteration generated : Z) (g : Driver.Globals)
  (trip_list_df : list Driver.TripListRow)
  (paths_before pathset_paths_df new_pathset_paths_df : list Driver.PathRow)
  (pathset_links_df new_pathset_links_df : list Driver.LinkRow) :
  iteration mod 2 = 0 ->
  let g1 := fst (Driver.choose_pathfind_trip_list iteration g trip_list_df paths_before) in
  let next := Driver.choose_pathfind_trip_list (iteration + 1) g1 trip_list_df
                                               pathset_paths_df in
  let merged := Driver.merge_pathsets trip_list_df pathset_paths_df pathset_links_df
                                      new_pathset_paths_df new_pathset_links_df in
  snd next = trip_list_df /\
  Driver.PATHFINDING_EVERYONE (fst next) = false /\
  Driver.update_pathsets (fst next) generated (snd next) pathset_paths_df pathset_links_df
                         new_pathset_paths_df new_pathset_links_df
  = (Driver.number_of_pathsets (fst merged), merged) /\
  forall t, In t trip_list_df ->
    Driver.paths_of (Driver.trip_list_id_num t) (fst merged) =
    map Driver.reset_new_path
        (Driver.paths_of (Driver.trip_list_id_num t) new_pathset_paths_df).
Proof.
  intros Heven g1 next merged.
  assert (Hodd : ((iteration + 1) mod 2 =? 0) = false).
  { apply Z.eqb_neq. rewrite Z.add_mod, Heven by lia. discriminate. }
  assert (Hg1 : Driver.PATHFINDING_EVERYONE g1 = false).
  { unfold g1, Driver.choose_pathfind_trip_list.
    replace (iteration mod 2 =? 0) with true by (symmetry; now apply Z.eqb_eq).
    reflexivity. }
  assert (Hnext : next = (g1, trip_list_df))
    by (unfold next, Driver.choose_pathfind_trip_list; now rewrite Hodd).
  rewrite Hnext. cbn [fst snd]. split; [reflexivity|]. split; [assumption|]. split.
  - unfold Driver.update_pathsets. now rewrite Hg1.
  - intros t Ht. unfold merged. rewrite merge_pathsets_paths.
    replace (existsb (fun t0 => Driver.trip_list_id_num t =? Driver.trip_list_id_num t0)
                     trip_list_df) with true; [reflexivity|].
    symmetry. apply existsb_exists. exists t. split; [assumption|apply Z.eqb_refl].
Qed.

Lemma odd_iteration_after_even_still_merges_witness :
  2 mod 2 = 0 /\
  let g1 := fst (Driver.choose_pathfind_trip_list 2 Examples.globals_at_start
                   Examples.trip_list Examples.paths_after_iteration_1) in
  let next := Driver.choose_pathfind_trip_list (2 + 1) g1 Examples.trip_list
                                               Examples.paths_after_iteration_1 in
  let merged := Driver.merge_pathsets Examples.trip_list Examples.paths_after_iteration_1
                  Examples.links_after_iteration_1 Examples.new_paths_iteration_2
                  Examples.new_links_iteration_2 in
  snd next = Examples.trip_list /\
  Driver.PATHFINDING_EVERYONE (fst next) = false /\
  Driver.update_pathsets (fst next) 3 (snd next) Examples.paths_after_iteration_1
                         Examples.links_after_iteration_1 Examples.new_paths_iteration_2
                         Examples.new_links_iteration_2
  = (Driver.number_of_pathsets (fst merged), merged) /\
  forall t, In t Examples.trip_list ->
    Driver.paths_of (Driver.trip_list_id_num t) (fst merged) =
    map Driver.reset_new_path
        (Driver.paths_of (Driver.trip_list_id_num t) Examples.new_paths_iteration_2).
Proof.
  split; [reflexivity|].
  apply (odd_iteration_after_even_still_merges 2 3 Examples.globals_at_start
           Examples.trip_list Examples.paths_after_iteration_1
           Examples.paths_after_iteration_1 Examples.new_paths_iteration_2
           Examples.links_after_iteration_1 Examples.new_links_iteration_2).
  reflexivity.
Defined.

(** X21: after [merge_pathsets] the requests that have not arrived are the
    requests that were just pathfound, whatever paths were found for them,
    together with the requests that had not arrived before. *)
Theorem merged_requests_not_arrived (trip_list_df pathfind_trip_list_df : list Driver.TripListRow)
  (pathset_paths_df new_pathset_paths_df : list Driver.PathRow)
  (pathset_links_df new_pathset_links_df : list Driver.LinkRow) (t : Driver.TripListRow) :
  let merged := Driver.merge_pathsets pathfind_trip_list_df pathset_paths_df
                  pathset_links_df new_pathset_paths_df new_pathset_links_df in
  In t (Driver.filter_trip_list_to_not_arrived trip_list_df (fst merged)) <->
  In t trip_list_df /\
  (In (Driver.trip_list_id_num t) (map Driver.trip_list_id_num pathfind_trip_list_df) \/
   In t (Driver.filter_trip_list_to_not_arrived trip_list_df pathset_paths_df)).
Proof.
  intros merged. unfold merged, Driver.merge_pathsets. cbn [fst].
  rewrite !filter_trip_list_to_not_arrived_spec, !filter_In.
  rewrite existsb_app, existsb_map, anti_join_filter, existsb_filter.
  rewrite (existsb_false (fun x => Driver.is_chosen (Driver.reset_new_path x) && _))
    by reflexivity.
  rewrite orb_false_r, <- in_ids_existsb.
  set (found := existsb (fun t0 => Driver.trip_list_id_num t =? Driver.trip_list_id_num t0)
                        pathfind_trip_list_df).
  assert (E : existsb
                (fun x => negb (existsb (fun t0 => Driver.path_trip_list_id_num x
                                                   =? Driver.trip_list_id_num t0)
                                        pathfind_trip_list_df)
                          && (Driver.is_chosen x
                              && (Driver.trip_list_id_num t =? Driver.path_trip_list_id_num x)))
                pathset_paths_df
              = negb found
                && existsb (fun p => Driver.is_chosen p
                                     && (Driver.trip_list_id_num t
                                         =? Driver.path_trip_list_id_num p))
                           pathset_paths_df).
  { induction pathset_paths_df as [|p ps IH]; [now rewrite andb_false_r|].
    cbn [existsb]. rewrite IH.
    destruct (Z.eqb_spec (Driver.trip_list_id_num t) (Driver.path_trip_list_id_num p))
      as [Eid|Eid].
    - rewrite <- Eid. fold found. destruct found, (Driver.is_chosen p); reflexivity.
    - rewrite !andb_false_r. cbn [orb]. reflexivity. }
  rewrite E. destruct found; cbn [negb andb].
  - intuition.
  - intuition discriminate.
Qed.

(** X22: the worker count of [generate_pathsets], for at least one request
    to pathfind.  It is never above the configured count nor above three
    workers per request; it stays the configured count up to three times the
    requests, and beyond that it is the third of the requests, so that every
    worker has three; with one process configured there is no pool. *)
Theorem worker_count_bounds (NUMBER_OF_PROCESSES cpu_count est_paths_to_find : Z) :
  0 < est_paths_to_find ->
  let configured := if NUMBER_OF_PROCESSES <? 1 then cpu_count else NUMBER_OF_PROCESSES in
  let n := Driver.num_processes_for NUMBER_OF_PROCESSES cpu_count est_paths_to_find in
  n <= configured /\ n <= 3 * est_paths_to_find /\
  (configured <= 3 * est_paths_to_find -> n = configured) /\
  (3 * est_paths_to_find < configured -> n = est_paths_to_find / 3 /\ 3 * n <= est_paths_to_find) /\
  (NUMBER_OF_PROCESSES = 1 ->
   Driver.uses_pool NUMBER_OF_PROCESSES cpu_count est_paths_to_find = false).
Proof.
  intros Hest configured n.
  assert (Hdiv : 3 * (est_paths_to_find / 3) <= est_paths_to_find)
    by (apply Z.mul_div_le; lia).
  unfold n, Driver.uses_pool, Driver.num_processes_for. fold configured.
  destruct (Z.ltb_spec (est_paths_to_find * 3) configured) as [H|H].
  - repeat split; try lia.
    intros ->. unfold configured in H. simpl in H. lia.
  - repeat split; try lia.
    intros ->. reflexivity.
Qed.

Lemma worker_count_bounds_witness :
  0 < 2 /\
  let configured := if 8 <? 1 then 4 else 8 in
  let n := Driver.num_processes_for 8 4 2 in
  n <= configured /\ n <= 3 * 2 /\
  (configured <= 3 * 2 -> n = configured) /\
  (3 * 2 < configured -> n = 2 / 3 /\ 3 * n <= 2) /\
  (8 = 1 -> Driver.uses_pool 8 4 2 = false).
Proof.
  split; [lia|]. apply (worker_count_bounds 8 4 2). lia.
Defined.

(** X23: with at least one pathset found and between none and all of the
    passengers arrived, the capacity gap reported lies between 0 and 100, and
    it is 0 exactly when everybody arrived. *)
Theorem capacity_gap_range (num_paths_found num_passengers_arrived : Z) :
  0 < num_paths_found ->
  0 <= num_passengers_arrived <= num_paths_found ->
  exists gap,
    Driver.capacity_gap_of num_paths_found num_passengers_arrived = Py.Ok gap /\
    (0 <= gap)%Q /\ (gap <= 100)%Q /\
    ((gap == 0)%Q <-> num_passengers_arrived = num_paths_found).
Proof.
  intros Hpos Hrange. unfold Driver.capacity_gap_of.
  replace (0 <? num_paths_found) with true by (symmetry; now apply Z.ltb_lt).
  rewrite truediv_ok by lia. eexists. split; [reflexivity|].
  set (b := num_paths_found - num_passengers_arrived).
  assert (Hb : 0 <= b <= num_paths_found) by (unfold b; lia).
  assert (Hf : (0 < inject_Z num_paths_found)%Q)
    by (unfold Qlt; simpl; lia).
  split; [|split].
  - apply Qle_shift_div_l; [assumption|]. rewrite Qmult_0_l.
    change 0%Q with (100 * 0)%Q. apply Qmult_le_l; [reflexivity|].
    unfold Qle; simpl; lia.
  - apply Qle_shift_div_r; [assumption|]. apply Qmult_le_l; [reflexivity|].
    unfold Qle; simpl; lia.
  - split.
    + intros E.
      assert (E' : (100 * inject_Z b == 0)%Q).
      { rewrite <- (Qmult_div_r (100 * inject_Z b) (inject_Z num_paths_found))
          by (intros X; rewrite X in Hf; discriminate).
        rewrite E. apply Qmult_0_r. }
      unfold Qeq, Qmult, inject_Z in E'. cbn [Qnum Qden Pos.mul] in E'.
      unfold b in E'. lia.
    + intros E. unfold b. rewrite E, Z.sub_diag. reflexivity.
Qed.

Lemma capacity_gap_range_witness :
  0 < 4 /\ 0 <= 3 <= 4 /\
  exists gap,
    Driver.capacity_gap_of 4 3 = Py.Ok gap /\
    (0 <= gap)%Q /\ (gap <= 100)%Q /\ ((gap == 0)%Q <-> 3 = 4).
Proof.
  split; [lia|]. split; [lia|]. apply (capacity_gap_range 4 3); lia.
Defined.

(** X24: the interrupt handler of [generate_pathsets] never terminates a
    worker.  Whatever the process table and the running processes, the same
    processes run afterwards; the handler reaches [sys.exit(2)] only when the
    table is empty, and otherwise leaves with the AttributeError of calling
    [terminate] on the table's first key. *)
Theorem interrupt_handler_terminates_nobody (process_dict : Driver.ProcessDict)
  (running : Driver.Running) :
  fst (Driver.on_keyboard_interrupt process_dict running) = running /\
  (snd (Driver.on_keyboard_interrupt process_dict running) = Py.SystemExit 2 <->
   process_dict = []) /\
  (process_dict <> [] ->
   snd (Driver.on_keyboard_interrupt process_dict running) = Py.AttributeError) /\
  forall at_, fst (Driver.interrupt_outcome at_ process_dict running) = running.
Proof.
  destruct process_dict as [|[k w] rest].
  - repeat split; try reflexivity; try congruence. intros []; reflexivity.
  - rewrite on_keyboard_interrupt_workers. cbn [fst snd]. repeat split;
      try discriminate.
    intros []; [reflexivity|]. unfold Driver.interrupt_outcome.
    now rewrite on_keyboard_interrupt_workers.
Qed.

(** ** The trip list of iteration 1 *)

(** X25: the trip list after the first iteration's filters.  Every request
    kept was in the list, is of a traced person when only traced persons are
    wanted, and is of no skipped person; without trace-only and with a
    positive DEBUG_NUM_TRIPS at most that many requests are kept; the loop of
    [generate_pathsets] then skips no request for being untraced; and no
    other iteration touches the list. *)
Theorem first_iteration_trip_list (g : Driver.Globals) (d : Prepare.DebugSettings)
  (trip_list_df : list Driver.TripListRow) :
  let prepared := Prepare.prepare_trip_list 1 g d trip_list_df in
  (forall t, In t prepared ->
     In t trip_list_df /\
     (Driver.DEBUG_TRACE_ONLY g = true ->
      Prepare.isin (Driver.TRACE_PERSON_IDS g) t = true) /\
     (forall skip, Prepare.SKIP_PERSON_IDS d = Some skip -> Prepare.isin skip t = false)) /\
  (Driver.DEBUG_TRACE_ONLY g = false -> 0 < Prepare.DEBUG_NUM_TRIPS d ->
   Z.of_nat (List.length prepared) <= Prepare.DEBUG_NUM_TRIPS d) /\
  Driver.requests_searched g prepared = filter Driver.goes_somewhere prepared /\
  forall iteration, iteration <> 1 ->
    Prepare.prepare_trip_list iteration g d trip_list_df = trip_list_df.
Proof.
  intros prepared.
  set (first_cut :=
         if Driver.DEBUG_TRACE_ONLY g
         then filter (Prepare.isin (Driver.TRACE_PERSON_IDS g)) trip_list_df
         else if (0 <? Prepare.DEBUG_NUM_TRIPS d)
                 && (Prepare.DEBUG_NUM_TRIPS d <? Z.of_nat (List.length trip_list_df))
              then firstn (Z.to_nat (Prepare.DEBUG_NUM_TRIPS d)) trip_list_df
              else trip_list_df).
  assert (Hprep : prepared =
                  match Prepare.SKIP_PERSON_IDS d with
                  | Some ((_ :: _) as skip) =>
                      filter (fun t => negb (Prepare.isin skip t)) first_cut
                  | _ => first_cut
                  end) by reflexivity.
  assert (Hsub : forall t, In t prepared -> In t first_cut).
  { intros t. rewrite Hprep. destruct (Prepare.SKIP_PERSON_IDS d) as [[|x skip]|]; auto.
    intros H. now apply filter_In in H. }
  assert (Hlen : (List.length prepared <= List.length first_cut)%nat).
  { rewrite Hprep. destruct (Prepare.SKIP_PERSON_IDS d) as [[|x skip]|]; auto.
    apply filter_length_le. }
  assert (Htrace : forall t, In t prepared -> Driver.DEBUG_TRACE_ONLY g = true ->
                     Prepare.isin (Driver.TRACE_PERSON_IDS g) t = true).
  { intros t Ht Hon. apply Hsub in Ht. unfold first_cut in Ht. rewrite Hon in Ht.
    now apply filter_In in Ht. }
  split; [|split; [|split]].
  - intros t Ht. split; [|split].
    + apply Hsub in Ht. unfold first_cut in Ht.
      destruct (Driver.DEBUG_TRACE_ONLY g); [now apply filter_In in Ht|].
      destruct (_ && _); [|assumption].
      rewrite <- (firstn_skipn (Z.to_nat (Prepare.DEBUG_NUM_TRIPS d)) trip_list_df).
      apply in_or_app. now left.
    + now apply Htrace.
    + intros skip Hskip. rewrite Hprep, Hskip in Ht. destruct skip as [|x skip];
        [reflexivity|].
      apply filter_In in Ht as [_ Ht]. now apply negb_true_iff in Ht.
  - intros Hoff Hpos. apply Nat2Z.inj_le in Hlen. unfold first_cut in Hlen.
    rewrite Hoff in Hlen.
    destruct (Z.ltb_spec 0 (Prepare.DEBUG_NUM_TRIPS d)); [|lia]. cbn [andb] in Hlen.
    destruct (Z.ltb_spec (Prepare.DEBUG_NUM_TRIPS d) (Z.of_nat (List.length trip_list_df))).
    + rewrite length_firstn in Hlen. lia.
    + lia.
  - unfold Driver.requests_searched. apply filter_ext_in. intros t Ht.
    destruct (Driver.DEBUG_TRACE_ONLY g) eqn:Hon; [|reflexivity].
    specialize (Htrace t Ht eq_refl). unfold Prepare.isin in Htrace. now rewrite Htrace.
  - intros iteration Hit. unfold Prepare.prepare_trip_list.
    now replace (iteration =? 1) with false by (symmetry; now apply Z.eqb_neq).
Qed.

(** ** The path dictionary of [find_trip_based_pathset] *)

Section PathDictFacts.
Import PathDict.
Variable hyperpath : bool.

Lemma take_states_spec (k : Z) (rows : list RetRow) :
  exists taken,
    take_states hyperpath k rows
    = (map (state_of hyperpath) taken, snd (take_states hyperpath k rows)) /\
    rows = taken ++ snd (take_states hyperpath k rows) /\
    Forall (fun r => ret_path_num r = k) taken.
Proof.
  induction rows as [|r rest IH].
  - exists []. repeat split. constructor.
  - cbn [take_states]. destruct (Z.eqb_spec (ret_path_num r) k) as [E|E].
    + destruct IH as (taken & Htake & Hrows & Hall).
      destruct (take_states hyperpath k rest) as [states later]. cbn [snd] in *.
      injection Htake as ->. exists (r :: taken). repeat split.
      * cbn. now f_equal.
      * now constructor.
    + exists []. repeat split. constructor.
Qed.

Lemma take_states_order (k hi : Z) (rows : list RetRow) :
  k < hi ->
  in_path_order k hi (map ret_path_num rows)
  = in_path_order (k + 1) hi (map ret_path_num (snd (take_states hyperpath k rows))).
Proof.
  intros Hk. induction rows as [|r rest IH]; [reflexivity|].
  cbn [take_states]. destruct (Z.eqb_spec (ret_path_num r) k) as [E|E].
  - destruct (take_states hyperpath k rest) as [states later]. cbn [snd] in *.
    cbn [map in_path_order]. rewrite E, IH.
    replace (k <=? k) with true by (symmetry; apply Z.leb_le; lia).
    replace (k <? hi) with true by (symmetry; apply Z.ltb_lt; lia). reflexivity.
  - cbn [snd map in_path_order]. f_equal. f_equal.
    destruct (Z.leb_spec k (ret_path_num r)), (Z.leb_spec (k + 1) (ret_path_num r));
      try reflexivity; lia.
Qed.

Lemma in_path_order_lower (lo hi : Z) (nums : list Z) :
  in_path_order lo hi nums = true -> Forall (fun x => lo <= x) nums.
Proof.
  revert lo. induction nums as [|x nums IH]; intros lo H; [constructor|].
  cbn [in_path_order] in H. apply andb_true_iff in H as [H Hrest].
  apply andb_true_iff in H as [Hlo _]. apply Z.leb_le in Hlo.
  constructor; [assumption|].
  apply IH in Hrest. eapply Forall_impl; [|exact Hrest]. cbv beta. intros; lia.
Qed.

Lemma fill_pathdict_keys (path_costs : list (Q * Q)) (k : Z) (rows : list RetRow) :
  map fst (fst (fill_pathdict hyperpath k path_costs rows))
  = map (fun i => k + Z.of_nat i) (seq 0 (List.length path_costs)) /\
  map (fun ke => (PATH_KEY_COST (snd ke), PATH_KEY_PROBABILITY (snd ke)))
      (fst (fill_pathdict hyperpath k path_costs rows)) = path_costs.
Proof.
  revert k rows. induction path_costs as [|[c p] more IH]; intros k rows;
    [split; reflexivity|].
  cbn [fill_pathdict]. destruct (take_states hyperpath k rows) as [states later].
  specialize (IH (k + 1) later).
  destruct (fill_pathdict hyperpath (k + 1) more later) as [d unread].
  cbn [fst snd map List.length seq] in *. destruct IH as [IH1 IH2]. split.
  - f_equal; [lia|]. rewrite IH1, <- seq_shift, map_map. apply map_ext. intros i. lia.
  - now f_equal.
Qed.

Lemma fill_pathdict_groups (path_costs : list (Q * Q)) (k : Z) (rows : list RetRow) :
  exists groups,
    map (fun ke => PATH_KEY_STATES (snd ke)) (fst (fill_pathdict hyperpath k path_costs rows))
    = map (map (state_of hyperpath)) groups /\
    concat groups ++ snd (fill_pathdict hyperpath k path_costs rows) = rows /\
    Forall2 (fun key group => Forall (fun r => ret_path_num r = key) group)
            (map fst (fst (fill_pathdict hyperpath k path_costs rows))) groups.
Proof.
  revert k rows. induction path_costs as [|[c p] more IH]; intros k rows.
  - exists []. repeat split. constructor.
  - cbn [fill_pathdict].
    destruct (take_states_spec k rows) as (taken & Htake & Hrows & Hall).
    destruct (take_states hyperpath k rows) as [states later]. cbn [snd] in *.
    injection Htake as ->.
    destruct (IH (k + 1) later) as (groups & Hstates & Hconcat & Hkeys).
    destruct (fill_pathdict hyperpath (k + 1) more later) as [d unread].
    cbn [fst snd map] in *. exists (taken :: groups). split; [|split].
    + cbn [map snd PATH_KEY_STATES]. now f_equal.
    + cbn [concat]. rewrite <- app_assoc, Hconcat. now symmetry.
    + now constructor.
Qed.

Lemma fill_pathdict_unread (path_costs : list (Q * Q)) (k : Z) (rows : list RetRow) :
  snd (fill_pathdict hyperpath k path_costs rows) = [] <->
  in_path_order k (k + Z.of_nat (List.length path_costs)) (map ret_path_num rows) = true.
Proof.
  revert k rows. induction path_costs as [|[c p] more IH]; intros k rows.
  - cbn [fill_pathdict snd List.length]. destruct rows as [|r rest]; [tauto|].
    cbn [map in_path_order]. split; [discriminate|]. intros H. exfalso.
    apply andb_true_iff in H as [H _]. apply andb_true_iff in H as [H1 H2].
    apply Z.leb_le in H1. apply Z.ltb_lt in H2. lia.
  - cbn [fill_pathdict].
    rewrite (take_states_order k (k + Z.of_nat (List.length ((c, p) :: more))) rows)
      by (cbn [List.length]; lia).
    destruct (take_states hyperpath k rows) as [states later]. cbn [snd].
    specialize (IH (k + 1) later).
    destruct (fill_pathdict hyperpath (k + 1) more later) as [d unread].
    cbn [snd] in *. rewrite IH.
    replace (k + 1 + Z.of_nat (List.length more))
      with (k + Z.of_nat (List.length ((c, p) :: more))) by (cbn [List.length]; lia).
    tauto.
Qed.

Lemma fill_pathdict_ordered (path_costs : list (Q * Q)) (k : Z) (rows : list RetRow) :
  in_path_order k (k + Z.of_nat (List.length path_costs)) (map ret_path_num rows) = true ->
  forall key entry,
    In (key, entry) (fst (fill_pathdict hyperpath k path_costs rows)) ->
    PATH_KEY_STATES entry
    = map (state_of hyperpath) (filter (fun r => ret_path_num r =? key) rows).
Proof.
  revert k rows. induction path_costs as [|[c p] more IH]; intros k rows Hord key entry Hin;
    [destruct Hin|].
  pose proof (fill_pathdict_keys more (k + 1) (snd (take_states hyperpath k rows)))
    as [Hkeys _].
  rewrite (take_states_order k _ rows) in Hord by (cbn [List.length]; lia).
  replace (k + Z.of_nat (List.length ((c, p) :: more)))
    with (k + 1 + Z.of_nat (List.length more)) in Hord by (cbn [List.length]; lia).
  cbn [fill_pathdict] in Hin.
  destruct (take_states_spec k rows) as (taken & Htake & Hrows & Hall).
  destruct (take_states hyperpath k rows) as [states later]. cbn [snd] in *.
  injection Htake as ->.
  specialize (IH (k + 1) later Hord key entry).
  destruct (fill_pathdict hyperpath (k + 1) more later) as [d unread]. cbn [fst] in *.
  assert (Hlater : Forall (fun r => k + 1 <= ret_path_num r) later).
  { apply in_path_order_lower in Hord. rewrite Forall_map in Hord. exact Hord. }
  rewrite Hrows, filter_app. destruct Hin as [[= <- <-]|Hin].
  - cbn [PATH_KEY_STATES]. rewrite (filter_none _ later), app_nil_r.
    + f_equal. symmetry. apply forallb_filter_id. apply forallb_forall.
      rewrite Forall_forall in Hall. intros r Hr. apply Z.eqb_eq. now apply Hall.
    + rewrite Forall_forall in Hlater. intros r Hr. apply Z.eqb_neq.
      specialize (Hlater r Hr). cbv beta in Hlater. lia.
  - rewrite (filter_none _ taken); [now apply IH|].
    assert (Hkey : In key (map fst d)) by (apply in_map_iff; exists (key, entry); auto).
    rewrite Hkeys in Hkey. apply in_map_iff in Hkey as (i & <- & _).
    rewrite Forall_forall in Hall. intros r Hr. apply Z.eqb_neq. rewrite (Hall r Hr). lia.
Qed.

End PathDictFacts.

(** X26: [find_trip_based_pathset] gives every path of path_costs an entry,
    numbered from 0 in order, with its cost and probability; the states of
    the entries are the returned rows taken in order, each under the path
    number of its row, up to the first row that is out of turn; and no row
    is left over exactly when the path numbers of the rows never go down and
    are numbers of paths. *)
Theorem pathdict_takes_rows_in_order (hyperpath : bool) (path_costs : list (Q * Q))
  (rows : list PathDict.RetRow) :
  let pathdict := PathDict.pathdict_of hyperpath path_costs rows in
  let unread := PathDict.unread_rows hyperpath path_costs rows in
  map fst pathdict = map Z.of_nat (seq 0 (List.length path_costs)) /\
  map (fun ke => (PathDict.PATH_KEY_COST (snd ke), PathDict.PATH_KEY_PROBABILITY (snd ke)))
      pathdict = path_costs /\
  (exists groups,
     map (fun ke => PathDict.PATH_KEY_STATES (snd ke)) pathdict
     = map (map (PathDict.state_of hyperpath)) groups /\
     concat groups ++ unread = rows /\
     Forall2 (fun key group => Forall (fun r => PathDict.ret_path_num r = key) group)
             (map fst pathdict) groups) /\
  (unread = [] <->
   PathDict.in_path_order 0 (Z.of_nat (List.length path_costs))
                          (map PathDict.ret_path_num rows) = true).
Proof.
  intros pathdict unread. unfold pathdict, unread, PathDict.pathdict_of, PathDict.unread_rows.
  destruct (fill_pathdict_keys hyperpath path_costs 0 rows) as [Hkeys Hcosts].
  split; [|split; [|split]].
  - rewrite Hkeys. apply map_ext. intros i. lia.
  - exact Hcosts.
  - apply fill_pathdict_groups.
  - apply (fill_pathdict_unread hyperpath path_costs 0 rows).
Qed.

(** X27: when the path numbers of the returned rows never go down and are
    numbers of paths, the states of path k are the rows of path k, all of
    them and in their order. *)
Theorem pathdict_of_ordered_rows (hyperpath : bool) (path_costs : list (Q * Q))
  (rows : list PathDict.RetRow) :
  PathDict.in_path_order 0 (Z.of_nat (List.length path_costs))
                         (map PathDict.ret_path_num rows) = true ->
  forall key entry,
    In (key, entry) (PathDict.pathdict_of hyperpath path_costs rows) ->
    PathDict.PATH_KEY_STATES entry
    = map (PathDict.state_of hyperpath)
          (filter (fun r => PathDict.ret_path_num r =? key) rows).
Proof.
  intros Hord. apply (fill_pathdict_ordered hyperpath path_costs 0 rows). exact Hord.
Qed.

Lemma pathdict_of_ordered_rows_witness :
  PathDict.in_path_order 0 (Z.of_nat (List.length MoreExamples.two_path_costs))
                         (map PathDict.ret_path_num MoreExamples.three_rows) = true /\
  forall key entry,
    In (key, entry) (PathDict.pathdict_of false MoreExamples.two_path_costs
                                          MoreExamples.three_rows) ->
    PathDict.PATH_KEY_STATES entry
    = map (PathDict.state_of false)
          (filter (fun r => PathDict.ret_path_num r =? key) MoreExamples.three_rows).
Proof.
  split; [reflexivity|].
  apply (pathdict_of_ordered_rows false MoreExamples.two_path_costs MoreExamples.three_rows).
  reflexivity.
Defined.

(** ** Workers and the result loop of [generate_pathsets] *)

Section WorkerFacts.
Import Workers.

Lemma lookup_store_same (w : Z) (e e0 : Entry) (t : Table) :
  lookup w t = Some e0 -> lookup w (store w e t) = Some e.
Proof.
  induction t as [|[k x] t IH]; [discriminate|]. cbn [lookup store].
  destruct (Z.eqb_spec k w) as [E|E]; cbn [lookup].
  - intros _. now rewrite (proj2 (Z.eqb_eq k w) E).
  - intros H. rewrite (proj2 (Z.eqb_neq k w) E). now apply IH.
Qed.

Lemma lookup_store_other (w w' : Z) (e : Entry) (t : Table) :
  w <> w' -> lookup w (store w' e t) = lookup w t.
Proof.
  intros Hne. induction t as [|[k x] t IH]; [reflexivity|]. cbn [lookup store].
  destruct (Z.eqb_spec k w') as [E|E]; cbn [lookup].
  - subst k. now rewrite (proj2 (Z.eqb_neq w' w)) by congruence.
  - now rewrite IH.
Qed.

(** key, process and liveness of every entry: what no result changes *)
Lemma store_liveness (w : Z) (e e0 : Entry) (t : Table) :
  lookup w t = Some e0 -> process e = process e0 -> alive e = alive e0 ->
  map (fun ke => (fst ke, process (snd ke), alive (snd ke))) (store w e t)
  = map (fun ke => (fst ke, process (snd ke), alive (snd ke))) t.
Proof.
  induction t as [|[k x] t IH]; [reflexivity|]. cbn [lookup store].
  destruct (Z.eqb_spec k w) as [E|E]; cbn [map fst snd].
  - intros [= ->] -> ->. reflexivity.
  - intros H Hp Ha. now rewrite IH.
Qed.

Lemma handle_result_liveness (m : Message) (st : Collecting) :
  map (fun ke => (fst ke, process (snd ke), alive (snd ke)))
      (process_dict (handle_result m st))
  = map (fun ke => (fst ke, process (snd ke), alive (snd ke))) (process_dict st) /\
  done_procs (handle_result m st) = done_procs st /\
  num_paths_found_now (handle_result m st)
  = num_paths_found_now st + found_in [m].
Proof.
  destruct m as [w|w p id|w id found|w]; cbn [handle_result found_in filter List.length].
  - destruct (lookup w (process_dict st)) as [e|] eqn:E; cbn; repeat split; try lia.
    now apply (store_liveness w _ e).
  - destruct (lookup w (process_dict st)) as [e|] eqn:E; cbn; repeat split; try lia.
    now apply (store_liveness w _ e).
  - cbn [process_dict].
    destruct (lookup w (process_dict st)) as [e|] eqn:E;
      [destruct (working_on e)|]; destruct found; cbn; repeat split; try lia;
      now apply (store_liveness w _ e).
  - cbn. repeat split. lia.
Qed.

Lemma found_in_cons (m : Message) (ms : list Message) :
  found_in (m :: ms) = found_in [m] + found_in ms.
Proof.
  unfold found_in. cbn [filter].
  destruct (match m with Completed _ _ found => found | _ => false end);
    cbn [List.length]; lia.
Qed.

Lemma collect_liveness (ms : list Message) (st : Collecting) :
  map (fun ke => (fst ke, process (snd ke), alive (snd ke))) (process_dict (collect ms st))
  = map (fun ke => (fst ke, process (snd ke), alive (snd ke))) (process_dict st) /\
  done_procs (collect ms st) = done_procs st /\
  num_paths_found_now (collect ms st) = num_paths_found_now st + found_in ms.
Proof.
  revert st. induction ms as [|m ms IH]; intros st.
  - cbn. repeat split. lia.
  - change (collect (m :: ms) st) with (collect ms (handle_result m st)).
    destruct (IH (handle_result m st)) as (H1 & H2 & H3).
    destruct (handle_result_liveness m st) as (G1 & G2 & G3).
    rewrite H1, H2, H3, G1, G2, G3, (found_in_cons m ms). repeat split. lia.
Qed.

(** a result changes the entry of its sender and no other *)
Lemma lookup_handle_result (w : Z) (m : Message) (st : Collecting) :
  lookup w (process_dict (handle_result m st))
  = if sender m =? w
    then option_map (fun e => entry_after e m) (lookup w (process_dict st))
    else lookup w (process_dict st).
Proof.
  destruct (Z.eqb_spec (sender m) w) as [E|E].
  - subst w. destruct m as [w|w p id|w id found|w]; cbn [handle_result sender entry_after].
    + destruct (lookup w (process_dict st)) as [e|] eqn:El; cbn [option_map];
        [|assumption]. cbn. now apply (lookup_store_same w _ e).
    + destruct (lookup w (process_dict st)) as [e|] eqn:El; cbn [option_map];
        [|assumption]. cbn. now apply (lookup_store_same w _ e).
    + cbn [process_dict].
      destruct (lookup w (process_dict st)) as [e|] eqn:El; cbn [option_map];
        [|assumption].
      destruct (working_on e) eqn:Ew; cbn.
      * now apply (lookup_store_same w _ e).
      * rewrite El. f_equal. destruct e. cbn in *. now subst.
    + now destruct (lookup w (process_dict st)).
  - destruct m as [w'|w' p id|w' id found|w']; cbn [handle_result sender] in *;
      try reflexivity.
    + destruct (lookup w' (process_dict st)); [|reflexivity]. cbn.
      apply lookup_store_other. congruence.
    + destruct (lookup w' (process_dict st)); [|reflexivity]. cbn.
      apply lookup_store_other. congruence.
    + cbn [process_dict]. destruct (lookup w' (process_dict st)) as [e|]; [|reflexivity].
      destruct (working_on e); [|reflexivity]. cbn.
      apply lookup_store_other. congruence.
Qed.

Lemma lookup_collect (w : Z) (ms : list Message) (st : Collecting) :
  lookup w (process_dict (collect ms st))
  = option_map (fun e => fold_left entry_after (filter (fun m => sender m =? w) ms) e)
               (lookup w (process_dict st)).
Proof.
  revert st. induction ms as [|m ms IH]; intros st.
  - cbn. now destruct (lookup w (process_dict st)).
  - change (collect (m :: ms) st) with (collect ms (handle_result m st)).
    rewrite IH, lookup_handle_result. cbn [filter].
    destruct (sender m =? w); [|reflexivity].
    now destruct (lookup w (process_dict st)).
Qed.

(** the entry of a worker after all that it sent *)
Lemma entry_after_run (find : Z -> option bool) (w : Z) (todo : list Todo)
  (p : nat) (a : bool) :
  fold_left entry_after (fst (find_trip_based_paths_process_worker find w todo))
            (mkEntry p a false None)
  = match fate_of find todo with
    | Finished => mkEntry p a true None
    | Failed person_id trip_list_id_num =>
        mkEntry p a false (Some (person_id, trip_list_id_num))
    | StillWaiting => mkEntry p a false None
    end.
Proof.
  induction todo as [|[|person id] rest IH]; [reflexivity|reflexivity|].
  cbn [find_trip_based_paths_process_worker fate_of].
  destruct (find id) as [found|]; [|reflexivity].
  destruct (find_trip_based_paths_process_worker find w rest) as [ms e].
  cbn [fst fold_left entry_after process alive done] in *. exact IH.
Qed.

Lemma lookup_In (w : Z) (e : Entry) (t : Table) : lookup w t = Some e -> In (w, e) t.
Proof.
  induction t as [|[k x] t IH]; [discriminate|]. cbn [lookup].
  destruct (Z.eqb_spec k w) as [E|E].
  - intros [= ->]. subst k. now left.
  - intros H. right. now apply IH.
Qed.

Lemma lookup_unique (w : Z) (e e' : Entry) (t : Table) :
  NoDup (map fst t) -> lookup w t = Some e -> In (w, e') t -> e' = e.
Proof.
  intros Hnd Hl Hin. apply lookup_In in Hl.
  assert (E : (w, e') = (w, e)) by (apply (NoDup_map_inj fst t); auto).
  congruence.
Qed.

(** the liveness check *)
Lemma check_alive_spec (running : list nat) (t : Table) :
  map fst (fst (check_alive running t)) = map fst t /\
  map (fun ke => process (snd ke)) (fst (check_alive running t))
  = map (fun ke => process (snd ke)) t /\
  Z.of_nat (List.length (not_alive (fst (check_alive running t))))
  = Z.of_nat (List.length (not_alive t)) + snd (check_alive running t) /\
  ((forall ke, In ke t -> ~ In (process (snd ke)) running) ->
   forall ke, In ke (fst (check_alive running t)) -> alive (snd ke) = false).
Proof.
  induction t as [|[k e] t IH]; [cbn; repeat split; try lia; intros _ ke []|].
  cbn [check_alive]. destruct (check_alive running t) as [t' n].
  cbn [fst snd] in IH. destruct IH as (IH1 & IH2 & IH3 & IH4).
  destruct (alive e) eqn:Ea; cbn [andb].
  - destruct (existsb (Nat.eqb (process e)) running) eqn:Er; cbn [negb fst snd map].
    + unfold not_alive in *. cbn [filter snd]. rewrite Ea. cbn [negb].
      repeat split; [now f_equal|now f_equal|assumption|].
      intros Hdead ke Hke. exfalso. apply (Hdead (k, e)); [now left|].
      apply existsb_exists in Er as (q & Hq & E). apply Nat.eqb_eq in E.
      cbn [snd]. now rewrite E.
    + unfold not_alive in *. cbn [filter snd alive process]. rewrite Ea. cbn [negb List.length].
      repeat split; [now f_equal|now f_equal|lia|].
      intros Hdead ke [<-|Hke]; [reflexivity|].
      apply IH4; [|assumption]. intros x Hx. apply Hdead. now right.
  - cbn [fst snd map]. unfold not_alive in *. cbn [filter snd]. rewrite Ea.
    cbn [negb List.length].
    repeat split; [now f_equal|now f_equal|lia|].
    intros Hdead ke [<-|Hke]; [assumption|].
    apply IH4; [|assumption]. intros x Hx. apply Hdead. now right.
Qed.

Lemma not_alive_liveness (t t' : Table) :
  map (fun ke => (fst ke, process (snd ke), alive (snd ke))) t'
  = map (fun ke => (fst ke, process (snd ke), alive (snd ke))) t ->
  List.length (not_alive t') = List.length (not_alive t) /\
  List.length t' = List.length t /\
  map (fun ke => process (snd ke)) t' = map (fun ke => process (snd ke)) t.
Proof.
  intros H. split; [|split].
  - assert (E : forall u : Table,
               List.length (not_alive u)
               = List.length (filter (fun x : Z * nat * bool => negb (snd x))
                                (map (fun ke => (fst ke, process (snd ke), alive (snd ke))) u)))
      by (intros u; unfold not_alive; now rewrite filter_map_length).
    now rewrite !E, H.
  - apply (f_equal (@List.length _)) in H. now rewrite !length_map in H.
  - apply (f_equal (map (fun x : Z * nat * bool => snd (fst x)))) in H.
    now rewrite !map_map in H.
Qed.

(** every turn of the loop keeps [done_procs] the count of the entries marked
    not alive *)
Lemma turn_counted (tick : Tick) (st : Collecting) :
  counted st ->
  counted (turn tick st) /\
  List.length (process_dict (turn tick st)) = List.length (process_dict st) /\
  map (fun ke => process (snd ke)) (process_dict (turn tick st))
  = map (fun ke => process (snd ke)) (process_dict st) /\
  ((forall ke, In ke (process_dict st) -> ~ In (process (snd ke)) (snd tick)) ->
   forall ke, In ke (process_dict (turn tick st)) -> alive (snd ke) = false).
Proof.
  unfold counted. intros Hc. unfold turn.
  set (st1 := match fst tick with Some result => handle_result result st | None => st end).
  assert (H1 : map (fun ke => (fst ke, process (snd ke), alive (snd ke))) (process_dict st1)
               = map (fun ke => (fst ke, process (snd ke), alive (snd ke))) (process_dict st)
               /\ done_procs st1 = done_procs st).
  { unfold st1. destruct (fst tick) as [m|]; [|split; reflexivity].
    destruct (handle_result_liveness m st) as (G1 & G2 & _). now split. }
  destruct H1 as [Hlive Hdone].
  destruct (not_alive_liveness _ _ Hlive) as (Hn & Hlen & Hproc).
  destruct (check_alive_spec (snd tick) (process_dict st1)) as (C1 & C2 & C3 & C4).
  destruct (check_alive (snd tick) (process_dict st1)) as [t' n].
  cbn [fst snd process_dict done_procs] in *. repeat split.
  - rewrite C3, Hn, Hdone, Hc. reflexivity.
  - apply (f_equal (@List.length _)) in C1. rewrite !length_map in C1. congruence.
  - congruence.
  - intros Hdead. apply C4. intros ke Hke.
    assert (Hp : In (process (snd ke)) (map (fun ke => process (snd ke)) (process_dict st1)))
      by (apply in_map_iff; eauto).
    rewrite Hproc in Hp. apply in_map_iff in Hp as (ke0 & <- & Hke0). now apply Hdead.
Qed.

Lemma all_dead_counted (t : Table) :
  (forall ke, In ke t -> alive (snd ke) = false) <->
  List.length (not_alive t) = List.length t.
Proof.
  unfold not_alive. induction t as [|ke t IH]; [cbn; tauto|].
  cbn [filter List.length].
  pose proof (filter_length_le (fun ke => negb (alive (snd ke))) t) as Hle.
  destruct (alive (snd ke)) eqn:Ea; cbn [negb List.length].
  - split; [|lia]. intros H. specialize (H ke (or_introl eq_refl)). congruence.
  - split.
    + intros H. f_equal. apply IH. intros x Hx. apply H. now right.
    + intros H x [<-|Hx]; [assumption|]. apply IH; [lia|assumption].
Qed.

Lemma started_counted (processes : list (Z * nat)) (n : Z) :
  counted (mkCollecting (started processes) n 0).
Proof.
  unfold counted, started, not_alive. cbn [done_procs process_dict].
  rewrite filter_none; [reflexivity|].
  intros ke Hke. apply in_map_iff in Hke as (kp & <- & _). reflexivity.
Qed.

End WorkerFacts.

Section LoopEnds.
Import Workers.

Lemma get_results_done (ticks : list Tick) (st : Collecting) :
  (done_procs st <? Z.of_nat (List.length (process_dict st))) = false ->
  get_results ticks st = Some (st, ticks).
Proof. intros H. destruct ticks; cbn [get_results]; now rewrite H. Qed.

Lemma turn_found (tick : Tick) (st : Collecting) :
  num_paths_found_now (turn tick st) = num_paths_found_now st + found_in (results_of [tick]).
Proof.
  unfold turn, results_of. cbn [flat_map]. rewrite app_nil_r.
  destruct (fst tick) as [m|].
  - destruct (handle_result_liveness m st) as (_ & _ & H).
    destruct (check_alive (snd tick) (process_dict (handle_result m st))).
    cbn [num_paths_found_now]. exact H.
  - destruct (check_alive (snd tick) (process_dict st)). cbn. lia.
Qed.

Lemma found_in_app (ms ms' : list Message) :
  found_in (ms ++ ms') = found_in ms + found_in ms'.
Proof. unfold found_in. rewrite filter_app, length_app. lia. Qed.

Lemma counted_all_dead (st : Collecting) :
  counted st ->
  (done_procs st <? Z.of_nat (List.length (process_dict st))) = false ->
  (forall ke, In ke (process_dict st) -> alive (snd ke) = false) /\
  done_procs st = Z.of_nat (List.length (process_dict st)).
Proof.
  unfold counted. intros Hc Hdone. apply Z.ltb_ge in Hdone.
  pose proof (filter_length_le (fun ke => negb (alive (snd ke))) (process_dict st)) as Hle.
  fold (not_alive (process_dict st)) in Hle.
  assert (E : List.length (not_alive (process_dict st)) = List.length (process_dict st))
    by lia.
  split; [now apply all_dead_counted|lia].
Qed.

Lemma get_results_ends (ticks : list Tick) (i : nat) (tick : Tick) (st : Collecting) :
  counted st ->
  nth_error ticks i = Some tick ->
  (forall p, In p (map (fun ke => process (snd ke)) (process_dict st)) ->
             ~ In p (snd tick)) ->
  exists taken unread,
    get_results ticks st = Some (turns taken st, unread) /\
    ticks = taken ++ unread /\
    (List.length taken <= S i)%nat /\
    counted (turns taken st) /\
    (done_procs (turns taken st) <? Z.of_nat (List.length (process_dict (turns taken st))))
    = false /\
    num_paths_found_now (turns taken st)
    = num_paths_found_now st + found_in (results_of taken).
Proof.
  revert i st. induction ticks as [|tick0 rest IH]; intros i st Hc Hi Hdead;
    [destruct i; discriminate|].
  destruct (done_procs st <? Z.of_nat (List.length (process_dict st))) eqn:Hgo.
  - cbn [get_results]. rewrite Hgo.
    destruct (turn_counted tick0 st Hc) as (Hc1 & Hlen1 & Hproc1 & Hall1).
    destruct i as [|i]; cbn [nth_error] in Hi.
    + injection Hi as ->.
      assert (Hnow : forall ke, In ke (process_dict (turn tick st)) -> alive (snd ke) = false).
      { apply Hall1. intros ke Hke. apply Hdead. apply in_map_iff. eauto. }
      assert (Hend : (done_procs (turn tick st)
                      <? Z.of_nat (List.length (process_dict (turn tick st)))) = false).
      { apply Z.ltb_ge. unfold counted in Hc1. rewrite Hc1.
        apply all_dead_counted in Hnow. lia. }
      exists [tick], rest. rewrite (get_results_done rest _ Hend).
      cbn [turns fold_left]. repeat split; auto. apply turn_found.
    + destruct (IH i (turn tick0 st) Hc1 Hi) as (taken & unread & Hrun & Hsplit & Hlen
                                                  & Hc' & Hend & Hnum).
      { rewrite Hproc1. exact Hdead. }
      exists (tick0 :: taken), unread. cbn [turns fold_left].
      change (fold_left (fun st0 tick1 => turn tick1 st0) taken (turn tick0 st))
        with (turns taken (turn tick0 st)).
      repeat split; auto.
      * cbn [app]. now f_equal.
      * cbn [List.length]. lia.
      * rewrite Hnum, turn_found.
        replace (results_of (tick0 :: taken)) with (results_of [tick0] ++ results_of taken)
          by (unfold results_of; cbn [flat_map]; now rewrite app_nil_r).
        rewrite found_in_app. lia.
  - exists [], (tick0 :: rest). rewrite (get_results_done _ _ Hgo).
    cbn [turns fold_left List.length]. repeat split; auto; try lia.
    cbn. lia.
Qed.

End LoopEnds.

(** X28: the parent counts every COMPLETED result that found a path, once,
    whoever sent it: also when the sender is not in the process table, or
    sent no STARTING before, where the result raises a KeyError only after
    it is counted.  No result changes the key, the process or the alive flag
    of an entry, nor the number of processes counted as done. *)
Theorem found_paths_are_counted (results : list Workers.Message) (st : Workers.Collecting) :
  let st' := Workers.collect results st in
  Workers.num_paths_found_now st'
  = Workers.num_paths_found_now st + Workers.found_in results /\
  Workers.done_procs st' = Workers.done_procs st /\
  map (fun ke => (fst ke, Workers.process (snd ke), Workers.alive (snd ke)))
      (Workers.process_dict st')
  = map (fun ke => (fst ke, Workers.process (snd ke), Workers.alive (snd ke)))
        (Workers.process_dict st).
Proof.
  intros st'. unfold st'.
  destruct (collect_liveness results st) as (H1 & H2 & H3). auto.
Qed.

(** X29: what the parent knows of a worker once it has handled all that the
    worker sent, however the results of other workers are interleaved.  The
    entry of the worker is marked done exactly when the worker got 'DONE';
    it names the request on which pathfinding raised, and no request
    otherwise; and the crash report lists the worker, with that request,
    exactly when it is not marked done. *)
Theorem parent_sees_how_a_worker_ended (find_trip_based_pathset : Z -> option bool)
  (worker_num : Z) (todo : list Workers.Todo) (results : list Workers.Message)
  (st : Workers.Collecting) (p : nat) (a : bool) :
  NoDup (map fst (Workers.process_dict st)) ->
  Workers.lookup worker_num (Workers.process_dict st)
  = Some (Workers.mkEntry p a false None) ->
  filter (fun m => Workers.sender m =? worker_num) results
  = fst (Workers.find_trip_based_paths_process_worker find_trip_based_pathset
           worker_num todo) ->
  let st' := Workers.collect results st in
  exists e,
    Workers.lookup worker_num (Workers.process_dict st') = Some e /\
    Workers.process e = p /\ Workers.alive e = a /\
    (Workers.done e = true <->
     Workers.fate_of find_trip_based_pathset todo = Workers.Finished) /\
    (forall person_id trip_list_id_num,
       Workers.working_on e = Some (person_id, trip_list_id_num) <->
       Workers.fate_of find_trip_based_pathset todo
       = Workers.Failed person_id trip_list_id_num) /\
    (forall x, In (worker_num, x) (Workers.crashed (Workers.process_dict st')) <->
               Workers.done e = false /\ x = Workers.working_on e).
Proof.
  intros Hnd Hfresh Hsent st'.
  assert (Hkeys : NoDup (map fst (Workers.process_dict st'))).
  { destruct (collect_liveness results st) as (H1 & _ & _).
    apply (f_equal (map (fun x : Z * nat * bool => fst (fst x)))) in H1.
    rewrite !map_map in H1. cbn [fst] in H1. unfold st'.
    assert (E : map fst (Workers.process_dict (Workers.collect results st))
                = map fst (Workers.process_dict st)) by exact H1.
    now rewrite E. }
  pose proof (lookup_collect worker_num results st) as Hl.
  rewrite Hfresh, Hsent in Hl. cbn [option_map] in Hl. rewrite entry_after_run in Hl.
  fold st' in Hl.
  eexists. split; [exact Hl|].
  assert (Hcrash : forall e, Workers.lookup worker_num (Workers.process_dict st') = Some e ->
            forall x, In (worker_num, x) (Workers.crashed (Workers.process_dict st')) <->
                      Workers.done e = false /\ x = Workers.working_on e).
  { intros e He x. unfold Workers.crashed. rewrite in_map_iff. split.
    - intros ([k e'] & [= -> <-] & Hin). apply filter_In in Hin as [Hin Hd].
      cbn [snd] in *. rewrite (lookup_unique worker_num e e' _ Hkeys He Hin) in *.
      split; [now apply negb_true_iff in Hd|reflexivity].
    - intros [Hd ->]. exists (worker_num, e). split; [reflexivity|].
      apply filter_In. split; [now apply lookup_In|]. cbn [snd]. now rewrite Hd. }
  specialize (Hcrash _ Hl).
  destruct (Workers.fate_of find_trip_based_pathset todo) as [|person id|];
    cbn [Workers.process Workers.alive Workers.done Workers.working_on] in *;
    (split; [reflexivity|]); (split; [reflexivity|]);
    (split; [|split; [|exact Hcrash]]).
  - tauto.
  - intros person id. split; discriminate.
  - split; discriminate.
  - intros person' id'. split; intros [= -> ->]; reflexivity.
  - split; discriminate.
  - intros person id. split; discriminate.
Qed.

Lemma parent_sees_how_a_worker_ended_witness :
  NoDup (map fst (Workers.process_dict MoreExamples.two_started)) /\
  Workers.lookup 1 (Workers.process_dict MoreExamples.two_started)
  = Some (Workers.mkEntry 101 true false None) /\
  filter (fun m => Workers.sender m =? 1) MoreExamples.done_queue
  = fst (Workers.find_trip_based_paths_process_worker MoreExamples.finds 1
           MoreExamples.todo_of_worker_1) /\
  let st' := Workers.collect MoreExamples.done_queue MoreExamples.two_started in
  exists e,
    Workers.lookup 1 (Workers.process_dict st') = Some e /\
    Workers.process e = 101%nat /\ Workers.alive e = true /\
    (Workers.done e = true <->
     Workers.fate_of MoreExamples.finds MoreExamples.todo_of_worker_1 = Workers.Finished) /\
    (forall person_id trip_list_id_num,
       Workers.working_on e = Some (person_id, trip_list_id_num) <->
       Workers.fate_of MoreExamples.finds MoreExamples.todo_of_worker_1
       = Workers.Failed person_id trip_list_id_num) /\
    (forall x, In (1, x) (Workers.crashed (Workers.process_dict st')) <->
               Workers.done e = false /\ x = Workers.working_on e).
Proof.
  assert (Hnd : NoDup (map fst (Workers.process_dict MoreExamples.two_started))).
  { cbn. repeat constructor; cbn; intuition discriminate. }
  split; [exact Hnd|]. split; [reflexivity|]. split; [reflexivity|].
  exact (parent_sees_how_a_worker_ended MoreExamples.finds 1 MoreExamples.todo_of_worker_1
           MoreExamples.done_queue MoreExamples.two_started 101 true
           Hnd eq_refl eq_refl).
Defined.

(** X30: the result loop ends as soon as every worker has been seen not
    alive, not when every result is read.  If at some turn none of the
    started processes is alive, the loop ends at that turn or before, with
    every entry marked not alive and done_procs the number of workers; the
    paths found are counted from the results read in the turns taken, and
    the results of the later turns are left in the queue. *)
Theorem result_loop_ends_with_the_last_worker (processes : list (Z * nat)) (n : Z)
  (ticks : list Workers.Tick) (i : nat) (tick : Workers.Tick) :
  nth_error ticks i = Some tick ->
  (forall kp, In kp processes -> ~ In (snd kp) (snd tick)) ->
  let st := Workers.mkCollecting (Workers.started processes) n 0 in
  exists taken unread,
    Workers.get_results ticks st = Some (Workers.turns taken st, unread) /\
    ticks = taken ++ unread /\
    (List.length taken <= S i)%nat /\
    (forall ke, In ke (Workers.process_dict (Workers.turns taken st)) ->
                Workers.alive (snd ke) = false) /\
    Workers.done_procs (Workers.turns taken st) = Z.of_nat (List.length processes) /\
    Workers.num_paths_found_now (Workers.turns taken st)
    = n + Workers.found_in (Workers.results_of taken).
Proof.
  intros Hi Hdead st.
  assert (Hlen : forall taken, List.length (Workers.process_dict (Workers.turns taken st))
                               = List.length processes).
  { intros taken. unfold Workers.turns.
    assert (G : forall s, List.length (Workers.process_dict
                                          (fold_left (fun st0 t => Workers.turn t st0) taken s))
                          = List.length (Workers.process_dict s)).
    { induction taken as [|t0 ts IHt]; intros s; [reflexivity|]. cbn [fold_left].
      rewrite IHt. unfold Workers.turn.
      set (s1 := match fst t0 with
                 | Some result => Workers.handle_result result s | None => s end).
      assert (E1 : List.length (Workers.process_dict s1) = List.length (Workers.process_dict s)).
      { unfold s1. destruct (fst t0) as [m|]; [|reflexivity].
        destruct (handle_result_liveness m s) as (G1 & _ & _).
        apply (f_equal (@List.length _)) in G1. now rewrite !length_map in G1. }
      destruct (check_alive_spec (snd t0) (Workers.process_dict s1)) as (C1 & _).
      destruct (Workers.check_alive (snd t0) (Workers.process_dict s1)) as [t' k].
      cbn [fst Workers.process_dict] in *.
      apply (f_equal (@List.length _)) in C1. rewrite !length_map in C1. congruence. }
    rewrite G. unfold st, Workers.started. cbn [Workers.process_dict]. apply length_map. }
  destruct (get_results_ends ticks i tick st (started_counted processes n) Hi)
    as (taken & unread & Hrun & Hsplit & Hshort & Hc & Hend & Hnum).
  { intros p Hp. unfold st, Workers.started in Hp. cbn [Workers.process_dict] in Hp.
    rewrite map_map in Hp. cbn [snd Workers.process] in Hp.
    apply in_map_iff in Hp as (kp & <- & Hkp). now apply Hdead. }
  exists taken, unread.
  destruct (counted_all_dead _ Hc Hend) as [Hall Hdone].
  rewrite Hlen in Hdone. repeat split; auto.
Qed.

Lemma result_loop_ends_with_the_last_worker_witness :
  nth_error MoreExamples.quick_workers 1
  = Some (Some (Workers.Starting 2 "bob" 2), []) /\
  (forall kp, In kp [ (1, 101%nat); (2, 102%nat) ] ->
              ~ In (snd kp) (snd (Some (Workers.Starting 2 "bob" 2), @nil nat))) /\
  let st := Workers.mkCollecting (Workers.started [ (1, 101%nat); (2, 102%nat) ]) 0 0 in
  exists taken unread,
    Workers.get_results MoreExamples.quick_workers st
    = Some (Workers.turns taken st, unread) /\
    MoreExamples.quick_workers = taken ++ unread /\
    (List.length taken <= 2)%nat /\
    (forall ke, In ke (Workers.process_dict (Workers.turns taken st)) ->
                Workers.alive (snd ke) = false) /\
    Workers.done_procs (Workers.turns taken st)
    = Z.of_nat (List.length [ (1, 101%nat); (2, 102%nat) ]) /\
    Workers.num_paths_found_now (Workers.turns taken st)
    = 0 + Workers.found_in (Workers.results_of taken).
Proof.
  assert (Hdead : forall kp : Z * nat, In kp [ (1, 101%nat); (2, 102%nat) ] ->
                    ~ In (snd kp) (snd (Some (Workers.Starting 2 "bob" 2), @nil nat)))
    by (intros kp _ []).
  split; [reflexivity|]. split; [exact Hdead|].
  exact (result_loop_ends_with_the_last_worker [ (1, 101%nat); (2, 102%nat) ] 0
           MoreExamples.quick_workers 1 (Some (Workers.Starting 2 "bob" 2), [])
           eq_refl Hdead).
Defined.
